(** * check-print-api: invoice workflow, check issuance and bulk import

    A shallow embedding of the request handlers of the invoice-to-check
    backend (app/api/routes/invoices.py, checks.py, auth.py, vendors.py,
    and the engine URL of app/core/database.py) together with the
    relational store they act on (app/models/*.py), and the properties of
    the workflow proved about them.

    Conventions of the embedding.
    - A Python [str] is a [string] whose characters are code points below
      256; a Python [int] is a [Z].
    - A handler is a computation over the SQLAlchemy session: it reads and
      writes the store and either returns or raises.  [get_db] commits on
      return and rolls back on any exception, as in app/core/database.py.
    - Primary keys come from the store's sequences.  The server-maintained
      timestamps (created_at, updated_at, imported_at) are not part of the
      model, and a row holds the values the handler wrote: what the
      database makes of a value it accepts (rounding to Numeric(12, 2),
      dropping spaces beyond the width of a String(n)) is left out, as are
      the widths of the columns, with one exception: the memo of a check,
      which the request for the check supplies, must fit its String(500)
      column, or the insert of the check is refused.  A unique column
      makes a write raise where the handler writes without looking first:
      the check_number of a new check, the name of a vendor on update.
    - The libraries the handlers call (decimal, dateutil, csv, openpyxl)
      are parameters of the development; dateutil is given the day of the
      call, from which it fills in what a date text leaves out. *)

From Stdlib Require Import ZArith String Ascii List Bool Lia.
From Stdlib Require Import DecimalString DecimalZ.
From stdpp Require Import base option list strings gmap.

Local Open Scope Z_scope.
Local Open Scope string_scope.

(** ** Python strings *)

Module Py.

(** [str.isspace] on the code points below 256. *)
Definition isspace (c : ascii) : bool :=
  let n := N_of_ascii c in
  ((9 <=? n) && (n <=? 13) || (28 <=? n) && (n <=? 32)
   || (n =? 133) || (n =? 160))%N.

Fixpoint lstrip (s : string) : string :=
  match s with
  | String c s' => if isspace c then lstrip s' else s
  | EmptyString => EmptyString
  end.

Fixpoint rstrip (s : string) : string :=
  match s with
  | String c s' =>
      match rstrip s' with
      | EmptyString => if isspace c then EmptyString else String c EmptyString
      | r => String c r
      end
  | EmptyString => EmptyString
  end.

(** [s.strip()] *)
Definition strip (s : string) : string := rstrip (lstrip s).

(** [s.lower()] on the code points below 256. *)
Definition lower_char (c : ascii) : ascii :=
  let n := N_of_ascii c in
  if ((65 <=? n) && (n <=? 90)
      || (192 <=? n) && (n <=? 222) && negb (n =? 215))%N
  then ascii_of_N (n + 32) else c.

Fixpoint lower (s : string) : string :=
  match s with
  | String c s' => String (lower_char c) (lower s')
  | EmptyString => EmptyString
  end.

(** [s.endswith(suffix)] *)
Definition endswith (s suffix : string) : bool :=
  let n := String.length s in
  let k := String.length suffix in
  (k <=? n)%nat && String.eqb (substring (n - k) k s) suffix.

(** [bool(s)] for a string: non-empty. *)
Definition nonempty (s : string) : bool :=
  match s with EmptyString => false | _ => true end.

(** [str(n)] for an integer. *)
Definition str_int (n : Z) : string := NilZero.string_of_int (Z.to_int n).

Fixpoint zeros (n : nat) : string :=
  match n with O => EmptyString | S n' => String "0" (zeros n') end.

(** [f"{n:06d}"]: sign first, then zeros up to a total width of six. *)
Definition format_06d (n : Z) : string :=
  let digits := str_int (Z.abs n) in
  let sign := if (n <? 0)%Z then "-" else "" in
  sign ++ zeros (6 - String.length sign - String.length digits) ++ digits.

End Py.

(** ** Values of the libraries *)

(** A [decimal.Decimal]: sign, coefficient and exponent, or a special value. *)
Inductive PyDecimal :=
| Finite (negative : bool) (coefficient : N) (exponent : Z)
| Infinity (negative : bool)
| NaN (negative signaling : bool) (diagnostic : N).

(** A [datetime.date]. *)
Record PyDate := mkdate { year : Z; month : Z; day : Z }.

(** A cell of an imported row: what csv.DictReader or openpyxl hands over.
    [VOther] stands for the remaining cell types (float, datetime), of
    which the importer only uses [str(v)] and [bool(v)]. *)
Inductive PyVal :=
| VNone
| VStr (s : string)
| VInt (n : Z)
| VOther (repr : string) (truth : bool).

(** [str(v)] *)
Definition py_str (v : PyVal) : string :=
  match v with
  | VNone => "None"
  | VStr s => s
  | VInt n => Py.str_int n
  | VOther repr _ => repr
  end.

(** [bool(v)] *)
Definition py_truthy (v : PyVal) : bool :=
  match v with
  | VNone => false
  | VStr s => Py.nonempty s
  | VInt n => negb (n =? 0)%Z
  | VOther _ truth => truth
  end.

(** [v or ""] *)
Definition or_empty (v : PyVal) : PyVal := if py_truthy v then v else VStr "".

(** An imported row is a [dict] from column name to cell. *)
Abbreviation Row := (gmap string PyVal).

(** [row.get(key, "")] *)
Definition row_get (row : Row) (key : string) : PyVal :=
  default (VStr "") (row !! key).

(** [str(row.get(key, "")).strip()] *)
Definition field (row : Row) (key : string) : string :=
  Py.strip (py_str (row_get row key)).

(** [str(row.get(key, "") or "").strip()] *)
Definition field_or_empty (row : Row) (key : string) : string :=
  Py.strip (py_str (or_empty (row_get row key))).

(** The numeric strings [decimal.Decimal] accepts (Lib/_pydecimal.py,
    [_parser]): an optional sign, then digits with an optional fraction and
    exponent, or Inf/Infinity, or NaN/sNaN with optional digits; surrounding
    white space and underscores are dropped first. *)
Module DecimalSyntax.

Definition is_digit (c : ascii) : bool :=
  ((48 <=? N_of_ascii c) && (N_of_ascii c <=? 57))%N.

Fixpoint span_digits (s : string) : string * string :=
  match s with
  | String c s' =>
      if is_digit c then let '(d, r) := span_digits s' in (String c d, r)
      else (EmptyString, s)
  | EmptyString => (EmptyString, EmptyString)
  end.

Fixpoint digits_value (acc : N) (s : string) : N :=
  match s with
  | String c s' => digits_value (10 * acc + (N_of_ascii c - 48))%N s'
  | EmptyString => acc
  end.

Fixpoint drop_underscores (s : string) : string :=
  match s with
  | String c s' =>
      if Ascii.eqb c "_" then drop_underscores s'
      else String c (drop_underscores s')
  | EmptyString => EmptyString
  end.

Definition split_sign (s : string) : bool * string :=
  match s with
  | String "-" s' => (true, s')
  | String "+" s' => (false, s')
  | _ => (false, s)
  end.

(** [(E(?P<exp>[-+]?\d+))?\Z] *)
Definition exponent_part (s : string) : option Z :=
  match s with
  | EmptyString => Some 0%Z
  | String c s' =>
      if Ascii.eqb (Py.lower_char c) "e" then
        let '(neg, s'') := split_sign s' in
        match span_digits s'' with
        | (String d ds, EmptyString) =>
            let e := Z.of_N (digits_value 0 (String d ds)) in
            Some (if neg then - e else e)%Z
        | _ => None
        end
      else None
  end.

Definition number (neg : bool) (s : string) : option PyDecimal :=
  let '(intpart, r1) := span_digits s in
  let '(fracpart, r2) :=
    match r1 with
    | String "." r => span_digits r
    | _ => (EmptyString, r1)
    end in
  if Py.nonempty intpart || Py.nonempty fracpart then
    match exponent_part r2 with
    | Some e =>
        Some (Finite neg (digits_value 0 (intpart ++ fracpart))
                (e - Z.of_nat (String.length fracpart)))
    | None => None
    end
  else None.

Definition special (neg : bool) (s : string) : option PyDecimal :=
  let l := Py.lower s in
  if String.eqb l "inf" || String.eqb l "infinity" then Some (Infinity neg)
  else
    match l with
    | String "n" (String "a" (String "n" d)) =>
        match span_digits d with
        | (ds, EmptyString) => Some (NaN neg false (digits_value 0 ds))
        | _ => None
        end
    | String "s" (String "n" (String "a" (String "n" d))) =>
        match span_digits d with
        | (ds, EmptyString) => Some (NaN neg true (digits_value 0 ds))
        | _ => None
        end
    | _ => None
    end.

(** [Decimal(s)]; [None] is [InvalidOperation]. *)
Definition parse (s : string) : option PyDecimal :=
  let '(neg, body) := split_sign (drop_underscores (Py.strip s)) in
  match number neg body with
  | Some d => Some d
  | None => special neg body
  end.

End DecimalSyntax.

(** ** Rows of the store (app/models) *)

Module Vendor.
Record t := mk {
  id : Z;
  name : string;
  address : option string;
  city : option string;
  state : option string;
  zip_code : option string;
  phone : option string;
  email : option string }.
End Vendor.

Module User.
Record t := mk {
  id : Z;
  email : string;
  hashed_password : string;
  full_name : string;
  role : string;
  is_active : bool }.

Definition with_role (r : string) (u : t) : t :=
  mk (id u) (email u) (hashed_password u) (full_name u) r (is_active u).

Definition with_is_active (b : bool) (u : t) : t :=
  mk (id u) (email u) (hashed_password u) (full_name u) (role u) b.
End User.

Module Check.
Record t := mk {
  id : Z;
  check_number : string;
  vendor_id : Z;
  amount : PyDecimal;
  status : string;
  issue_date : PyDate;
  memo : option string }.
End Check.

Module Invoice.
Record t := mk {
  id : Z;
  invoice_number : string;
  store_number : option string;
  vendor_id : Z;
  amount : PyDecimal;
  invoice_date : PyDate;
  status : string;
  check_id : option Z;
  notes : option string;
  attachment_filename : option string;
  source_type : option string;
  imported_by_id : option Z }.

Definition with_status (s : string) (i : t) : t :=
  mk (id i) (invoice_number i) (store_number i) (vendor_id i) (amount i)
     (invoice_date i) s (check_id i) (notes i) (attachment_filename i)
     (source_type i) (imported_by_id i).

Definition with_check_id (c : option Z) (i : t) : t :=
  mk (id i) (invoice_number i) (store_number i) (vendor_id i) (amount i)
     (invoice_date i) (status i) c (notes i) (attachment_filename i)
     (source_type i) (imported_by_id i).

Definition with_notes (n : option string) (i : t) : t :=
  mk (id i) (invoice_number i) (store_number i) (vendor_id i) (amount i)
     (invoice_date i) (status i) (check_id i) n (attachment_filename i)
     (source_type i) (imported_by_id i).
End Invoice.

(** ** The store and the session *)

Record Store := mkStore {
  vendors : list Vendor.t;
  invoices : list Invoice.t;
  checks : list Check.t;
  users : list User.t;
  (* last value handed out by each table's id sequence *)
  vendors_id_seq : Z;
  invoices_id_seq : Z;
  checks_id_seq : Z;
  users_id_seq : Z }.

Inductive Exn :=
| HTTPException (status_code : Z) (detail : string)
| TypeError (msg : string)
| IntegrityError (msg : string)
| DBAPIError (msg : string)
| LibraryError (msg : string).

Inductive Outcome (A : Type) :=
| Return (a : A)
| Raise (e : Exn).
Arguments Return {A} a.
Arguments Raise {A} e.

(** A handler body: runs against the session, returns or raises. *)
Definition Session (A : Type) : Type := Store -> Outcome A * Store.

Definition ret {A} (a : A) : Session A := fun db => (Return a, db).

Definition raise {A} (e : Exn) : Session A := fun db => (Raise e, db).

Definition bind {A B} (k : A -> Session B) (m : Session A) : Session B :=
  fun db =>
    match m db with
    | (Return a, db') => k a db'
    | (Raise e, db') => (Raise e, db')
    end.

(** [x ← m; k] runs [m], then [k] on its result unless [m] raised. *)
#[global] Instance session_ret : MRet Session := @ret.
#[global] Instance session_bind : MBind Session := @bind.

(** Sequences are not transactional: a rollback restores the tables and
    leaves the sequences where they are. *)
Definition rollback (before now : Store) : Store :=
  mkStore (vendors before) (invoices before) (checks before) (users before)
          (vendors_id_seq now) (invoices_id_seq now) (checks_id_seq now)
          (users_id_seq now).

(** [get_db] (app/core/database.py): commit on return, roll back and
    re-raise on any exception. *)
Definition get_db {A} (endpoint : Session A) : Session A :=
  fun db =>
    match endpoint db with
    | (Return a, db') => (Return a, db')
    | (Raise e, db') => (Raise e, rollback db db')
    end.

(** *** Queries *)

Definition find_invoice (invoice_id : Z) (db : Store) : option Invoice.t :=
  find (fun i => Invoice.id i =? invoice_id)%Z (invoices db).

Definition find_invoice_by_number (number : string) (db : Store)
  : option Invoice.t :=
  find (fun i => String.eqb (Invoice.invoice_number i) number) (invoices db).

Definition find_invoice_of_check (check_id : Z) (db : Store)
  : option Invoice.t :=
  find (fun i => match Invoice.check_id i with
                 | Some c => (c =? check_id)%Z
                 | None => false
                 end) (invoices db).

Definition find_vendor (vendor_id : Z) (db : Store) : option Vendor.t :=
  find (fun v => Vendor.id v =? vendor_id)%Z (vendors db).

Definition find_vendor_by_name (name : string) (db : Store)
  : option Vendor.t :=
  find (fun v => String.eqb (Vendor.name v) name) (vendors db).

Definition find_check (check_id : Z) (db : Store) : option Check.t :=
  find (fun c => Check.id c =? check_id)%Z (checks db).

Definition find_user (user_id : Z) (db : Store) : option User.t :=
  find (fun u => User.id u =? user_id)%Z (users db).

(** [select(func.max(Check.id))]: NULL on an empty table. *)
Definition max_check_id (db : Store) : option Z :=
  match checks db with
  | [] => None
  | c :: cs => Some (fold_left Z.max (map Check.id cs) (Check.id c))
  end.

Definition query {A} (q : Store -> A) : Session A := fun db => (Return (q db), db).

(** *** Writes *)

(** [db.add(Vendor(...)); flush]: the row gets the next id. *)
Definition add_vendor (mk_row : Z -> Vendor.t) : Session Vendor.t :=
  fun db =>
    let new_id := (vendors_id_seq db + 1)%Z in
    (Return (mk_row new_id),
     mkStore (vendors db ++ [mk_row new_id]) (invoices db) (checks db)
             (users db) new_id (invoices_id_seq db) (checks_id_seq db)
             (users_id_seq db)).

Definition add_invoice (mk_row : Z -> Invoice.t) : Session Invoice.t :=
  fun db =>
    let new_id := (invoices_id_seq db + 1)%Z in
    (Return (mk_row new_id),
     mkStore (vendors db) (invoices db ++ [mk_row new_id]) (checks db)
             (users db) (vendors_id_seq db) new_id (checks_id_seq db)
             (users_id_seq db)).

(** Whether a text fits a [String(n)] column: PostgreSQL refuses a
    value of more than [n] characters unless the characters after the
    [n]-th are all spaces. *)
Fixpoint only_spaces (s : string) : bool :=
  match s with
  | EmptyString => true
  | String c rest => Ascii.eqb c " " && only_spaces rest
  end.

Definition fits_varchar (n : nat) (s : string) : bool :=
  (String.length s <=? n)%nat
  || only_spaces (substring n (String.length s - n) s).

(** Whether a check already carries the number; [check_number] is unique
    (app/models/check.py). *)
Definition number_taken (number : string) (db : Store) : bool :=
  existsb (fun c => String.eqb (Check.check_number c) number) (checks db).

(** The store after an id was drawn from the sequence of the checks. *)
Definition draw_check_id (db : Store) : Store :=
  mkStore (vendors db) (invoices db) (checks db) (users db)
          (vendors_id_seq db) (invoices_id_seq db) (checks_id_seq db + 1)
          (users_id_seq db).

(** [db.add(Check(...)); flush].  The database refuses a memo that does
    not fit the String(500) column, and refuses a check_number that is
    already on a check; the unique index is consulted after the row has
    drawn its id, which is then lost. *)
Definition add_check (mk_row : Z -> Check.t) : Session Check.t :=
  fun db =>
    let new_id := (checks_id_seq db + 1)%Z in
    let row := mk_row new_id in
    if negb (from_option (fits_varchar 500) true (Check.memo row)) then
      (Raise (DBAPIError "value too long for type character varying(500)"),
       db)
    else if number_taken (Check.check_number row) db then
      (Raise (IntegrityError "duplicate key value: checks.check_number"),
       draw_check_id db)
    else
      (Return row,
       mkStore (vendors db) (invoices db) (checks db ++ [row])
               (users db) (vendors_id_seq db) (invoices_id_seq db) new_id
               (users_id_seq db)).

(** Flush of a changed invoice: UPDATE ... WHERE id = the row's id. *)
Definition flush_invoice (row : Invoice.t) : Session unit :=
  fun db =>
    (Return tt,
     mkStore (vendors db)
             (map (fun i => if (Invoice.id i =? Invoice.id row)%Z
                            then row else i) (invoices db))
             (checks db) (users db) (vendors_id_seq db) (invoices_id_seq db)
             (checks_id_seq db) (users_id_seq db)).

Definition flush_user (row : User.t) : Session unit :=
  fun db =>
    (Return tt,
     mkStore (vendors db) (invoices db) (checks db)
             (map (fun u => if (User.id u =? User.id row)%Z
                            then row else u) (users db))
             (vendors_id_seq db) (invoices_id_seq db) (checks_id_seq db)
             (users_id_seq db)).

(** ** Request and response schemas (app/schemas) *)

Record InvoiceResponse := mkInvoiceResponse {
  r_id : Z;
  r_invoice_number : string;
  r_store_number : option string;
  r_vendor_id : Z;
  r_vendor_name : option string;
  r_amount : PyDecimal;
  r_invoice_date : PyDate;
  r_status : string;
  r_check_id : option Z;
  r_check_number : option string;
  r_notes : option string;
  r_attachment_filename : option string;
  r_source_type : option string;
  r_imported_by_name : option string }.

(** [InvoiceUpdate]: each field is unset, or set to null or to a string
    ([model_dump(exclude_unset=True)] keeps exactly the fields that are set). *)
Record InvoiceUpdate := mkInvoiceUpdate {
  u_notes : option (option string);
  u_status : option (option string) }.

Record ImportSummary := mkImportSummary {
  total_rows : Z;
  imported : Z;
  skipped_duplicates : Z;
  errors : list string }.

Record CheckResponse := mkCheckResponse {
  c_id : Z;
  c_check_number : string;
  c_vendor_id : Z;
  c_vendor_name : option string;
  c_amount : PyDecimal;
  c_status : string;
  c_issue_date : PyDate;
  c_memo : option string;
  c_invoice_number : option string }.

Record GenerateCheckRequest := mkGenerateCheckRequest {
  g_invoice_id : Z;
  g_memo : option string }.

(** An uploaded file: its name and its bytes. *)
Record UploadFile := mkUploadFile {
  filename : string;
  content : string }.

(** ** What the libraries return *)

(** [dateutil.parser.parse(s).date()]: a date, a ValueError or TypeError
    (which the handlers catch), or another exception (which they do not). *)
Inductive DateParse :=
| ParsedDate (d : PyDate)
| ParseValueError
| ParseOtherError (e : Exn).

(** A [csv.DictReader]: its [fieldnames] (None on an empty file) and the
    rows it yields; reading either may raise. *)
Record CsvReader := mkCsvReader {
  fieldnames : Outcome (option (list string));
  csv_rows : Outcome (list Row) }.

(** The active sheet of a workbook: the cell values of row 1, and the
    values of the rows from row 2 on. *)
Record Worksheet := mkWorksheet {
  header_cells : list PyVal;
  data_rows : list (list PyVal) }.

(** Lift a library call that may raise into the session. *)
Definition lift {A} (o : Outcome A) : Session A := fun db => (o, db).

Definition bool_of {A} (o : option A) : bool :=
  match o with Some _ => true | None => false end.

(** [", ".join(l)] *)
Fixpoint join_comma (l : list string) : string :=
  match l with
  | [] => ""
  | [x] => x
  | x :: rest => x ++ ", " ++ join_comma rest
  end.

(** [required.issubset(set(names))] *)
Definition issubset (required names : list string) : bool :=
  forallb (fun r => existsb (String.eqb r) names) required.

(** ** The handlers *)

Section Handlers.

(** [decimal.Decimal(s)]; [None] stands for InvalidOperation. *)
Variable Decimal : string -> option PyDecimal.
(** [dateutil.parser.parse(s).date()], called on the given day: dateutil
    takes the fields the text leaves out from the current date, so the
    result depends on the day of the call. *)
Variable parse_date : PyDate -> string -> DateParse.
(** [bytes.decode("utf-8-sig")] *)
Variable decode_utf8_sig : string -> Outcome string.
(** [csv.DictReader(io.StringIO(text))] *)
Variable DictReader : string -> CsvReader.
(** [openpyxl.load_workbook(...).active] with its rows read *)
Variable load_workbook : string -> Outcome Worksheet.
(** [os.path.splitext(name)[1]] *)
Variable splitext_ext : string -> string.
(** The order in which a Python set yields its elements. *)
Variable set_iter : list string -> list string.

(** *** app/api/routes/invoices.py *)

Definition _to_response (inv : Invoice.t) (db : Store) : InvoiceResponse :=
  mkInvoiceResponse
    (Invoice.id inv)
    (Invoice.invoice_number inv)
    (Invoice.store_number inv)
    (Invoice.vendor_id inv)
    (Vendor.name <$> find_vendor (Invoice.vendor_id inv) db)
    (Invoice.amount inv)
    (Invoice.invoice_date inv)
    (Invoice.status inv)
    (Invoice.check_id inv)
    (Check.check_number <$> (Invoice.check_id inv ≫= fun c => find_check c db))
    (Invoice.notes inv)
    (Invoice.attachment_filename inv)
    (Invoice.source_type inv)
    (User.full_name <$> (Invoice.imported_by_id inv ≫= fun u => find_user u db)).

(** [for key, value in body.model_dump(exclude_unset=True).items():
        setattr(inv, key, value)] for the notes field. *)
Definition patch_notes (body : InvoiceUpdate) (inv : Invoice.t) : Invoice.t :=
  match u_notes body with
  | Some n => Invoice.with_notes n inv
  | None => inv
  end.

(** PUT /api/invoices/{invoice_id}.  The status column is NOT NULL: a
    status set to null makes the flush raise. *)
Definition update_invoice (invoice_id : Z) (body : InvoiceUpdate)
    (current_user : User.t) : Session InvoiceResponse :=
  found ← query (find_invoice invoice_id);
  match found with
  | None => raise (HTTPException 404 "Invoice not found")
  | Some inv =>
      match u_status body with
      | Some None =>
          raise (IntegrityError "null value in column status")
      | Some (Some s) =>
          let inv' := Invoice.with_status s (patch_notes body inv) in
          flush_invoice inv';;
          query (_to_response inv')
      | None =>
          let inv' := patch_notes body inv in
          flush_invoice inv';;
          query (_to_response inv')
      end
  end.

(** POST /api/invoices/{invoice_id}/approve *)
Definition approve_invoice (invoice_id : Z) (current_user : User.t)
  : Session InvoiceResponse :=
  found ← query (find_invoice invoice_id);
  match found with
  | None => raise (HTTPException 404 "Invoice not found")
  | Some inv =>
      if negb (String.eqb (Invoice.status inv) "PENDING") then
        raise (HTTPException 400
                 ("Cannot approve invoice with status " ++ Invoice.status inv))
      else
        let inv' := Invoice.with_status "APPROVED" inv in
        flush_invoice inv';;
        query (_to_response inv')
  end.

Definition _find_or_create_vendor (name : string) : Session Vendor.t :=
  found ← query (find_vendor_by_name name);
  match found with
  | Some vendor => mret vendor
  | None =>
      add_vendor (fun new_id =>
        Vendor.mk new_id name None None None None None None)
  end.

(** [s.strip() or None] *)
Definition strip_or_none (s : string) : option string :=
  let t := Py.strip s in if Py.nonempty t then Some t else None.

Definition add_error (msg : string) (t : ImportSummary) : ImportSummary :=
  mkImportSummary (total_rows t) (imported t) (skipped_duplicates t)
                  (errors t ++ [msg]).

(** One turn of the loop of [_import_rows]: [i] is the number that
    [enumerate(rows, start=2)] gives the row, [t] the counters so far. *)
Definition import_row (source : string) (user_id : Z) (today : PyDate)
    (i : Z) (row : Row) (t : ImportSummary) : Session ImportSummary :=
  let t := mkImportSummary (total_rows t + 1) (imported t)
                           (skipped_duplicates t) (errors t) in
  let inv_num := field row "invoice_number" in
  let store_num := field_or_empty row "store_number" in
  let vendor_name := field row "vendor_name" in
  let amount_str := field row "amount" in
  let date_str := field_or_empty row "invoice_date" in
  if negb (Py.nonempty inv_num) || negb (Py.nonempty vendor_name)
     || negb (Py.nonempty amount_str) || negb (Py.nonempty store_num)
  then
    mret (add_error ("Row " ++ Py.str_int i ++ ": missing required field(s)") t)
  else
    match Decimal amount_str with
    | None =>
        mret (add_error ("Row " ++ Py.str_int i ++ ": invalid amount '"
                         ++ amount_str ++ "'") t)
    | Some amount =>
        let insert (inv_date : PyDate) : Session ImportSummary :=
          existing ← query (find_invoice_by_number inv_num);
          if bool_of existing then
            mret (mkImportSummary (total_rows t) (imported t)
                                  (skipped_duplicates t + 1) (errors t))
          else
            vendor ← _find_or_create_vendor vendor_name;
            add_invoice (fun new_id =>
              Invoice.mk new_id inv_num (Some store_num) (Vendor.id vendor)
                amount inv_date "PENDING" None
                (let notes := field_or_empty row "notes" in
                 if Py.nonempty notes then Some notes else None)
                None (Some source) (Some user_id));;
            mret (mkImportSummary (total_rows t) (imported t + 1)
                                  (skipped_duplicates t) (errors t))
        in
        if Py.nonempty date_str then
          match parse_date today date_str with
          | ParsedDate d => insert d
          | ParseValueError =>
              mret (add_error ("Row " ++ Py.str_int i ++ ": invalid date '"
                               ++ date_str ++ "'") t)
          | ParseOtherError e => raise e
          end
        else insert today
    end.

Fixpoint import_loop (source : string) (user_id : Z) (today : PyDate)
    (i : Z) (rows : list Row) (t : ImportSummary) : Session ImportSummary :=
  match rows with
  | [] => mret t
  | row :: rest =>
      t' ← import_row source user_id today i row t;
      import_loop source user_id today (i + 1) rest t'
  end.

Definition _import_rows (rows : list Row) (source : string) (user_id : Z)
    (today : PyDate) : Session ImportSummary :=
  import_loop source user_id today 2 rows (mkImportSummary 0 0 0 []).

(** A positional argument of a Python call. *)
Inductive PyArg :=
| ARows (rows : list Row)
| AStr (s : string)
| ASession
| AInt (n : Z).

Definition quoted (name : string) : string := "'" ++ name ++ "'".

(** How CPython lists the missing parameters in its TypeError. *)
Fixpoint missing_names (names : list string) : string :=
  match names with
  | [] => ""
  | [a] => quoted a
  | [a; b] => quoted a ++ " and " ++ quoted b
  | a :: rest =>
      quoted a ++ ", " ++
      match rest with
      | [b; c] => quoted b ++ ", and " ++ quoted c
      | _ => missing_names rest
      end
  end.

(** Binding of positional arguments to parameters that have no default:
    the TypeError CPython raises when their numbers differ. *)
Definition arity_error (fname : string) (params : list string) (nargs : nat)
  : option Exn :=
  let n := length params in
  if (nargs <? n)%nat then
    Some (TypeError
      (fname ++ "() missing " ++ Py.str_int (Z.of_nat (n - nargs))
       ++ " required positional argument"
       ++ (if (n - nargs =? 1)%nat then "" else "s") ++ ": "
       ++ missing_names (drop nargs params)))
  else if (n <? nargs)%nat then
    Some (TypeError
      (fname ++ "() takes " ++ Py.str_int (Z.of_nat n)
       ++ " positional arguments but " ++ Py.str_int (Z.of_nat nargs)
       ++ " were given"))
  else None.

(** A call of [async def _import_rows(rows, source, db, user_id)] with
    the given positional arguments. *)
Definition call__import_rows (args : list PyArg) (today : PyDate)
  : Session ImportSummary :=
  match arity_error "_import_rows" ["rows"; "source"; "db"; "user_id"]
          (length args) with
  | Some e => raise e
  | None =>
      match args with
      | [ARows rows; AStr source; ASession; AInt user_id] =>
          _import_rows rows source user_id today
      | _ => raise (TypeError "argument of the wrong type")
      end
  end.

Definition required_columns : list string :=
  ["invoice_number"; "store_number"; "vendor_name"; "amount"].

(** [{headers[i]: (row[i] if i < len(row) else None)
      for i in range(len(headers))}]: a later column of the same name
    replaces an earlier one. *)
Fixpoint row_dict (headers : list string) (row : list PyVal) (acc : Row)
  : Row :=
  match headers with
  | [] => acc
  | h :: hs => row_dict hs (tail row) (<[h := default VNone (head row)]> acc)
  end.

(** POST /api/invoices/import *)
Definition import_file (file : UploadFile) (today : PyDate)
    (current_user : User.t) : Session ImportSummary :=
  let name := Py.lower (filename file) in
  if Py.endswith name ".csv" then
    text ← lift (decode_utf8_sig (content file));
    let reader := DictReader text in
    names ← lift (fieldnames reader);
    if negb (issubset required_columns (default [] names)) then
      raise (HTTPException 400
               ("File must contain columns: "
                ++ join_comma (set_iter required_columns)))
    else
      rows ← lift (csv_rows reader);
      call__import_rows [ARows rows; AStr "csv"; ASession] today
  else if Py.endswith name ".xlsx" || Py.endswith name ".xls" then
    ws ← lift (load_workbook (content file));
    let headers :=
      map (fun v => Py.lower (Py.strip (py_str (or_empty v))))
          (header_cells ws) in
    if negb (issubset required_columns headers) then
      raise (HTTPException 400
               ("Excel must contain columns: "
                ++ join_comma (set_iter required_columns)))
    else
      let rows := map (fun row => row_dict headers row ∅) (data_rows ws) in
      call__import_rows [ARows rows; AStr "excel"; ASession] today
  else
    raise (HTTPException 400 "File must be .csv or .xlsx").

Definition allowed_extensions : list string :=
  [".pdf"; ".jpg"; ".jpeg"; ".png"; ".gif"; ".webp"; ".tiff"; ".bmp"].

(** The attachment branch of [create_invoice_manual]: the stored name is
    [uuid.uuid4().hex] followed by the extension.  Writing the bytes to the
    upload directory does not touch the store. *)
Definition save_attachment (file : option UploadFile) (uuid_hex : string)
  : Session (option string) :=
  match file with
  | Some f =>
      if Py.nonempty (filename f) then
        let ext := Py.lower (splitext_ext (filename f)) in
        if negb (existsb (String.eqb ext) allowed_extensions) then
          raise (HTTPException 400
                   ("File type " ++ ext ++ " not supported. Allowed: "
                    ++ join_comma (set_iter allowed_extensions)))
        else mret (Some (uuid_hex ++ ext))
      else mret None
  | None => mret None
  end.

(** POST /api/invoices/create *)
Definition create_invoice_manual (invoice_number store_number : string)
    (vendor_id : Z) (amount invoice_date notes : string)
    (file : option UploadFile) (uuid_hex : string) (today : PyDate)
    (current_user : User.t) : Session InvoiceResponse :=
  match Decimal amount with
  | None => raise (HTTPException 400 ("Invalid amount: " ++ amount))
  | Some amt =>
      match parse_date today invoice_date with
      | ParseValueError =>
          raise (HTTPException 400 ("Invalid date: " ++ invoice_date))
      | ParseOtherError e => raise e
      | ParsedDate inv_date =>
          existing ← query (find_invoice_by_number invoice_number);
          if bool_of existing then
            raise (HTTPException 400
                     ("Invoice " ++ invoice_number ++ " already exists"))
          else
            found ← query (find_vendor vendor_id);
            match found with
            | None => raise (HTTPException 400 "Vendor not found")
            | Some vendor =>
                attachment_name ← save_attachment file uuid_hex;
                invoice ← add_invoice (fun new_id =>
                  Invoice.mk new_id invoice_number (Some store_number)
                    (Vendor.id vendor) amt inv_date "PENDING" None
                    (strip_or_none notes) attachment_name
                    (Some (if from_option Py.nonempty false attachment_name
                           then "upload" else "manual"))
                    (Some (User.id current_user)));
                query (_to_response invoice)
            end
      end
  end.

(** *** app/api/routes/checks.py *)

Definition _check_to_response (chk : Check.t) (db : Store) : CheckResponse :=
  mkCheckResponse
    (Check.id chk)
    (Check.check_number chk)
    (Check.vendor_id chk)
    (Vendor.name <$> find_vendor (Check.vendor_id chk) db)
    (Check.amount chk)
    (Check.status chk)
    (Check.issue_date chk)
    (Check.memo chk)
    (Invoice.invoice_number <$> find_invoice_of_check (Check.id chk) db).

(** [if invoice.check_id:] is false for None and for 0. *)
Definition check_id_truthy (check_id : option Z) : bool :=
  match check_id with
  | Some c => negb (c =? 0)%Z
  | None => false
  end.

(** [f"CHK-{max_id + 1:06d}"] with [max_id = max(Check.id) or 0]. *)
Definition next_check_number (db : Store) : string :=
  let max_id := default 0%Z (max_check_id db) in
  "CHK-" ++ Py.format_06d (max_id + 1).

(** [body.memo or f"Payment for invoice {invoice.invoice_number}"] *)
Definition memo_or_default (memo : option string) (inv : Invoice.t) : string :=
  match memo with
  | Some m =>
      if Py.nonempty m then m
      else "Payment for invoice " ++ Invoice.invoice_number inv
  | None => "Payment for invoice " ++ Invoice.invoice_number inv
  end.

(** POST /api/checks *)
Definition generate_check (body : GenerateCheckRequest) (today : PyDate)
    (current_user : User.t) : Session CheckResponse :=
  found ← query (find_invoice (g_invoice_id body));
  match found with
  | None => raise (HTTPException 404 "Invoice not found")
  | Some invoice =>
      if negb (String.eqb (Invoice.status invoice) "APPROVED") then
        raise (HTTPException 400
                 ("Invoice must be APPROVED (current: "
                  ++ Invoice.status invoice ++ ")"))
      else if check_id_truthy (Invoice.check_id invoice) then
        raise (HTTPException 400 "Invoice already has a check assigned")
      else
        check_number ← query next_check_number;
        check ← add_check (fun new_id =>
          Check.mk new_id check_number (Invoice.vendor_id invoice)
            (Invoice.amount invoice) "GENERATED" today
            (Some (memo_or_default (g_memo body) invoice)));
        flush_invoice
          (Invoice.with_status "CHECK_GENERATED"
             (Invoice.with_check_id (Some (Check.id check)) invoice));;
        query (_check_to_response check)
  end.

(** *** app/api/routes/auth.py *)

(** PUT /api/auth/users/{user_id}/role *)
Definition update_user_role (user_id : Z) (role : string)
    (current_user : User.t) : Session User.t :=
  if negb (existsb (String.eqb role) ["ADMIN"; "CLERK"; "VIEWER"]) then
    raise (HTTPException 400 "Invalid role. Must be ADMIN, CLERK, or VIEWER")
  else if (user_id =? User.id current_user)%Z then
    raise (HTTPException 400 "Cannot change your own role")
  else
    found ← query (find_user user_id);
    match found with
    | None => raise (HTTPException 404 "User not found")
    | Some user =>
        let user' := User.with_role role user in
        flush_user user';;
        mret user'
    end.

(** PUT /api/auth/users/{user_id}/toggle-active *)
Definition toggle_user_active (user_id : Z) (current_user : User.t)
  : Session User.t :=
  if (user_id =? User.id current_user)%Z then
    raise (HTTPException 400 "Cannot deactivate yourself")
  else
    found ← query (find_user user_id);
    match found with
    | None => raise (HTTPException 404 "User not found")
    | Some user =>
        let user' := User.with_is_active (negb (User.is_active user)) user in
        flush_user user';;
        mret user'
    end.

End Handlers.

(** ** The role check and the routes *)

(** Modelled from the spec: app/core/security.py, which defines the
    dependencies [allow_admin], [allow_admin_clerk] and [allow_all_roles],
    is not among the sources.  Per the specification the roles are a flat
    set checked per operation by a capability check, a role failure is a
    Forbidden (403) error, VIEWER may read, and any role may use the update
    path; the read routes are guarded by [allow_all_roles].  Each dependency
    therefore admits the roles its name lists and hands the user on. *)
Definition require_role (allowed : list string) (current_user : User.t)
  : Session User.t :=
  if existsb (String.eqb (User.role current_user)) allowed
  then mret current_user
  else raise (HTTPException 403 "Insufficient permissions").

(** Modelled from the spec: the three dependencies of the absent
    app/core/security.py, by the roles of section 4.4. *)
Definition allow_admin : User.t -> Session User.t :=
  require_role ["ADMIN"].

(** Modelled from the spec: see [allow_admin]. *)
Definition allow_admin_clerk : User.t -> Session User.t :=
  require_role ["ADMIN"; "CLERK"].

(** Modelled from the spec: see [allow_admin]. *)
Definition allow_all_roles : User.t -> Session User.t :=
  require_role ["ADMIN"; "CLERK"; "VIEWER"].

Section Routes.

Variable Decimal : string -> option PyDecimal.
Variable parse_date : PyDate -> string -> DateParse.
Variable decode_utf8_sig : string -> Outcome string.
Variable DictReader : string -> CsvReader.
Variable load_workbook : string -> Outcome Worksheet.
Variable splitext_ext : string -> string.
Variable set_iter : list string -> list string.

(** The mutating invoice and check operations of the API. *)
Inductive Request :=
| Create (invoice_number store_number : string) (vendor_id : Z)
         (amount invoice_date notes : string) (file : option UploadFile)
         (uuid_hex : string)
| Import (file : UploadFile)
| Update (invoice_id : Z) (body : InvoiceUpdate)
| Approve (invoice_id : Z)
| GenerateCheck (body : GenerateCheckRequest).

(** The dependency each route declares for [current_user]. *)
Definition guard (req : Request) : User.t -> Session User.t :=
  match req with
  | Create _ _ _ _ _ _ _ _ => allow_all_roles
  | Import _ => allow_all_roles
  | Update _ _ => allow_all_roles
  | Approve _ => allow_admin
  | GenerateCheck _ => allow_admin
  end.

(** The handler a request is routed to, its response dropped. *)
Definition handler (req : Request) (today : PyDate) (current_user : User.t)
  : Session unit :=
  match req with
  | Create invoice_number store_number vendor_id amount invoice_date notes
           file uuid_hex =>
      create_invoice_manual Decimal parse_date splitext_ext set_iter
        invoice_number store_number vendor_id amount invoice_date notes
        file uuid_hex today current_user;; mret tt
  | Import file =>
      import_file Decimal parse_date decode_utf8_sig DictReader load_workbook
        set_iter file today current_user;; mret tt
  | Update invoice_id body =>
      update_invoice invoice_id body current_user;; mret tt
  | Approve invoice_id =>
      approve_invoice invoice_id current_user;; mret tt
  | GenerateCheck body =>
      generate_check body today current_user;; mret tt
  end.

(** A request served by its handler inside [get_db], whoever sends it. *)
Definition serve (req : Request) (today : PyDate) (current_user : User.t)
    (db : Store) : Store :=
  snd (get_db (handler req today current_user) db).

(** A request served by its route: the role check, then the handler. *)
Definition route (req : Request) (today : PyDate) (current_user : User.t)
  : Session unit :=
  get_db (u ← guard req current_user; handler req today u).

(** The stores the operations can produce, starting with no invoice;
    [allowed] restricts the requests that are considered. *)
Inductive reachable (allowed : Store -> Request -> Prop) : Store -> Prop :=
| reach_init db :
    invoices db = [] -> reachable allowed db
| reach_step db req today current_user :
    reachable allowed db ->
    allowed db req ->
    reachable allowed (serve req today current_user db).

End Routes.

(** ** Predicates of the statements *)

(** The statuses from CHECK_GENERATED on. *)
Definition issued_status (s : string) : Prop :=
  s = "CHECK_GENERATED" \/ s = "PRINTED" \/ s = "VOID".

(** [check_id] set implies a status from CHECK_GENERATED on. *)
Definition check_implies_issued (db : Store) : Prop :=
  forall inv, In inv (invoices db) ->
    Invoice.check_id inv <> None -> issued_status (Invoice.status inv).

(** An update that does not move an invoice holding a check to a status
    before CHECK_GENERATED; every other request qualifies. *)
Definition keeps_issued (db : Store) (req : Request) : Prop :=
  match req with
  | Update invoice_id body =>
      forall inv s,
        find_invoice invoice_id db = Some inv ->
        Invoice.check_id inv <> None ->
        u_status body = Some (Some s) ->
        issued_status s
  | _ => True
  end.

(** What the schema guarantees of the keys: check ids come from the
    sequence, which starts at 1, and [Invoice.check_id] is a foreign key
    into the checks. *)
Definition keys_ok (db : Store) : Prop :=
  (0 <= checks_id_seq db)%Z
  /\ (forall chk, In chk (checks db) ->
        (1 <= Check.id chk <= checks_id_seq db)%Z)
  /\ (forall inv c, In inv (invoices db) -> Invoice.check_id inv = Some c ->
        exists chk, In chk (checks db) /\ Check.id chk = c).

(** The number the next check is given: [max(Check.id) or 0], plus one. *)
Definition next_check_value (db : Store) : Z :=
  default 0%Z (max_check_id db) + 1.

(** Two invoice rows that agree on every column except check_id and
    status. *)
Definition same_but_check_status (a b : Invoice.t) : Prop :=
  Invoice.id a = Invoice.id b
  /\ Invoice.invoice_number a = Invoice.invoice_number b
  /\ Invoice.store_number a = Invoice.store_number b
  /\ Invoice.vendor_id a = Invoice.vendor_id b
  /\ Invoice.amount a = Invoice.amount b
  /\ Invoice.invoice_date a = Invoice.invoice_date b
  /\ Invoice.notes a = Invoice.notes b
  /\ Invoice.attachment_filename a = Invoice.attachment_filename b
  /\ Invoice.source_type a = Invoice.source_type b
  /\ Invoice.imported_by_id a = Invoice.imported_by_id b.



(** The summary after one more row that was rejected with [msg] as row
    number [i]. *)
Definition rejected (i : Z) (msg : string) (t : ImportSummary)
  : ImportSummary :=
  mkImportSummary (total_rows t + 1) (imported t) (skipped_duplicates t)
                  (errors t ++ ["Row " ++ Py.str_int i ++ ": " ++ msg]).

(** *** The effect of a successful issuance *)

(** The check row, the invoice row and the store that a successful
    [generate_check] on [invoice] leaves behind. *)
Definition issued_check (body : GenerateCheckRequest) (today : PyDate)
    (invoice : Invoice.t) (db : Store) : Check.t :=
  Check.mk (checks_id_seq db + 1) (next_check_number db)
    (Invoice.vendor_id invoice) (Invoice.amount invoice) "GENERATED" today
    (Some (memo_or_default (g_memo body) invoice)).

Definition issued_invoice (invoice : Invoice.t) (db : Store) : Invoice.t :=
  Invoice.with_status "CHECK_GENERATED"
    (Invoice.with_check_id (Some (checks_id_seq db + 1)%Z) invoice).

Definition issued_store (body : GenerateCheckRequest) (today : PyDate)
    (invoice : Invoice.t) (db : Store) : Store :=
  mkStore (vendors db)
    (map (fun i => if (Invoice.id i =? Invoice.id invoice)%Z
                   then issued_invoice invoice db else i) (invoices db))
    (checks db ++ [issued_check body today invoice db])
    (users db) (vendors_id_seq db) (invoices_id_seq db)
    (checks_id_seq db + 1) (users_id_seq db).

(** ** Sample data *)

Module Sample.

Definition admin : User.t :=
  User.mk 1 "admin@checkprint.local" "hash-a" "System Admin" "ADMIN" true.

Definition clerk : User.t :=
  User.mk 2 "clerk@checkprint.local" "hash-c" "Default Clerk" "CLERK" true.

Definition viewer : User.t :=
  User.mk 3 "viewer@checkprint.local" "hash-v" "Default Viewer" "VIEWER" true.

Definition acme : Vendor.t :=
  Vendor.mk 1 "Acme Supply" None None None None None None.

Definition today : PyDate := mkdate 2024 3 15.

(** The seeded users and one vendor; no invoice, no check. *)
Definition db0 : Store :=
  mkStore [acme] [] [] [admin; clerk; viewer] 1 0 0 3.

(** A stand-in for dateutil that knows one date, written out in full, so
    that nothing is taken from the day of the call. *)
Definition parse_date (today : PyDate) (s : string) : DateParse :=
  if String.eqb s "2024-03-01" then ParsedDate (mkdate 2024 3 1)
  else ParseValueError.

Definition decode_utf8_sig (bytes : string) : Outcome string := Return bytes.

(** A stand-in for csv.DictReader on texts without quotes: the first
    line gives the field names, every further line that is not empty a
    row, a cell the line lacks being None; an empty text has no field
    names. *)
Fixpoint split_on (sep : ascii) (s : string) : list string :=
  match s with
  | EmptyString => [EmptyString]
  | String c rest =>
      if Ascii.eqb c sep then EmptyString :: split_on sep rest
      else
        match split_on sep rest with
        | cell :: cells => String c cell :: cells
        | [] => [String c EmptyString]
        end
  end.

Definition newline : ascii := "010"%char.

Definition DictReader (text : string) : CsvReader :=
  if Py.nonempty text then
    let lines := split_on newline text in
    let names := split_on "," (hd "" lines) in
    mkCsvReader
      (Return (Some names))
      (Return (map (fun line =>
                      row_dict names (map VStr (split_on "," line)) ∅)
                   (List.filter Py.nonempty (tl lines))))
  else mkCsvReader (Return None) (Return []).

(** An upload with the header line and one invoice. *)
Definition batch_csv : UploadFile :=
  mkUploadFile "batch.CSV"
    ("invoice_number,store_number,vendor_name,amount"
     ++ String newline "INV-9,S1,Acme Supply,10.00").

Definition load_workbook (bytes : string) : Outcome Worksheet :=
  Return (mkWorksheet (map VStr required_columns) []).

Definition splitext_ext (name : string) : string := "".

Definition set_iter (l : list string) : list string := l.

(** INV-1 as the manual entry form creates it. *)
Definition create_inv1 : Request :=
  Create "INV-1" "S1" 1 "125.50" "2024-03-01" "" None "".

Definition serve_sample (req : Request) (u : User.t) (db : Store) : Store :=
  serve DecimalSyntax.parse parse_date decode_utf8_sig DictReader
        load_workbook splitext_ext set_iter req today u db.

(** [db0] after INV-1 is entered, and after it is approved. *)
Definition db_pending : Store := serve_sample create_inv1 clerk db0.

Definition db_approved : Store := serve_sample (Approve 1) admin db_pending.

(** ... and after its check is generated with the default memo. *)
Definition db_issued : Store :=
  serve_sample (GenerateCheck (mkGenerateCheckRequest 1 None)) admin
               db_approved.

Definition inv1_pending : Invoice.t :=
  Invoice.mk 1 "INV-1" (Some "S1") 1 (Finite false 12550 (-2))
             (mkdate 2024 3 1) "PENDING" None None None (Some "manual")
             (Some 2).

Definition inv1_approved : Invoice.t :=
  Invoice.with_status "APPROVED" inv1_pending.

Definition inv1_issued : Invoice.t :=
  Invoice.with_status "CHECK_GENERATED"
    (Invoice.with_check_id (Some 1%Z) inv1_approved).

Definition chk1 : Check.t :=
  Check.mk 1 "CHK-000001" 1 (Finite false 12550 (-2)) "GENERATED" today
           (Some "Payment for invoice INV-1").

(** A memo of 501 characters, one more than the column of the checks
    holds. *)
Definition long_memo : string :=
  string_of_list_ascii (List.repeat "x"%char 501).

(** A status patch back to PENDING on the invoice that holds check 1. *)
Definition patch_pending : Request :=
  Update 1 (mkInvoiceUpdate None (Some (Some "PENDING"))).

Definition db_patched : Store := serve_sample patch_pending viewer db_issued.

(** Three imported rows; the second has a non-numeric amount. *)
Definition csv_row (number store vendor amount : string) : Row :=
  <["invoice_number" := VStr number]>
    (<["store_number" := VStr store]>
       (<["vendor_name" := VStr vendor]>
          (<["amount" := VStr amount]> ∅))).

Definition three_rows : list Row :=
  [csv_row "INV-10" "S1" "Acme Supply" "100.00";
   csv_row "INV-11" "S1" "Acme Supply" "abc";
   csv_row "INV-12" "S2" "Bolt Works" "250.75"].

End Sample.


From Stdlib Require Import DecimalPos DecimalN.

(** ** Further handlers *)

(** GET /api/invoices/{invoice_id} *)
Definition get_invoice (invoice_id : Z) (current_user : User.t)
  : Session InvoiceResponse :=
  found ← query (find_invoice invoice_id);
  match found with
  | None => raise (HTTPException 404 "Invoice not found")
  | Some inv => query (_to_response inv)
  end.

(** *** app/api/routes/vendors.py *)

Record VendorCreate := mkVendorCreate {
  vc_name : string;
  vc_address : option string;
  vc_city : option string;
  vc_state : option string;
  vc_zip_code : option string;
  vc_phone : option string;
  vc_email : option string }.

(** [VendorUpdate]: each field is unset, or set to null or to a string. *)
Record VendorUpdate := mkVendorUpdate {
  vu_name : option (option string);
  vu_address : option (option string);
  vu_city : option (option string);
  vu_state : option (option string);
  vu_zip_code : option (option string);
  vu_phone : option (option string);
  vu_email : option (option string) }.

(** GET /api/vendors/{vendor_id} *)
Definition get_vendor (vendor_id : Z) (current_user : User.t)
  : Session Vendor.t :=
  found ← query (find_vendor vendor_id);
  match found with
  | None => raise (HTTPException 404 "Vendor not found")
  | Some vendor => mret vendor
  end.

(** POST /api/vendors *)
Definition create_vendor (body : VendorCreate) (current_user : User.t)
  : Session Vendor.t :=
  existing ← query (find_vendor_by_name (vc_name body));
  if bool_of existing then
    raise (HTTPException 400 "Vendor with this name already exists")
  else
    add_vendor (fun new_id =>
      Vendor.mk new_id (vc_name body) (vc_address body) (vc_city body)
        (vc_state body) (vc_zip_code body) (vc_phone body) (vc_email body)).

(** [setattr(vendor, key, value)] for a nullable column. *)
Definition patched {A} (field : option (option A)) (old : option A)
  : option A :=
  match field with
  | Some v => v
  | None => old
  end.

(** Flush of a changed vendor.  [name] is NOT NULL and unique: a name
    another row already has makes the flush raise. *)
Definition flush_vendor (row : Vendor.t) : Session unit :=
  fun db =>
    if existsb (fun v => negb (Vendor.id v =? Vendor.id row)%Z
                         && String.eqb (Vendor.name v) (Vendor.name row))
               (vendors db)
    then (Raise (IntegrityError "duplicate key value: vendors.name"), db)
    else
      (Return tt,
       mkStore (map (fun v => if (Vendor.id v =? Vendor.id row)%Z
                              then row else v) (vendors db))
               (invoices db) (checks db) (users db) (vendors_id_seq db)
               (invoices_id_seq db) (checks_id_seq db) (users_id_seq db)).

(** PUT /api/vendors/{vendor_id} *)
Definition update_vendor (vendor_id : Z) (body : VendorUpdate)
    (current_user : User.t) : Session Vendor.t :=
  found ← query (find_vendor vendor_id);
  match found with
  | None => raise (HTTPException 404 "Vendor not found")
  | Some vendor =>
      match vu_name body with
      | Some None => raise (IntegrityError "null value in column name")
      | name =>
          let vendor' :=
            Vendor.mk (Vendor.id vendor)
              (match name with Some (Some n) => n | _ => Vendor.name vendor end)
              (patched (vu_address body) (Vendor.address vendor))
              (patched (vu_city body) (Vendor.city vendor))
              (patched (vu_state body) (Vendor.state vendor))
              (patched (vu_zip_code body) (Vendor.zip_code vendor))
              (patched (vu_phone body) (Vendor.phone vendor))
              (patched (vu_email body) (Vendor.email vendor)) in
          flush_vendor vendor';;
          mret vendor'
      end
  end.

(** *** app/api/routes/auth.py, the account routes *)

Record SignupRequest := mkSignupRequest {
  s_email : string;
  s_password : string;
  s_full_name : string }.

Record LoginRequest := mkLoginRequest {
  l_email : string;
  l_password : string }.

Record UserCreate := mkUserCreate {
  uc_email : string;
  uc_password : string;
  uc_full_name : string;
  uc_role : string }.

Definition find_user_by_email (email : string) (db : Store) : option User.t :=
  find (fun u => String.eqb (User.email u) email) (users db).

Definition add_user (mk_row : Z -> User.t) : Session User.t :=
  fun db =>
    let new_id := (users_id_seq db + 1)%Z in
    (Return (mk_row new_id),
     mkStore (vendors db) (invoices db) (checks db)
             (users db ++ [mk_row new_id]) (vendors_id_seq db)
             (invoices_id_seq db) (checks_id_seq db) new_id).

(** [select(func.count()).select_from(User).where(User.is_active == False)] *)
Definition count_pending (db : Store) : Z :=
  Z.of_nat (length (List.filter (fun u => negb (User.is_active u))
                                 (users db))).

Section Accounts.

(** [hash_password], [verify_password] and [create_access_token] of
    app/core/security.py, which is not among the sources. *)
Variable hash_password : string -> string.
Variable verify_password : string -> string -> bool.
Variable create_access_token : string -> string -> string.

Definition signup_message : string :=
  "Account created. An admin needs to approve your account before you can log in.".

(** POST /api/auth/signup *)
Definition signup (body : SignupRequest) : Session string :=
  if (String.length (s_password body) <? 6)%nat then
    raise (HTTPException 400 "Password must be at least 6 characters")
  else if negb (Py.nonempty (Py.strip (s_full_name body))) then
    raise (HTTPException 400 "Full name is required")
  else
    existing ← query (find_user_by_email (s_email body));
    if bool_of existing then
      raise (HTTPException 400 "Email already registered")
    else
      add_user (fun new_id =>
        User.mk new_id (s_email body) (hash_password (s_password body))
          (Py.strip (s_full_name body)) "VIEWER" false);;
      mret signup_message.

(** POST /api/auth/login; the result is the access token. *)
Definition login (body : LoginRequest) : Session string :=
  found ← query (find_user_by_email (l_email body));
  match found with
  | None => raise (HTTPException 401 "Invalid email or password")
  | Some user =>
      if negb (verify_password (l_password body) (User.hashed_password user))
      then raise (HTTPException 401 "Invalid email or password")
      else if negb (User.is_active user) then
        raise (HTTPException 403 "Your account is pending admin approval.")
      else
        mret (create_access_token (Py.str_int (User.id user)) (User.role user))
  end.

(** GET /api/auth/pending-count *)
Definition pending_count (current_user : User.t) : Session Z :=
  query count_pending.

(** POST /api/auth/users *)
Definition create_user (body : UserCreate) (current_user : User.t)
  : Session User.t :=
  existing ← query (find_user_by_email (uc_email body));
  if bool_of existing then
    raise (HTTPException 400 "Email already registered")
  else
    add_user (fun new_id =>
      User.mk new_id (uc_email body) (hash_password (uc_password body))
        (uc_full_name body) (uc_role body) true).

End Accounts.

(** *** app/core/database.py *)

(** [s.startswith(prefix)] *)
Definition startswith (s prefix : string) : bool := String.prefix prefix s.

(** [s.replace(old, new, 1)] for a non-empty [old]: the leftmost
    occurrence is replaced. *)
Fixpoint replace_first (old new s : string) : string :=
  if String.prefix old s then
    new ++ substring (String.length old) (String.length s - String.length old) s
  else
    match s with
    | String c s' => String c (replace_first old new s')
    | EmptyString => EmptyString
    end.

(** The URL the engine is created with: asyncpg needs its own scheme. *)
Definition engine_url (db_url : string) : string :=
  if startswith db_url "postgresql://"
  then replace_first "postgresql://" "postgresql+asyncpg://" db_url
  else db_url.

(** ** The importer, row by row *)

(** What the validation of one row of [_import_rows] comes to, before the
    ledger is consulted: the row is rejected with an error text, or aborts
    the import with an exception the loop does not catch, or is accepted
    with its amount and date. *)
Inductive Verdict :=
| Rejected (msg : string)
| Aborted (e : Exn)
| Accepted (amount : PyDecimal) (inv_date : PyDate).

Section Importer.

Variable Decimal : string -> option PyDecimal.
Variable parse_date : PyDate -> string -> DateParse.

Definition validate (today : PyDate) (row : Row) : Verdict :=
  if negb (Py.nonempty (field row "invoice_number"))
     || negb (Py.nonempty (field row "vendor_name"))
     || negb (Py.nonempty (field row "amount"))
     || negb (Py.nonempty (field_or_empty row "store_number"))
  then Rejected "missing required field(s)"
  else
    match Decimal (field row "amount") with
    | None => Rejected ("invalid amount '" ++ field row "amount" ++ "'")
    | Some amount =>
        if Py.nonempty (field_or_empty row "invoice_date") then
          match parse_date today (field_or_empty row "invoice_date") with
          | ParsedDate d => Accepted amount d
          | ParseValueError =>
              Rejected ("invalid date '"
                        ++ field_or_empty row "invoice_date" ++ "'")
          | ParseOtherError e => Aborted e
          end
        else Accepted amount today
    end.

(** The invoice an accepted row becomes. *)
Definition imported_invoice (source : string) (user_id : Z) (row : Row)
    (amount : PyDecimal) (inv_date : PyDate) (vendor_id new_id : Z)
  : Invoice.t :=
  Invoice.mk new_id (field row "invoice_number")
    (Some (field_or_empty row "store_number")) vendor_id amount inv_date
    "PENDING" None
    (let notes := field_or_empty row "notes" in
     if Py.nonempty notes then Some notes else None)
    None (Some source) (Some user_id).

(** The error strings a list of rows produces, the first row being
    numbered [i]. *)
Fixpoint row_errors (today : PyDate) (i : Z) (rows : list Row)
  : list string :=
  match rows with
  | [] => []
  | row :: rest =>
      match validate today row with
      | Rejected msg =>
          ("Row " ++ Py.str_int i ++ ": " ++ msg)
            :: row_errors today (i + 1) rest
      | _ => row_errors today (i + 1) rest
      end
  end.

(** The number of rows that pass the validation. *)
Definition accepted_count (today : PyDate) (rows : list Row) : Z :=
  Z.of_nat (length (List.filter (fun row =>
    match validate today row with Accepted _ _ => true | _ => false end)
    rows)).

End Importer.

(** ** Runs of requests *)

Section Runs.

Variable Decimal : string -> option PyDecimal.
Variable parse_date : PyDate -> string -> DateParse.
Variable decode_utf8_sig : string -> Outcome string.
Variable DictReader : string -> CsvReader.
Variable load_workbook : string -> Outcome Worksheet.
Variable splitext_ext : string -> string.
Variable set_iter : list string -> list string.

(** The store after a list of requests, each with its date and sender,
    served one after the other. *)
Definition run_requests (reqs : list (Request * PyDate * User.t))
    (db : Store) : Store :=
  fold_left (fun db '(req, today, current_user) =>
               serve Decimal parse_date decode_utf8_sig DictReader
                     load_workbook splitext_ext set_iter req today
                     current_user db)
            reqs db.

End Runs.

(** A store with no invoice and no check yet. *)
Definition fresh_ledger (db : Store) : Prop :=
  invoices db = [] /\ checks db = [] /\ (0 <= checks_id_seq db)%Z.

Definition is_update (req : Request) : bool :=
  match req with Update _ _ => true | _ => false end.

(** What the ledger keeps through every request: keys from the
    sequences, one invoice per id and per number, one check per id, a
    check for at most one invoice and an invoice for every check, the
    check's amount and vendor those of its invoice, and a check number
    between the ids of the older checks and the check's own id. *)
Record ledger_ok (db : Store) : Prop := mk_ledger_ok {
  lo_keys : keys_ok db;
  lo_invoice_seq :
    forall inv, In inv (invoices db) ->
      (Invoice.id inv <= invoices_id_seq db)%Z;
  lo_invoice_ids : List.NoDup (map Invoice.id (invoices db));
  lo_numbers : List.NoDup (map Invoice.invoice_number (invoices db));
  lo_check_ids : List.NoDup (map Check.id (checks db));
  lo_one_invoice :
    forall a b c, In a (invoices db) -> In b (invoices db) ->
      Invoice.check_id a = Some c -> Invoice.check_id b = Some c -> a = b;
  lo_owned :
    forall chk, In chk (checks db) ->
      exists inv, In inv (invoices db)
                  /\ Invoice.check_id inv = Some (Check.id chk);
  lo_match :
    forall inv chk, In inv (invoices db) -> In chk (checks db) ->
      Invoice.check_id inv = Some (Check.id chk) ->
      Check.amount chk = Invoice.amount inv
      /\ Check.vendor_id chk = Invoice.vendor_id inv;
  lo_numbered :
    forall chk, In chk (checks db) ->
      exists n, Check.check_number chk = "CHK-" ++ Py.format_06d n
                /\ (1 <= n <= Check.id chk)%Z
                /\ forall older, In older (checks db) ->
                     (Check.id older < Check.id chk)%Z ->
                     (Check.id older < n)%Z }.

(** The forward path of the workflow: PENDING or APPROVED without a
    check, or CHECK_GENERATED with one. *)
Definition on_forward_path (inv : Invoice.t) : Prop :=
  (Invoice.status inv = "PENDING" /\ Invoice.check_id inv = None)
  \/ (Invoice.status inv = "APPROVED" /\ Invoice.check_id inv = None)
  \/ (Invoice.status inv = "CHECK_GENERATED" /\ Invoice.check_id inv <> None).

(** An invoice as the importer files it: PENDING, without a check, tagged
    with the source and the importing user. *)
Definition imported_as (source : string) (user_id : Z) (inv : Invoice.t)
  : Prop :=
  Invoice.status inv = "PENDING" /\ Invoice.check_id inv = None
  /\ Invoice.source_type inv = Some source
  /\ Invoice.imported_by_id inv = Some user_id.

(** Two invoice rows that agree on every column except notes and status. *)
Definition same_but_notes_status (a b : Invoice.t) : Prop :=
  Invoice.id a = Invoice.id b
  /\ Invoice.invoice_number a = Invoice.invoice_number b
  /\ Invoice.store_number a = Invoice.store_number b
  /\ Invoice.vendor_id a = Invoice.vendor_id b
  /\ Invoice.amount a = Invoice.amount b
  /\ Invoice.invoice_date a = Invoice.invoice_date b
  /\ Invoice.check_id a = Invoice.check_id b
  /\ Invoice.attachment_filename a = Invoice.attachment_filename b
  /\ Invoice.source_type a = Invoice.source_type b
  /\ Invoice.imported_by_id a = Invoice.imported_by_id b.

(** What the users table keeps: one user per id and per email, ids from
    the sequence. *)
Definition users_ok (db : Store) : Prop :=
  List.NoDup (map User.id (users db))
  /\ List.NoDup (map User.email (users db))
  /\ forall u, In u (users db) -> (User.id u <= users_id_seq db)%Z.

(** What the vendors table keeps: one vendor per id and per name, ids
    from the sequence. *)
Definition vendors_ok (db : Store) : Prop :=
  List.NoDup (map Vendor.id (vendors db))
  /\ List.NoDup (map Vendor.name (vendors db))
  /\ forall v, In v (vendors db) -> (Vendor.id v <= vendors_id_seq db)%Z.

(** [b] is the row of the invoice [a] at a later time: the same entry,
    still with its check if it had one; notes and status may differ. *)
Definition same_entry (a b : Invoice.t) : Prop :=
  Invoice.id a = Invoice.id b
  /\ Invoice.invoice_number a = Invoice.invoice_number b
  /\ Invoice.store_number a = Invoice.store_number b
  /\ Invoice.vendor_id a = Invoice.vendor_id b
  /\ Invoice.amount a = Invoice.amount b
  /\ Invoice.invoice_date a = Invoice.invoice_date b
  /\ Invoice.attachment_filename a = Invoice.attachment_filename b
  /\ Invoice.source_type a = Invoice.source_type b
  /\ Invoice.imported_by_id a = Invoice.imported_by_id b
  /\ (Invoice.check_id a <> None -> Invoice.check_id b = Invoice.check_id a).

(** ** More sample data *)

Module Demo.

Definition run (reqs : list (Request * PyDate * User.t)) (db : Store)
  : Store :=
  run_requests DecimalSyntax.parse Sample.parse_date Sample.decode_utf8_sig
    Sample.DictReader Sample.load_workbook Sample.splitext_ext
    Sample.set_iter reqs db.

(** INV-1 entered by the clerk, approved and given its check by the
    admin. *)
Definition workflow : list (Request * PyDate * User.t) :=
  [(Sample.create_inv1, Sample.today, Sample.clerk);
   (Approve 1, Sample.today, Sample.admin);
   (GenerateCheck (mkGenerateCheckRequest 1 None), Sample.today,
    Sample.admin)].

(** The same, followed by a note put on the invoice. *)
Definition workflow_with_note : list (Request * PyDate * User.t) :=
  (workflow
   ++ [(Update 1 (mkInvoiceUpdate (Some (Some "paid by check")) None),
        Sample.today, Sample.viewer)])%list.

(** The import of the three sample rows into the seeded store. *)
Definition import_three : Session ImportSummary :=
  _import_rows DecimalSyntax.parse Sample.parse_date Sample.three_rows "csv"
               2 Sample.today.

Definition summary_three : ImportSummary :=
  mkImportSummary 3 2 0 ["Row 3: invalid amount 'abc'"].

Definition db_imported : Store := snd (import_three Sample.db0).

(** Stand-ins for the password and token functions. *)
Definition hash_password (password : string) : string := "hash:" ++ password.

Definition verify_password (password hashed : string) : bool :=
  String.eqb ("hash:" ++ password) hashed.

Definition create_access_token (sub role : string) : string :=
  sub ++ "." ++ role.

Definition signup_dana : SignupRequest :=
  mkSignupRequest "dana@example.com" "s3cret!" "  Dana Smith ".

Definition db_signed_up : Store :=
  snd (signup hash_password signup_dana Sample.db0).

Definition bolt : VendorCreate :=
  mkVendorCreate "Bolt Works" None None None None None None.

End Demo.
(** ** Lemmas on the store *)

Ltac run_session :=
  unfold mbind, session_bind, mret, session_ret, bind, ret, raise, query,
    lift; cbn [fst snd].

Lemma find_invoice_id invoice_id db inv :
  find_invoice invoice_id db = Some inv -> Invoice.id inv = invoice_id.
Proof.
  unfold find_invoice. intros H. apply find_some in H as [_ H]. lia.
Qed.

Lemma find_invoice_In invoice_id db inv :
  find_invoice invoice_id db = Some inv -> In inv (invoices db).
Proof.
  unfold find_invoice. intros H. apply find_some in H as [H _]. exact H.
Qed.

Lemma find_replace_same (key : Z) (row : Invoice.t) (l : list Invoice.t) old :
  Invoice.id row = key ->
  find (fun i => Invoice.id i =? key)%Z l = Some old ->
  find (fun i => Invoice.id i =? key)%Z
       (map (fun i => if (Invoice.id i =? key)%Z then row else i) l)
  = Some row.
Proof.
  intros Hrow. induction l as [|x l IH]; cbn; [discriminate|].
  destruct (Invoice.id x =? key)%Z eqn:E.
  - intros _. rewrite Hrow. now rewrite Z.eqb_refl.
  - rewrite E. exact IH.
Qed.

Lemma find_replace_other (key : Z) (row : Invoice.t) (l : list Invoice.t) k :
  Invoice.id row = key ->
  k <> key ->
  find (fun i => Invoice.id i =? k)%Z
       (map (fun i => if (Invoice.id i =? key)%Z then row else i) l)
  = find (fun i => Invoice.id i =? k)%Z l.
Proof.
  intros Hrow Hk. induction l as [|x l IH]; cbn; [reflexivity|].
  destruct (Invoice.id x =? key)%Z eqn:E.
  - apply Z.eqb_eq in E.
    replace (Invoice.id row =? k)%Z with false by (symmetry; apply Z.eqb_neq; lia).
    replace (Invoice.id x =? k)%Z with false by (symmetry; apply Z.eqb_neq; lia).
    exact IH.
  - destruct (Invoice.id x =? k)%Z; [reflexivity | exact IH].
Qed.

Lemma In_replace (key : Z) (row : Invoice.t) (l : list Invoice.t) x :
  In x (map (fun i => if (Invoice.id i =? key)%Z then row else i) l) ->
  x = row \/ In x l.
Proof.
  rewrite in_map_iff. intros (y & Hy & Hin).
  destruct (Invoice.id y =? key)%Z; subst; auto.
Qed.

Lemma string_eqb_false (a b : string) : a <> b -> String.eqb a b = false.
Proof. intros H. now apply String.eqb_neq. Qed.

(** *** Check issuance, step by step *)

Lemma generate_check_success body today current_user db invoice :
  find_invoice (g_invoice_id body) db = Some invoice ->
  Invoice.status invoice = "APPROVED" ->
  check_id_truthy (Invoice.check_id invoice) = false ->
  fits_varchar 500 (memo_or_default (g_memo body) invoice) = true ->
  number_taken (next_check_number db) db = false ->
  generate_check body today current_user db
  = (Return (_check_to_response (issued_check body today invoice db)
               (issued_store body today invoice db)),
     issued_store body today invoice db).
Proof.
  intros Hfind Hst Hchk Hfits Hfree. unfold generate_check, add_check.
  run_session. rewrite Hfind, Hst, Hchk. cbn. rewrite Hfits, Hfree.
  reflexivity.
Qed.

(** A call that returns has passed every test, of the handler and of the
    database. *)
Lemma generate_check_accepted body today current_user db resp db' :
  generate_check body today current_user db = (Return resp, db') ->
  exists invoice,
    find_invoice (g_invoice_id body) db = Some invoice
    /\ Invoice.status invoice = "APPROVED"
    /\ check_id_truthy (Invoice.check_id invoice) = false
    /\ fits_varchar 500 (memo_or_default (g_memo body) invoice) = true
    /\ number_taken (next_check_number db) db = false
    /\ resp = _check_to_response (issued_check body today invoice db)
                (issued_store body today invoice db)
    /\ db' = issued_store body today invoice db.
Proof.
  unfold generate_check, add_check. run_session.
  destruct (find_invoice (g_invoice_id body) db) as [invoice|] eqn:Hfind;
    [|discriminate].
  destruct (String.eqb (Invoice.status invoice) "APPROVED") eqn:Hst;
    cbn; [|discriminate].
  destruct (check_id_truthy (Invoice.check_id invoice)) eqn:Hchk;
    [discriminate|].
  destruct (fits_varchar 500 (memo_or_default (g_memo body) invoice))
    eqn:Hfits; cbn; [|discriminate].
  destruct (number_taken (next_check_number db) db) eqn:Hfree;
    [discriminate|].
  intros H. exists invoice. apply String.eqb_eq in Hst.
  inversion H; subst. repeat split; assumption.
Qed.

Lemma generate_check_returns body today current_user db resp db' :
  generate_check body today current_user db = (Return resp, db') ->
  exists invoice,
    find_invoice (g_invoice_id body) db = Some invoice
    /\ Invoice.status invoice = "APPROVED"
    /\ check_id_truthy (Invoice.check_id invoice) = false
    /\ db' = issued_store body today invoice db.
Proof.
  intros Hrun.
  apply generate_check_accepted in Hrun
    as (invoice & Hfind & Hst & Ht & _ & _ & _ & Hdb).
  exists invoice. auto.
Qed.

(** A call that raises leaves the tables alone; at most an id of the
    checks was drawn. *)
Lemma generate_check_raises body today current_user db e db' :
  generate_check body today current_user db = (Raise e, db') ->
  db' = db \/ db' = draw_check_id db.
Proof.
  unfold generate_check, add_check. run_session.
  destruct (find_invoice (g_invoice_id body) db) as [invoice|];
    [|inversion 1; now left].
  destruct (negb (String.eqb (Invoice.status invoice) "APPROVED"));
    [inversion 1; now left|].
  destruct (check_id_truthy (Invoice.check_id invoice));
    [inversion 1; now left|].
  cbn.
  destruct (fits_varchar 500 (memo_or_default (g_memo body) invoice)); cbn;
    [|inversion 1; now left].
  destruct (number_taken (next_check_number db) db);
    [inversion 1; now right | discriminate].
Qed.

Lemma rollback_same (db : Store) : rollback db db = db.
Proof. now destruct db. Qed.

Lemma rollback_draw (db : Store) :
  rollback db (draw_check_id db) = draw_check_id db.
Proof. reflexivity. Qed.

Lemma keys_ok_draw db : keys_ok db -> keys_ok (draw_check_id db).
Proof.
  intros (Hs & Hpk & Hfk). unfold keys_ok; cbn.
  split; [lia|]. split; [|exact Hfk].
  intros chk Hin. specialize (Hpk _ Hin). lia.
Qed.

Lemma keys_ok_check_id_truthy db inv c :
  keys_ok db -> In inv (invoices db) -> Invoice.check_id inv = Some c ->
  check_id_truthy (Invoice.check_id inv) = true.
Proof.
  intros (_ & Hpk & Hfk) Hin Hc.
  destruct (Hfk _ _ Hin Hc) as (chk & Hchk & Hid).
  apply Hpk in Hchk. rewrite Hc. cbn. apply negb_true_iff, Z.eqb_neq. lia.
Qed.

(** ** Approval *)

(** C7. Approving an existing invoice whose status is not PENDING raises
    the 400 error that reports the current status and leaves the store
    as it was; approving a PENDING invoice returns, sets that invoice's
    status to APPROVED and changes nothing else: its other fields, every
    other invoice and every other table are as before.  Approving the same
    invoice again raises the 400 error. *)
Theorem approve_invoice_transition :
  forall invoice_id current_user db inv,
    find_invoice invoice_id db = Some inv ->
    (Invoice.status inv <> "PENDING" ->
       approve_invoice invoice_id current_user db
       = (Raise (HTTPException 400
                   ("Cannot approve invoice with status " ++ Invoice.status inv)),
          db))
    /\ (Invoice.status inv = "PENDING" ->
        exists resp db',
          approve_invoice invoice_id current_user db = (Return resp, db')
          /\ find_invoice invoice_id db'
             = Some (Invoice.with_status "APPROVED" inv)
          /\ (forall k, k <> invoice_id ->
                find_invoice k db' = find_invoice k db)
          /\ length (invoices db') = length (invoices db)
          /\ vendors db' = vendors db /\ checks db' = checks db
          /\ users db' = users db
          /\ (forall other_user,
                approve_invoice invoice_id other_user db'
                = (Raise (HTTPException 400
                            "Cannot approve invoice with status APPROVED"),
                   db'))).
Proof.
  intros invoice_id current_user db inv Hfind.
  pose proof (find_invoice_id _ _ _ Hfind) as Hid. subst invoice_id.
  split; intros Hst; unfold approve_invoice; run_session; rewrite Hfind.
  - now rewrite (string_eqb_false _ _ Hst).
  - rewrite Hst. cbn.
    eexists _, _. split; [reflexivity|].
    unfold find_invoice in *. cbn.
    assert (Hnew :
      find (fun i => Invoice.id i =? Invoice.id inv)%Z
        (map (fun i => if (Invoice.id i =? Invoice.id inv)%Z
                       then Invoice.with_status "APPROVED" inv else i)
             (invoices db))
      = Some (Invoice.with_status "APPROVED" inv)).
    { eapply find_replace_same; [reflexivity | exact Hfind]. }
    repeat split.
    + exact Hnew.
    + intros k Hk. now apply find_replace_other.
    + now rewrite length_map.
    + intros other_user. rewrite Hnew. reflexivity.
Qed.

(** ** User management *)

(** C10. A role change or an active toggle whose target is the caller's
    own id raises a 400 error whatever role is requested, and leaves the
    store, hence the caller's role and is_active, as they were. *)
Theorem self_change_refused :
  forall (u : User.t) (role : string) (db : Store),
    (exists detail,
        update_user_role (User.id u) role u db
        = (Raise (HTTPException 400 detail), db))
    /\ toggle_user_active (User.id u) u db
       = (Raise (HTTPException 400 "Cannot deactivate yourself"), db)
    /\ find_user (User.id u)
         (snd (get_db (update_user_role (User.id u) role u) db))
       = find_user (User.id u) db
    /\ find_user (User.id u)
         (snd (get_db (toggle_user_active (User.id u) u) db))
       = find_user (User.id u) db.
Proof.
  intros u role db.
  assert (Hrole : exists detail,
            update_user_role (User.id u) role u db
            = (Raise (HTTPException 400 detail), db)).
  { unfold update_user_role.
    destruct (negb (existsb (String.eqb role) ["ADMIN"; "CLERK"; "VIEWER"])).
    - eexists; reflexivity.
    - rewrite Z.eqb_refl. eexists; reflexivity. }
  assert (Htoggle : toggle_user_active (User.id u) u db
            = (Raise (HTTPException 400 "Cannot deactivate yourself"), db)).
  { unfold toggle_user_active. now rewrite Z.eqb_refl. }
  repeat split; try assumption.
  - destruct Hrole as [detail Hrole]. unfold get_db. rewrite Hrole.
    now destruct db.
  - unfold get_db. rewrite Htoggle. now destruct db.
Qed.

(** ** Check issuance *)

(** C1 (amended). Generating a check for an existing invoice, in a store
    whose keys satisfy the schema.  The tests run in this order: a status
    other than APPROVED raises the 400 error that reports the current
    status; an APPROVED invoice whose check_id is set raises the 400 error
    that says a check is already assigned; in both cases the store, and so
    the set of checks, is as before.  Otherwise the check is inserted.  When
    its memo fits the String(500) column and its number is not yet on a
    check, the call returns, exactly one Check row is added, the invoice's
    check_id is that check's id, its status is CHECK_GENERATED, and its
    other columns and the other invoices are as before; a further call for
    the same invoice raises a 400 error and leaves the store alone.  When
    the memo does not fit or the number is taken, the call raises an error
    that is no HTTP error, and checks and invoices are as before. *)
Theorem generate_check_transition :
  forall body today current_user db invoice,
    keys_ok db ->
    find_invoice (g_invoice_id body) db = Some invoice ->
    (Invoice.status invoice <> "APPROVED" ->
       generate_check body today current_user db
       = (Raise (HTTPException 400
                   ("Invoice must be APPROVED (current: "
                    ++ Invoice.status invoice ++ ")")), db))
    /\ (Invoice.status invoice = "APPROVED" ->
        Invoice.check_id invoice <> None ->
        generate_check body today current_user db
        = (Raise (HTTPException 400 "Invoice already has a check assigned"),
           db))
    /\ (Invoice.status invoice = "APPROVED" ->
        Invoice.check_id invoice = None ->
        fits_varchar 500 (memo_or_default (g_memo body) invoice) = true ->
        number_taken (next_check_number db) db = false ->
        exists resp db' chk invoice',
          generate_check body today current_user db = (Return resp, db')
          /\ checks db' = (checks db ++ [chk])%list
          /\ c_id resp = Check.id chk
          /\ find_invoice (g_invoice_id body) db' = Some invoice'
          /\ Invoice.check_id invoice' = Some (Check.id chk)
          /\ Invoice.status invoice' = "CHECK_GENERATED"
          /\ same_but_check_status invoice invoice'
          /\ (forall k, k <> g_invoice_id body ->
                find_invoice k db' = find_invoice k db)
          /\ length (invoices db') = length (invoices db)
          /\ (forall body' today' user',
                g_invoice_id body' = g_invoice_id body ->
                exists detail,
                  generate_check body' today' user' db'
                  = (Raise (HTTPException 400 detail), db')))
    /\ (Invoice.status invoice = "APPROVED" ->
        Invoice.check_id invoice = None ->
        fits_varchar 500 (memo_or_default (g_memo body) invoice) = false
        \/ number_taken (next_check_number db) db = true ->
        exists e db',
          generate_check body today current_user db = (Raise e, db')
          /\ (forall status_code detail, e <> HTTPException status_code detail)
          /\ checks db' = checks db /\ invoices db' = invoices db).
Proof.
  intros body today current_user db invoice Hkeys Hfind.
  pose proof (find_invoice_id _ _ _ Hfind) as Hid.
  pose proof (find_invoice_In _ _ _ Hfind) as Hin.
  split; [|split; [|split]].
  - intros Hst. unfold generate_check. run_session. rewrite Hfind.
    now rewrite (string_eqb_false _ _ Hst).
  - intros Hst Hset.
    destruct (Invoice.check_id invoice) as [c|] eqn:Hc; [|congruence].
    pose proof (keys_ok_check_id_truthy _ _ _ Hkeys Hin Hc) as Ht.
    unfold generate_check. run_session. rewrite Hfind, Hst. cbn.
    rewrite Ht. reflexivity.
  - intros Hst Hnone Hfits Hfree.
    assert (Ht : check_id_truthy (Invoice.check_id invoice) = false)
      by now rewrite Hnone.
    exists (_check_to_response (issued_check body today invoice db)
              (issued_store body today invoice db)),
      (issued_store body today invoice db),
      (issued_check body today invoice db), (issued_invoice invoice db).
    split; [exact (generate_check_success _ _ current_user _ _ Hfind Hst Ht
                     Hfits Hfree)|].
    assert (Hnew : find_invoice (g_invoice_id body)
                     (issued_store body today invoice db)
                   = Some (issued_invoice invoice db)).
    { unfold find_invoice, issued_store; cbn. rewrite <- Hid.
      eapply find_replace_same; [reflexivity|].
      unfold find_invoice in Hfind. rewrite Hid. exact Hfind. }
    split; [reflexivity|]. split; [reflexivity|]. split; [exact Hnew|].
    split; [reflexivity|]. split; [reflexivity|].
    split; [unfold same_but_check_status; cbn; repeat split|].
    split.
    { intros k Hk. unfold find_invoice, issued_store; cbn.
      apply find_replace_other; [reflexivity | congruence]. }
    split; [cbn; now rewrite length_map|].
    intros body' today' user' Hsame. unfold generate_check. run_session.
    rewrite Hsame, Hnew. cbn. eexists; reflexivity.
  - intros Hst Hnone Hbad. unfold generate_check, add_check. run_session.
    rewrite Hfind, Hst, Hnone. cbn.
    destruct (fits_varchar 500 (memo_or_default (g_memo body) invoice)); cbn.
    + destruct Hbad as [Hbad|Hbad]; [discriminate|]. rewrite Hbad.
      eexists _, _. split; [reflexivity|]. repeat split. discriminate.
    + eexists _, _. split; [reflexivity|]. repeat split. discriminate.
Qed.

(** *** The maximum check id *)

Lemma fold_left_max_ge (l : list Z) (a : Z) :
  (a <= fold_left Z.max l a)%Z
  /\ (forall x, In x l -> (x <= fold_left Z.max l a)%Z)
  /\ (fold_left Z.max l a = a \/ In (fold_left Z.max l a) l).
Proof.
  revert a. induction l as [|y l IH]; intros a; cbn.
  - repeat split; [lia | intros x [] | now left].
  - destruct (IH (Z.max a y)) as (H1 & H2 & H3). repeat split.
    + lia.
    + intros x [<-|Hx]; [lia | now apply H2].
    + destruct H3 as [H3|H3]; [|now right; right].
      rewrite H3. destruct (Z.max_spec a y) as [[_ ->]|[_ ->]]; auto.
Qed.

(** [max_check_id] is the greatest primary key of the checks table, and
    NULL exactly when the table is empty. *)
Lemma max_check_id_spec (db : Store) :
  match max_check_id db with
  | None => checks db = []
  | Some m =>
      (forall chk, In chk (checks db) -> (Check.id chk <= m)%Z)
      /\ (exists chk, In chk (checks db) /\ Check.id chk = m)
  end.
Proof.
  unfold max_check_id. destruct (checks db) as [|c cs]; [reflexivity|].
  destruct (fold_left_max_ge (map Check.id cs) (Check.id c)) as (H1 & H2 & H3).
  split.
  - intros chk [<-|Hin]; [exact H1|]. apply H2. now apply in_map.
  - destruct H3 as [H3|H3].
    + exists c. split; [now left | now rewrite H3].
    + apply in_map_iff in H3 as (chk & Hid & Hin).
      exists chk. split; [now right | exact Hid].
Qed.

Lemma next_check_value_bounds (db : Store) :
  keys_ok db ->
  (1 <= next_check_value db <= checks_id_seq db + 1)%Z
  /\ (forall chk, In chk (checks db) -> (Check.id chk < next_check_value db)%Z).
Proof.
  intros (Hseq & Hpk & _). unfold next_check_value.
  pose proof (max_check_id_spec db) as Hmax.
  destruct (max_check_id db) as [m|]; cbn.
  - destruct Hmax as (Hle & chk & Hin & <-). split.
    + specialize (Hpk _ Hin). lia.
    + intros c Hc. specialize (Hle _ Hc). lia.
  - rewrite Hmax in *. split; [lia | intros chk []].
Qed.

Lemma issued_store_keys_ok body today invoice db :
  keys_ok db -> keys_ok (issued_store body today invoice db).
Proof.
  intros (Hseq & Hpk & Hfk). unfold keys_ok, issued_store; cbn.
  split; [lia|]. split.
  - intros chk Hin. apply in_app_or in Hin as [Hin|[<-|[]]].
    + specialize (Hpk _ Hin). lia.
    + cbn. lia.
  - intros inv c Hin Hc. apply In_replace in Hin as [->|Hin].
    + cbn in Hc. inversion Hc; subst c.
      exists (issued_check body today invoice db).
      split; [apply in_or_app; right; now left | reflexivity].
    + destruct (Hfk _ _ Hin Hc) as (chk & Hchk & Hid).
      exists chk. split; [apply in_or_app; now left | exact Hid].
Qed.

Lemma format_06d_nonneg (v : Z) :
  (0 <= v)%Z ->
  Py.format_06d v
  = Py.zeros (6 - String.length (Py.str_int v)) ++ Py.str_int v.
Proof.
  intros Hv. unfold Py.format_06d.
  replace (v <? 0)%Z with false by (symmetry; apply Z.ltb_ge; lia).
  rewrite Z.abs_eq by lia. reflexivity.
Qed.




(** ** The check/status invariant *)

Section WithLibraries.

Variable Decimal : string -> option PyDecimal.
Variable parse_date : PyDate -> string -> DateParse.
Variable decode_utf8_sig : string -> Outcome string.
Variable DictReader : string -> CsvReader.
Variable load_workbook : string -> Outcome Worksheet.
Variable splitext_ext : string -> string.
Variable set_iter : list string -> list string.

Local Abbreviation serve' :=
  (serve Decimal parse_date decode_utf8_sig DictReader load_workbook
         splitext_ext set_iter).

Lemma save_attachment_pure file uuid_hex db :
  exists o, save_attachment splitext_ext set_iter file uuid_hex db = (o, db).
Proof.
  unfold save_attachment. destruct file as [f|]; [|eexists; reflexivity].
  destruct (Py.nonempty (filename f)); [|eexists; reflexivity].
  match goal with |- context [negb ?b] => destruct b end;
    eexists; reflexivity.
Qed.

(** Manual entry adds at most one invoice, and that one has no check. *)
Lemma serve_create_invoices
    invoice_number store_number vendor_id amount invoice_date notes file
    uuid_hex today current_user db inv :
  In inv (invoices (serve' (Create invoice_number store_number vendor_id
                              amount invoice_date notes file uuid_hex)
                           today current_user db)) ->
  In inv (invoices db) \/ Invoice.check_id inv = None.
Proof.
  unfold serve, get_db, handler, create_invoice_manual.
  run_session.
  destruct (Decimal amount); [|cbn; auto].
  destruct (parse_date today invoice_date); cbn; auto.
  destruct (bool_of (find_invoice_by_number invoice_number db)); cbn; auto.
  destruct (find_vendor vendor_id db); cbn; auto.
  destruct (save_attachment_pure file uuid_hex db) as [o ->].
  destruct o as [name|e]; cbn; auto.
  intros H. apply in_app_or in H as [H|[<-|[]]]; auto.
Qed.

(** Whatever the file, [import_file] raises before it writes. *)
Lemma import_file_raises file today current_user db :
  exists e,
    import_file Decimal parse_date decode_utf8_sig DictReader load_workbook
      set_iter file today current_user db = (Raise e, db).
Proof.
  unfold import_file. run_session.
  destruct (Py.endswith (Py.lower (filename file)) ".csv").
  - destruct (decode_utf8_sig (content file)) as [text|e];
      [|eexists; reflexivity].
    destruct (fieldnames (DictReader text)) as [names|e];
      [|eexists; reflexivity].
    destruct (issubset required_columns (default [] names));
      [|eexists; reflexivity].
    destruct (csv_rows (DictReader text)) as [rows|e];
      eexists; reflexivity.
  - destruct (Py.endswith (Py.lower (filename file)) ".xlsx"
              || Py.endswith (Py.lower (filename file)) ".xls");
      [|eexists; reflexivity].
    destruct (load_workbook (content file)) as [ws|e];
      [|eexists; reflexivity].
    match goal with |- context [negb ?b] => destruct b end;
      eexists; reflexivity.
Qed.

Lemma serve_import_invoices file today current_user db :
  invoices (serve' (Import file) today current_user db) = invoices db.
Proof.
  unfold serve, get_db, handler. run_session.
  destruct (import_file_raises file today current_user db) as [e ->].
  reflexivity.
Qed.

(** An update keeps the check of the invoice it patches. *)
Lemma serve_update_invoices invoice_id body today current_user db inv' :
  In inv' (invoices (serve' (Update invoice_id body) today current_user db)) ->
  In inv' (invoices db)
  \/ exists inv,
       find_invoice invoice_id db = Some inv
       /\ Invoice.check_id inv' = Invoice.check_id inv
       /\ (Invoice.status inv' = Invoice.status inv
           \/ u_status body = Some (Some (Invoice.status inv'))).
Proof.
  unfold serve, get_db, handler, update_invoice. run_session.
  destruct (find_invoice invoice_id db) as [inv|] eqn:Hfind; cbn; auto.
  destruct (u_status body) as [[s|]|] eqn:Hs; cbn; auto.
  - intros H. apply In_replace in H as [->|H]; auto.
    right. exists inv. repeat split; auto.
    unfold patch_notes. now destruct (u_notes body).
  - intros H. apply In_replace in H as [->|H]; auto.
    right. exists inv. repeat split.
    + unfold patch_notes. now destruct (u_notes body).
    + left. unfold patch_notes. now destruct (u_notes body).
Qed.

Lemma serve_approve_invoices invoice_id today current_user db inv' :
  In inv' (invoices (serve' (Approve invoice_id) today current_user db)) ->
  In inv' (invoices db)
  \/ exists inv,
       In inv (invoices db) /\ Invoice.status inv = "PENDING"
       /\ Invoice.check_id inv' = Invoice.check_id inv.
Proof.
  unfold serve, get_db, handler, approve_invoice. run_session.
  destruct (find_invoice invoice_id db) as [inv|] eqn:Hfind; cbn; auto.
  destruct (String.eqb (Invoice.status inv) "PENDING") eqn:Hst; cbn; auto.
  intros H. apply In_replace in H as [->|H]; auto.
  right. exists inv. apply String.eqb_eq in Hst.
  repeat split; eauto using find_invoice_In.
Qed.

Lemma serve_generate_invoices body today current_user db inv' :
  In inv' (invoices (serve' (GenerateCheck body) today current_user db)) ->
  In inv' (invoices db) \/ Invoice.status inv' = "CHECK_GENERATED".
Proof.
  unfold serve, get_db, handler. run_session.
  destruct (generate_check body today current_user db) as [[resp|e] db']
    eqn:Hrun; cbn; auto.
  apply generate_check_returns in Hrun as (invoice & _ & _ & _ & ->).
  cbn. intros H. apply In_replace in H as [->|H]; auto.
Qed.

(** Only an issuance touches the checks and their sequence. *)
Lemma serve_checks req today current_user db :
  (forall body, req <> GenerateCheck body) ->
  checks (serve' req today current_user db) = checks db
  /\ checks_id_seq (serve' req today current_user db) = checks_id_seq db.
Proof.
  intros Hreq. destruct req; unfold serve, get_db, handler; run_session.
  - unfold create_invoice_manual. run_session.
    destruct (Decimal amount); [|cbn; auto].
    destruct (parse_date today invoice_date); cbn; auto.
    destruct (bool_of (find_invoice_by_number invoice_number db)); cbn; auto.
    destruct (find_vendor vendor_id db); cbn; auto.
    destruct (save_attachment_pure file uuid_hex db) as [o ->].
    destruct o; cbn; auto.
  - destruct (import_file_raises file today current_user db) as [e ->].
    cbn. auto.
  - unfold update_invoice. run_session.
    destruct (find_invoice invoice_id db); cbn; auto.
    destruct (u_status body) as [[s|]|]; cbn; auto.
  - unfold approve_invoice. run_session.
    destruct (find_invoice invoice_id db) as [inv|]; cbn; auto.
    destruct (String.eqb (Invoice.status inv) "PENDING"); cbn; auto.
  - now destruct (Hreq body).
Qed.

(** Every request keeps the keys as the schema wants them. *)
Lemma serve_keeps_keys_ok req today current_user db :
  keys_ok db -> keys_ok (serve' req today current_user db).
Proof.
  intros Hkeys.
  assert (Hother :
    (forall body, req <> GenerateCheck body) ->
    (forall inv', In inv' (invoices (serve' req today current_user db)) ->
       Invoice.check_id inv' = None
       \/ exists inv, In inv (invoices db)
                      /\ Invoice.check_id inv' = Invoice.check_id inv) ->
    keys_ok (serve' req today current_user db)).
  { intros Hreq Hinv. destruct Hkeys as (Hseq & Hpk & Hfk).
    destruct (serve_checks req today current_user db Hreq) as [Hc Hs].
    unfold keys_ok. rewrite Hc, Hs. repeat split; auto.
    - now apply Hpk.
    - now apply Hpk.
    - intros inv' c Hin Hset.
      destruct (Hinv _ Hin) as [Hnone|(inv & Hold & Heq)]; [congruence|].
      apply (Hfk inv c Hold). congruence. }
  destruct req.
  - apply Hother; [discriminate|]. intros inv' Hin.
    apply serve_create_invoices in Hin as [Hin|Hnone]; eauto.
  - apply Hother; [discriminate|]. intros inv' Hin.
    rewrite serve_import_invoices in Hin. eauto.
  - apply Hother; [discriminate|]. intros inv' Hin.
    apply serve_update_invoices in Hin as [Hin|(inv & Hf & Hc & _)]; eauto.
    right. exists inv. eauto using find_invoice_In.
  - apply Hother; [discriminate|]. intros inv' Hin.
    apply serve_approve_invoices in Hin as [Hin|(inv & Hold & _ & Hc)]; eauto.
  - clear Hother. unfold serve, get_db, handler. run_session.
    destruct (generate_check body today current_user db) as [[resp|e] db']
      eqn:Hrun; cbn.
    + apply generate_check_returns in Hrun as (invoice & _ & _ & _ & ->).
      now apply issued_store_keys_ok.
    + apply generate_check_raises in Hrun as [-> | ->].
      * now rewrite rollback_same.
      * rewrite rollback_draw. now apply keys_ok_draw.
Qed.

(** Every request that qualifies keeps the invariant. *)
Lemma serve_keeps_invariant req today current_user db :
  keeps_issued db req ->
  check_implies_issued db ->
  check_implies_issued (serve' req today current_user db).
Proof.
  intros Hreq Hinv inv' Hin Hset. destruct req.
  - apply serve_create_invoices in Hin as [Hin|Hnone]; [auto | congruence].
  - rewrite serve_import_invoices in Hin. auto.
  - apply serve_update_invoices in Hin
      as [Hin|(inv & Hfind & Hc & [Hst|Hst])]; [auto | |].
    + rewrite Hst. apply Hinv; [eauto using find_invoice_In | congruence].
    + eapply (Hreq inv); [exact Hfind | congruence | exact Hst].
  - apply serve_approve_invoices in Hin as [Hin|(inv & Hin & Hst & Hc)];
      [auto|].
    assert (Hiss : issued_status (Invoice.status inv))
      by (apply Hinv; [assumption | congruence]).
    rewrite Hst in Hiss. destruct Hiss as [H|[H|H]]; discriminate.
  - apply serve_generate_invoices in Hin as [Hin|Hst]; [auto|].
    left. exact Hst.
Qed.

(** C2 (amended). In every store reachable through create, import,
    update, approve and generate-check requests in which no update moves
    an invoice that holds a check to a status outside CHECK_GENERATED,
    PRINTED and VOID, an invoice whose check_id is set has one of these
    three statuses. *)
Theorem check_implies_issued_reachable :
  forall db,
    reachable Decimal parse_date decode_utf8_sig DictReader load_workbook
              splitext_ext set_iter keeps_issued db ->
    check_implies_issued db.
Proof.
  induction 1 as [db Hnil | db req today current_user _ IH Hreq].
  - intros inv Hin. rewrite Hnil in Hin. destruct Hin.
  - now apply serve_keeps_invariant.
Qed.

(** ** The import endpoint *)

(** C4. [import_file] passes three positional arguments to
    [_import_rows], which has four parameters without default.  For a CSV
    or an Excel upload that passes the test of the required header columns
    the call raises the TypeError for the missing [user_id] with the store
    as it was, so no row is processed; with four arguments the call would
    run the importer.  Whatever the upload, the endpoint raises and the
    invoices are as before. *)
Theorem import_file_never_imports :
  forall file today current_user db,
    let run :=
      import_file Decimal parse_date decode_utf8_sig DictReader load_workbook
        set_iter file today current_user in
    let missing_user_id :=
      TypeError
        "_import_rows() missing 1 required positional argument: 'user_id'" in
    (forall text names rows,
        Py.endswith (Py.lower (filename file)) ".csv" = true ->
        decode_utf8_sig (content file) = Return text ->
        fieldnames (DictReader text) = Return names ->
        issubset required_columns (default [] names) = true ->
        csv_rows (DictReader text) = Return rows ->
        run db = (Raise missing_user_id, db))
    /\ (forall ws,
          Py.endswith (Py.lower (filename file)) ".csv" = false ->
          Py.endswith (Py.lower (filename file)) ".xlsx"
          || Py.endswith (Py.lower (filename file)) ".xls" = true ->
          load_workbook (content file) = Return ws ->
          issubset required_columns
            (map (fun v => Py.lower (Py.strip (py_str (or_empty v))))
                 (header_cells ws)) = true ->
          run db = (Raise missing_user_id, db))
    /\ (forall rows source user_id,
          call__import_rows Decimal parse_date
            [ARows rows; AStr source; ASession; AInt user_id] today
          = _import_rows Decimal parse_date rows source user_id today)
    /\ (exists e, run db = (Raise e, db))
    /\ invoices (snd (get_db run db)) = invoices db.
Proof.
  intros file today current_user db run missing_user_id. subst run.
  repeat apply conj.
  - intros text names rows Hcsv Hdec Hnames Hreq Hrows.
    unfold import_file. run_session.
    rewrite Hcsv, Hdec, Hnames, Hreq, Hrows. reflexivity.
  - intros ws Hcsv Hxl Hwb Hreq.
    unfold import_file. run_session.
    rewrite Hcsv, Hxl, Hwb, Hreq. reflexivity.
  - reflexivity.
  - apply import_file_raises.
  - destruct (import_file_raises file today current_user db) as [e He].
    unfold get_db. rewrite He. reflexivity.
Qed.

(** ** The bulk importer *)







Lemma find_invoice_by_number_some number db existing :
  In existing (invoices db) ->
  Invoice.invoice_number existing = number ->
  bool_of (find_invoice_by_number number db) = true.
Proof.
  intros Hin Hnum. unfold find_invoice_by_number.
  destruct (find _ (invoices db)) eqn:Hf; [reflexivity|].
  eapply find_none in Hf; [|exact Hin]. cbn in Hf.
  rewrite Hnum, String.eqb_refl in Hf. discriminate.
Qed.


End WithLibraries.

(** ** The properties on the sample ledger *)

Ltac sample_keys_ok db :=
  unfold keys_ok;
  let d := eval vm_compute in db in change db with d;
  cbn [checks invoices checks_id_seq];
  repeat split; try lia;
  intros; repeat match goal with
                 | H : In _ _ |- _ => cbn in H
                 | H : _ \/ _ |- _ => destruct H
                 | H : False |- _ => destruct H
                 end; subst; cbn in *; try lia; try discriminate;
  try (eexists; split; [left; reflexivity | congruence]).

Lemma generate_check_transition_witness :
  keys_ok Sample.db_approved
  /\ find_invoice 1 Sample.db_approved = Some Sample.inv1_approved
  /\ Invoice.status Sample.inv1_approved = "APPROVED"
  /\ Invoice.check_id Sample.inv1_approved = None
  /\ fits_varchar 500 (memo_or_default None Sample.inv1_approved) = true
  /\ number_taken (next_check_number Sample.db_approved) Sample.db_approved
     = false
  /\ exists resp db' chk invoice',
       generate_check (mkGenerateCheckRequest 1 None) Sample.today
         Sample.admin Sample.db_approved = (Return resp, db')
       /\ checks db' = (checks Sample.db_approved ++ [chk])%list
       /\ find_invoice 1 db' = Some invoice'
       /\ Invoice.check_id invoice' = Some (Check.id chk)
       /\ Invoice.status invoice' = "CHECK_GENERATED".
Proof.
  assert (Hk : keys_ok Sample.db_approved)
    by sample_keys_ok Sample.db_approved.
  assert (Hf : find_invoice 1 Sample.db_approved = Some Sample.inv1_approved)
    by reflexivity.
  refine (conj Hk (conj Hf (conj eq_refl (conj eq_refl
            (conj eq_refl (conj eq_refl _)))))).
  destruct (generate_check_transition (mkGenerateCheckRequest 1 None)
              Sample.today Sample.admin Sample.db_approved
              Sample.inv1_approved Hk Hf) as (_ & _ & H & _).
  destruct (H eq_refl eq_refl eq_refl eq_refl)
    as (resp & db' & chk & invoice' & H1 & H2 & _ & H4 & H5 & H6 & _).
  exists resp, db', chk, invoice'. auto.
Defined.

(** C1, as stated, fails: INV-1 is APPROVED and has no check, yet a
    request for its check whose memo has 501 characters creates no check.
    The insert is refused, the call raises an error that is no HTTP error,
    and after the rollback there is no check and INV-1 is still APPROVED
    without a check. *)
Lemma long_memo_refused :
  let body := mkGenerateCheckRequest 1 (Some Sample.long_memo) in
  let run := generate_check body Sample.today Sample.admin in
  find_invoice 1 Sample.db_approved = Some Sample.inv1_approved
  /\ Invoice.status Sample.inv1_approved = "APPROVED"
  /\ Invoice.check_id Sample.inv1_approved = None
  /\ String.length Sample.long_memo = 501%nat
  /\ (exists e db',
        run Sample.db_approved = (Raise e, db')
        /\ forall status_code detail, e <> HTTPException status_code detail)
  /\ checks (snd (get_db run Sample.db_approved)) = []
  /\ find_invoice 1 (snd (get_db run Sample.db_approved))
     = Some Sample.inv1_approved.
Proof.
  cbv zeta. do 4 (split; [reflexivity|]).
  split.
  { eexists _, _. split; [vm_compute; reflexivity | discriminate]. }
  split; vm_compute; reflexivity.
Qed.

Lemma approve_invoice_transition_witness :
  find_invoice 1 Sample.db_pending = Some Sample.inv1_pending
  /\ exists resp db',
       approve_invoice 1 Sample.admin Sample.db_pending = (Return resp, db')
       /\ find_invoice 1 db' = Some Sample.inv1_approved.
Proof.
  assert (Hf : find_invoice 1 Sample.db_pending = Some Sample.inv1_pending)
    by reflexivity.
  split; [exact Hf|].
  destruct (approve_invoice_transition 1 Sample.admin Sample.db_pending
              Sample.inv1_pending Hf) as (_ & H).
  destruct (H eq_refl) as (resp & db' & H1 & H2 & _).
  exists resp, db'. auto.
Defined.




(** C2, as stated, fails: after INV-1 is entered, approved and given its
    check, an update that sets the status to PENDING leaves an invoice
    whose check_id is set and whose status is PENDING. *)
Lemma status_patch_breaks_invariant :
  reachable DecimalSyntax.parse Sample.parse_date Sample.decode_utf8_sig
    Sample.DictReader Sample.load_workbook Sample.splitext_ext
    Sample.set_iter (fun _ _ => True) Sample.db_patched
  /\ invoices Sample.db_patched
     = [Invoice.with_status "PENDING" Sample.inv1_issued]
  /\ Invoice.check_id (Invoice.with_status "PENDING" Sample.inv1_issued)
     = Some 1%Z
  /\ ~ check_implies_issued Sample.db_patched.
Proof.
  split; [|split; [reflexivity | split; [reflexivity|]]].
  - unfold Sample.db_patched, Sample.db_issued, Sample.db_approved,
      Sample.db_pending, Sample.serve_sample.
    repeat (apply reach_step; [|exact I]).
    now apply reach_init.
  - intros H.
    assert (Hi : issued_status "PENDING").
    { apply (H (Invoice.with_status "PENDING" Sample.inv1_issued));
        [now left | discriminate]. }
    destruct Hi as [Hi|[Hi|Hi]]; discriminate.
Qed.

Lemma check_implies_issued_reachable_witness :
  reachable DecimalSyntax.parse Sample.parse_date Sample.decode_utf8_sig
    Sample.DictReader Sample.load_workbook Sample.splitext_ext
    Sample.set_iter keeps_issued Sample.db_issued
  /\ check_implies_issued Sample.db_issued.
Proof.
  assert (Hr : reachable DecimalSyntax.parse Sample.parse_date
                 Sample.decode_utf8_sig Sample.DictReader
                 Sample.load_workbook Sample.splitext_ext Sample.set_iter
                 keeps_issued Sample.db_issued).
  { unfold Sample.db_issued, Sample.db_approved, Sample.db_pending,
      Sample.serve_sample.
    repeat (apply reach_step; [|exact I]).
    now apply reach_init. }
  split; [exact Hr|].
  exact (check_implies_issued_reachable _ _ _ _ _ _ _ _ Hr).
Defined.

Lemma import_file_never_imports_witness :
  Py.endswith (Py.lower (filename Sample.batch_csv)) ".csv" = true
  /\ fieldnames (Sample.DictReader (content Sample.batch_csv))
     = Return (Some required_columns)
  /\ csv_rows (Sample.DictReader (content Sample.batch_csv))
     = Return [Sample.csv_row "INV-9" "S1" "Acme Supply" "10.00"]
  /\ import_file DecimalSyntax.parse Sample.parse_date Sample.decode_utf8_sig
       Sample.DictReader Sample.load_workbook Sample.set_iter
       Sample.batch_csv Sample.today Sample.clerk Sample.db0
     = (Raise (TypeError
          "_import_rows() missing 1 required positional argument: 'user_id'"),
        Sample.db0).
Proof.
  assert (Hnames : fieldnames (Sample.DictReader (content Sample.batch_csv))
                   = Return (Some required_columns))
    by (vm_compute; reflexivity).
  assert (Hrows : csv_rows (Sample.DictReader (content Sample.batch_csv))
                  = Return [Sample.csv_row "INV-9" "S1" "Acme Supply" "10.00"])
    by (vm_compute; reflexivity).
  split; [vm_compute; reflexivity|]. split; [exact Hnames|].
  split; [exact Hrows|].
  destruct (import_file_never_imports DecimalSyntax.parse Sample.parse_date
              Sample.decode_utf8_sig Sample.DictReader Sample.load_workbook
              Sample.set_iter Sample.batch_csv Sample.today
              Sample.clerk Sample.db0) as (Hcsv & _).
  apply (Hcsv (content Sample.batch_csv) (Some required_columns)
           [Sample.csv_row "INV-9" "S1" "Acme Supply" "10.00"]);
    try assumption; vm_compute; reflexivity.
Defined.



(** ** The role check *)

(** C9, as stated, fails: the create route admits a VIEWER, and the
    invoice is entered. *)
Lemma viewer_creates_invoice :
  User.role Sample.viewer = "VIEWER"
  /\ invoices Sample.db0 = []
  /\ exists db',
       route DecimalSyntax.parse Sample.parse_date Sample.decode_utf8_sig
         Sample.DictReader Sample.load_workbook Sample.splitext_ext
         Sample.set_iter Sample.create_inv1 Sample.today Sample.viewer
         Sample.db0
       = (Return tt, db')
       /\ map Invoice.invoice_number (invoices db') = ["INV-1"].
Proof.
  split; [reflexivity|]. split; [reflexivity|].
  eexists. split; [vm_compute; reflexivity | reflexivity].
Qed.

(** C9 (amended). The routes that create, bulk-import and update invoices
    admit a VIEWER as they admit every role: the request is handled exactly
    as its handler handles it inside the session, so a VIEWER's create or
    update may succeed and change the ledger.  Approve and generate-check
    refuse a VIEWER with a 403 error and leave the store as it was. *)
Theorem viewer_admitted :
  forall Decimal parse_date decode_utf8_sig DictReader load_workbook
         splitext_ext set_iter req today (u : User.t) db,
    User.role u = "VIEWER" ->
    match req with
    | Approve _ | GenerateCheck _ =>
        exists detail,
          route Decimal parse_date decode_utf8_sig DictReader load_workbook
            splitext_ext set_iter req today u db
          = (Raise (HTTPException 403 detail), db)
    | _ =>
        route Decimal parse_date decode_utf8_sig DictReader load_workbook
          splitext_ext set_iter req today u db
        = get_db (handler Decimal parse_date decode_utf8_sig DictReader
                    load_workbook splitext_ext set_iter req today u) db
    end.
Proof.
  intros Decimal parse_date decode_utf8_sig DictReader load_workbook
    splitext_ext set_iter req today u db Hrole.
  destruct req; unfold route, guard, allow_all_roles, allow_admin,
    require_role, get_db; run_session; rewrite Hrole; cbn;
    try reflexivity;
    rewrite rollback_same; eexists; reflexivity.
Qed.

Lemma viewer_admitted_witness :
  User.role Sample.viewer = "VIEWER"
  /\ exists detail,
       route DecimalSyntax.parse Sample.parse_date Sample.decode_utf8_sig
         Sample.DictReader Sample.load_workbook Sample.splitext_ext
         Sample.set_iter (Approve 1) Sample.today Sample.viewer
         Sample.db_pending
       = (Raise (HTTPException 403 detail), Sample.db_pending).
Proof.
  split; [reflexivity|].
  exact (viewer_admitted DecimalSyntax.parse Sample.parse_date
           Sample.decode_utf8_sig Sample.DictReader Sample.load_workbook
           Sample.splitext_ext Sample.set_iter (Approve 1) Sample.today
           Sample.viewer Sample.db_pending eq_refl).
Defined.

(** ** Vendors on demand *)

Lemma find_app_last {A} (p : A -> bool) (l : list A) (x : A) :
  find p (l ++ [x])
  = match find p l with
    | Some y => Some y
    | None => if p x then Some x else None
    end.
Proof.
  induction l as [|y l IH]; cbn; [reflexivity|].
  destruct (p y); [reflexivity | exact IH].
Qed.

Lemma find_vendor_by_name_name name db v :
  find_vendor_by_name name db = Some v -> Vendor.name v = name.
Proof.
  unfold find_vendor_by_name. intros H. apply find_some in H as [_ H].
  now apply String.eqb_eq.
Qed.

(** X1. [_find_or_create_vendor] always returns a vendor of the given
    name that is in the store afterwards and is the one a lookup by that
    name finds; calling it again returns the same vendor and changes
    nothing; lookups by other names, and the invoices, checks and users,
    are as before; at most one vendor row is added. *)
Theorem find_or_create_vendor_idempotent :
  forall name db,
    exists vendor db1,
      _find_or_create_vendor name db = (Return vendor, db1)
      /\ Vendor.name vendor = name
      /\ find_vendor_by_name name db1 = Some vendor
      /\ _find_or_create_vendor name db1 = (Return vendor, db1)
      /\ (forall other, other <> name ->
            find_vendor_by_name other db1 = find_vendor_by_name other db)
      /\ (vendors db1 = vendors db
          \/ find_vendor_by_name name db = None
             /\ vendors db1 = (vendors db ++ [vendor])%list
             /\ Vendor.id vendor = (vendors_id_seq db + 1)%Z)
      /\ invoices db1 = invoices db /\ checks db1 = checks db
      /\ users db1 = users db
      /\ invoices_id_seq db1 = invoices_id_seq db
      /\ checks_id_seq db1 = checks_id_seq db.
Proof.
  intros name db. unfold _find_or_create_vendor. run_session.
  destruct (find_vendor_by_name name db) as [v|] eqn:Hfind.
  - exists v, db. rewrite Hfind.
    repeat split; eauto using find_vendor_by_name_name.
  - eexists _, _. split; [reflexivity|]. cbn.
    assert (Hnew : find_vendor_by_name name
              (snd (add_vendor (fun new_id =>
                      Vendor.mk new_id name None None None None None None) db))
            = Some (Vendor.mk (vendors_id_seq db + 1) name
                      None None None None None None)).
    { unfold find_vendor_by_name in *. cbn. rewrite find_app_last, Hfind.
      cbn. now rewrite String.eqb_refl. }
    cbn in Hnew. repeat split; auto.
    + unfold add_vendor. cbn.
      unfold find_vendor_by_name in *. cbn in *. now rewrite Hnew.
    + intros other Hother. unfold find_vendor_by_name. cbn.
      rewrite find_app_last. cbn.
      rewrite (string_eqb_false name other) by congruence.
      now destruct (find _ (vendors db)).
Qed.

(** ** The importer as a whole *)

Section ImporterFacts.

Variable Decimal : string -> option PyDecimal.
Variable parse_date : PyDate -> string -> DateParse.

Local Abbreviation validate' := (validate Decimal parse_date).
Local Abbreviation import_row' := (import_row Decimal parse_date).
Local Abbreviation import_loop' := (import_loop Decimal parse_date).

(** One turn of the loop, by the verdict on the row. *)
Lemma import_row_by_verdict source user_id today i row t db :
  import_row' source user_id today i row t db
  = match validate' today row with
    | Rejected msg => (Return (rejected i msg t), db)
    | Aborted e => (Raise e, db)
    | Accepted amount inv_date =>
        if bool_of (find_invoice_by_number (field row "invoice_number") db)
        then (Return (mkImportSummary (total_rows t + 1) (imported t)
                        (skipped_duplicates t + 1) (errors t)), db)
        else
          match _find_or_create_vendor (field row "vendor_name") db with
          | (Return vendor, db1) =>
              (Return (mkImportSummary (total_rows t + 1) (imported t + 1)
                         (skipped_duplicates t) (errors t)),
               snd (add_invoice
                      (imported_invoice source user_id row amount inv_date
                         (Vendor.id vendor)) db1))
          | (Raise e, db1) => (Raise e, db1)
          end
    end.
Proof.
  unfold import_row, validate, rejected.
  destruct (negb (Py.nonempty (field row "invoice_number"))
            || negb (Py.nonempty (field row "vendor_name"))
            || negb (Py.nonempty (field row "amount"))
            || negb (Py.nonempty (field_or_empty row "store_number")));
    [reflexivity|].
  destruct (Decimal (field row "amount")) as [amount|]; [|reflexivity].
  assert (Hins : forall d,
    (existing ← query (find_invoice_by_number (field row "invoice_number"));
     if bool_of existing then
       mret (mkImportSummary (total_rows t + 1) (imported t)
               (skipped_duplicates t + 1) (errors t))
     else
       vendor ← _find_or_create_vendor (field row "vendor_name");
       add_invoice (fun new_id =>
         Invoice.mk new_id (field row "invoice_number")
           (Some (field_or_empty row "store_number")) (Vendor.id vendor)
           amount d "PENDING" None
           (let notes := field_or_empty row "notes" in
            if Py.nonempty notes then Some notes else None)
           None (Some source) (Some user_id));;
       mret (mkImportSummary (total_rows t + 1) (imported t + 1)
               (skipped_duplicates t) (errors t))) db
    = if bool_of (find_invoice_by_number (field row "invoice_number") db)
      then (Return (mkImportSummary (total_rows t + 1) (imported t)
                      (skipped_duplicates t + 1) (errors t)), db)
      else
        match _find_or_create_vendor (field row "vendor_name") db with
        | (Return vendor, db1) =>
            (Return (mkImportSummary (total_rows t + 1) (imported t + 1)
                       (skipped_duplicates t) (errors t)),
             snd (add_invoice
                    (imported_invoice source user_id row amount d
                       (Vendor.id vendor)) db1))
        | (Raise e, db1) => (Raise e, db1)
        end).
  { intros d. run_session.
    destruct (bool_of (find_invoice_by_number _ db)); [reflexivity|].
    destruct (_find_or_create_vendor (field row "vendor_name") db)
      as [[vendor|e] db1]; reflexivity. }
  cbn zeta.
  destruct (Py.nonempty (field_or_empty row "invoice_date")).
  - destruct (parse_date today (field_or_empty row "invoice_date"));
      [apply Hins | reflexivity | reflexivity].
  - apply Hins.
Qed.

Lemma find_by_number_none number db :
  find_invoice_by_number number db = None ->
  ~ In number (map Invoice.invoice_number (invoices db)).
Proof.
  unfold find_invoice_by_number. intros Hnone Hin.
  apply in_map_iff in Hin as (inv & Hnum & Hin).
  eapply find_none in Hnone; [|exact Hin]. cbn in Hnone.
  rewrite Hnum, String.eqb_refl in Hnone. discriminate.
Qed.

Lemma find_by_number_in number db :
  bool_of (find_invoice_by_number number db) = true ->
  In number (map Invoice.invoice_number (invoices db)).
Proof.
  unfold find_invoice_by_number.
  destruct (find _ (invoices db)) as [inv|] eqn:Hf; [|discriminate].
  intros _. apply find_some in Hf as [Hin Hnum]. apply String.eqb_eq in Hnum.
  apply in_map_iff. eauto.
Qed.

Lemma in_number_found number db :
  In number (map Invoice.invoice_number (invoices db)) ->
  bool_of (find_invoice_by_number number db) = true.
Proof.
  intros Hin. apply in_map_iff in Hin as (inv & Hnum & Hin).
  eapply find_invoice_by_number_some; eauto.
Qed.

(** What one returning turn of the loop does to the counters and the
    store. *)
Lemma import_row_step source user_id today i row t db t1 db1 :
  import_row' source user_id today i row t db = (Return t1, db1) ->
  total_rows t1 = (total_rows t + 1)%Z
  /\ checks db1 = checks db /\ users db1 = users db
  /\ match validate' today row with
     | Rejected msg => t1 = rejected i msg t /\ db1 = db
     | Aborted _ => False
     | Accepted amount inv_date =>
         (bool_of (find_invoice_by_number (field row "invoice_number") db)
          = true
          /\ db1 = db /\ imported t1 = imported t
          /\ skipped_duplicates t1 = (skipped_duplicates t + 1)%Z
          /\ errors t1 = errors t)
         \/ (find_invoice_by_number (field row "invoice_number") db = None
             /\ (exists vendor_id new_id,
                   invoices db1
                   = (invoices db
                      ++ [imported_invoice source user_id row amount inv_date
                            vendor_id new_id])%list)
             /\ imported t1 = (imported t + 1)%Z
             /\ skipped_duplicates t1 = skipped_duplicates t
             /\ errors t1 = errors t)
     end.
Proof.
  rewrite import_row_by_verdict.
  destruct (validate' today row) as [msg|e|amount inv_date].
  - intros H. inversion H; subst. cbn. auto.
  - discriminate.
  - destruct (find_invoice_by_number (field row "invoice_number") db)
      as [existing|] eqn:Hfind; cbn.
    + intros H. inversion H; subst. cbn. repeat split; auto.
      left. auto.
    + destruct (find_or_create_vendor_idempotent (field row "vendor_name") db)
        as (vendor & dbv & Hv & _ & _ & _ & _ & _ & Hi & Hc & Hu & _).
      rewrite Hv. intros H. inversion H; subst. cbn.
      repeat split; auto. right. rewrite Hi. repeat split; eauto.
Qed.

Lemma NoDup_snoc {A} (l : list A) (x : A) :
  List.NoDup l -> ~ In x l -> List.NoDup (l ++ [x]).
Proof.
  induction l as [|y l IH]; intros Hl Hx; cbn.
  - constructor; [intros [] | constructor].
  - inversion Hl as [|? ? Hy Hl']; subst. constructor.
    + intros Hin. apply in_app_or in Hin as [Hin|[<-|[]]].
      * contradiction.
      * apply Hx. now left.
    + apply IH; [exact Hl' | intros Hin; apply Hx; now right].
Qed.

(** The loop, when it returns: counters, errors, new invoices. *)
Lemma import_loop_facts source user_id today rows :
  forall i t db t' db',
    import_loop' source user_id today i rows t db = (Return t', db') ->
    total_rows t' = (total_rows t + Z.of_nat (length rows))%Z
    /\ (skipped_duplicates t' + imported t'
        = skipped_duplicates t + imported t
          + accepted_count Decimal parse_date today rows)%Z
    /\ errors t' = (errors t ++ row_errors Decimal parse_date today i rows)%list
    /\ (exists new,
          invoices db' = (invoices db ++ new)%list
          /\ imported t' = (imported t + Z.of_nat (length new))%Z
          /\ Forall (imported_as source user_id) new)
    /\ checks db' = checks db /\ users db' = users db
    /\ (List.NoDup (map Invoice.invoice_number (invoices db)) ->
        List.NoDup (map Invoice.invoice_number (invoices db')))
    /\ (forall row, In row rows ->
          match validate' today row with
          | Rejected _ => True
          | Aborted _ => False
          | Accepted _ _ =>
              In (field row "invoice_number")
                 (map Invoice.invoice_number (invoices db'))
          end).
Proof.
  induction rows as [|row rest IH]; intros i t db t' db' Hrun.
  - cbn in Hrun. inversion Hrun; subst. cbn.
    split; [lia|]. split; [unfold accepted_count; cbn; lia|].
    split; [now rewrite app_nil_r|].
    split; [exists []; rewrite app_nil_r; repeat split; [cbn; lia|constructor]|].
    repeat split; auto. intros row [].
  - cbn [import_loop] in Hrun. revert Hrun. run_session.
    destruct (import_row' source user_id today i row t db)
      as [[t1|e] db1] eqn:Hrow; [|discriminate].
    intros Hrest.
    apply import_row_step in Hrow as (Htot & Hchk & Husr & Hcase).
    apply IH in Hrest
      as (Htot' & Hcnt' & Herr' & (new & Hnew & Himp & Hall) & Hchk' & Husr'
          & Hdup' & Hin').
    unfold accepted_count in *. cbn [row_errors List.filter length].
    destruct (validate' today row) as [msg|e|amount inv_date] eqn:Hv.
    + destruct Hcase as [-> ->]. cbn in *.
      repeat split; try lia; try congruence.
      * rewrite Herr', <- app_assoc. reflexivity.
      * exists new. auto.
      * assumption.
      * intros r [<-|Hr]; [now rewrite Hv | now apply Hin'].
    + destruct Hcase.
    + destruct Hcase as [(Hfound & -> & Hi & Hs & He)
                        |(Hnone & (vid & nid & Hinv) & Hi & Hs & He)].
      * cbn [length] in *. repeat split; try lia; try congruence.
        -- exists new. repeat split; auto. lia.
        -- assumption.
        -- intros r [<-|Hr]; [|now apply Hin'].
           rewrite Hv, Hnew, map_app. apply in_or_app. left.
           now apply find_by_number_in.
      * cbn [length] in *. repeat split; try lia; try congruence.
        -- exists (imported_invoice source user_id row amount inv_date vid nid
                   :: new).
           rewrite Hnew, Hinv, <- app_assoc. cbn [app length].
           repeat split; [lia|]. constructor; [|exact Hall].
           unfold imported_as. cbn. auto.
        -- intros Hnd. apply Hdup'. rewrite Hinv, map_app. cbn.
           apply NoDup_snoc; [exact Hnd | now apply find_by_number_none].
        -- intros r [<-|Hr]; [|now apply Hin'].
           rewrite Hv, Hnew, Hinv, !map_app. apply in_or_app. left.
           apply in_or_app. right. now left.
Qed.

Lemma errors_and_accepted today rows :
  (forall row, In row rows ->
     match validate' today row with Aborted _ => False | _ => True end) ->
  forall i,
    (Z.of_nat (length (row_errors Decimal parse_date today i rows))
     + accepted_count Decimal parse_date today rows
     = Z.of_nat (length rows))%Z.
Proof.
  unfold accepted_count. induction rows as [|r rs IH]; intros Hok i;
    [reflexivity|].
  cbn [row_errors List.filter length].
  assert (Hrs : forall row, In row rs ->
            match validate' today row with Aborted _ => False | _ => True end)
    by (intros row Hr; apply Hok; now right).
  specialize (IH Hrs (i + 1)%Z).
  pose proof (Hok r (or_introl eq_refl)) as Hr.
  destruct (validate' today r); cbn [length] in *; [lia | destruct Hr | lia].
Qed.

(** X2. When [_import_rows] returns, the summary adds up: total_rows is
    the number of rows, every row is counted exactly once as imported,
    skipped or in error, and the error strings are those of the rejected
    rows in file order.  The ledger has grown by exactly [imported]
    invoices, appended after the old ones, each PENDING, without a check
    and tagged with the source and the importing user; checks and users
    are untouched. *)
Theorem import_summary_adds_up :
  forall rows source user_id today db t db',
    _import_rows Decimal parse_date rows source user_id today db
    = (Return t, db') ->
    total_rows t = Z.of_nat (length rows)
    /\ (imported t + skipped_duplicates t + Z.of_nat (length (errors t))
        = total_rows t)%Z
    /\ errors t = row_errors Decimal parse_date today 2 rows
    /\ (exists new,
          invoices db' = (invoices db ++ new)%list
          /\ imported t = Z.of_nat (length new)
          /\ Forall (imported_as source user_id) new)
    /\ checks db' = checks db /\ users db' = users db.
Proof.
  intros rows source user_id today db t db' Hrun.
  unfold _import_rows in Hrun.
  apply import_loop_facts in Hrun
    as (Htot & Hcnt & Herr & (new & Hnew & Himp & Hall) & Hchk & Husr & _
        & Hin).
  cbn in Htot, Hcnt, Herr, Himp.
  assert (Hok : forall row, In row rows ->
            match validate' today row with Aborted _ => False | _ => True end).
  { intros row Hr. specialize (Hin row Hr).
    now destruct (validate' today row). }
  pose proof (errors_and_accepted today rows Hok 2%Z) as Hlen.
  rewrite <- Herr in Hlen.
  repeat split; try assumption; try lia.
  exists new. repeat split; auto.
Qed.

(** X3. [_import_rows] never files the same invoice number twice: if the
    invoice numbers of the ledger are pairwise distinct before the import
    they are pairwise distinct after it, also when the file repeats a
    number or names one the ledger already has. *)
Theorem import_keeps_numbers_unique :
  forall rows source user_id today db t db',
    List.NoDup (map Invoice.invoice_number (invoices db)) ->
    _import_rows Decimal parse_date rows source user_id today db
    = (Return t, db') ->
    List.NoDup (map Invoice.invoice_number (invoices db')).
Proof.
  intros rows source user_id today db t db' Hnd Hrun.
  unfold _import_rows in Hrun.
  apply import_loop_facts in Hrun as (_ & _ & _ & _ & _ & _ & Hdup & _).
  now apply Hdup.
Qed.

(** On two days on which dateutil reads the date of the row alike, the
    verdict on the row differs at most in the date an accepted row gets. *)
Lemma validate_today today today' row :
  parse_date today' (field_or_empty row "invoice_date")
  = parse_date today (field_or_empty row "invoice_date") ->
  match validate' today row, validate' today' row with
  | Rejected m, Rejected m' => m = m'
  | Aborted e, Aborted e' => e = e'
  | Accepted a _, Accepted a' _ => a = a'
  | _, _ => False
  end.
Proof.
  intros Hsame. unfold validate. rewrite Hsame.
  destruct (negb (Py.nonempty (field row "invoice_number"))
            || negb (Py.nonempty (field row "vendor_name"))
            || negb (Py.nonempty (field row "amount"))
            || negb (Py.nonempty (field_or_empty row "store_number")));
    [reflexivity|].
  destruct (Decimal (field row "amount")); [|reflexivity].
  destruct (Py.nonempty (field_or_empty row "invoice_date"));
    [|reflexivity].
  destruct (parse_date today (field_or_empty row "invoice_date")); reflexivity.
Qed.

Lemma row_errors_today today today' rows :
  (forall row, In row rows ->
     parse_date today' (field_or_empty row "invoice_date")
     = parse_date today (field_or_empty row "invoice_date")) ->
  forall i,
    row_errors Decimal parse_date today i rows
    = row_errors Decimal parse_date today' i rows.
Proof.
  induction rows as [|r rs IH]; intros Hsame i; [reflexivity|]. cbn.
  pose proof (validate_today today today' r (Hsame r (or_introl eq_refl)))
    as Hv.
  assert (Hrs : forall row, In row rs ->
            parse_date today' (field_or_empty row "invoice_date")
            = parse_date today (field_or_empty row "invoice_date"))
    by (intros row Hr; apply Hsame; now right).
  destruct (validate' today r), (validate' today' r); try destruct Hv;
    try now apply IH.
  subst. now rewrite IH.
Qed.

Lemma accepted_count_today today today' rows :
  (forall row, In row rows ->
     parse_date today' (field_or_empty row "invoice_date")
     = parse_date today (field_or_empty row "invoice_date")) ->
  accepted_count Decimal parse_date today rows
  = accepted_count Decimal parse_date today' rows.
Proof.
  intros Hsame. unfold accepted_count. f_equal.
  induction rows as [|r rs IH]; [reflexivity|]. cbn.
  pose proof (validate_today today today' r (Hsame r (or_introl eq_refl)))
    as Hv.
  assert (Hrs : forall row, In row rs ->
            parse_date today' (field_or_empty row "invoice_date")
            = parse_date today (field_or_empty row "invoice_date"))
    by (intros row Hr; apply Hsame; now right).
  destruct (validate' today r), (validate' today' r); try destruct Hv;
    cbn; now rewrite ?(IH Hrs).
Qed.

(** The loop over rows that are all rejected or already in the ledger. *)
Lemma import_loop_again source user_id today rows :
  forall i t db,
    (forall row, In row rows ->
       match validate' today row with
       | Rejected _ => True
       | Aborted _ => False
       | Accepted _ _ =>
           In (field row "invoice_number")
              (map Invoice.invoice_number (invoices db))
       end) ->
    import_loop' source user_id today i rows t db
    = (Return (mkImportSummary
                 (total_rows t + Z.of_nat (length rows)) (imported t)
                 (skipped_duplicates t
                  + accepted_count Decimal parse_date today rows)
                 (errors t ++ row_errors Decimal parse_date today i rows)),
       db).
Proof.
  unfold accepted_count.
  induction rows as [|r rs IH]; intros i t db Hok.
  - cbn. rewrite app_nil_r, !Z.add_0_r. now destruct t.
  - cbn [import_loop]. run_session. rewrite import_row_by_verdict.
    pose proof (Hok r (or_introl eq_refl)) as Hr.
    assert (Hrs : forall row, In row rs ->
       match validate' today row with
       | Rejected _ => True
       | Aborted _ => False
       | Accepted _ _ =>
           In (field row "invoice_number")
              (map Invoice.invoice_number (invoices db))
       end) by (intros row Hrow; apply Hok; now right).
    cbn [row_errors List.filter length].
    destruct (validate' today r) as [msg|e|amount d]; [|destruct Hr|].
    + rewrite (IH _ _ _ Hrs). unfold rejected. cbn.
      rewrite <- app_assoc. do 3 f_equal. lia.
    + rewrite (in_number_found _ _ Hr). rewrite (IH _ _ _ Hrs). cbn.
      do 2 f_equal. f_equal; lia.
Qed.

(** X4. Importing the same rows again imports nothing: once
    [_import_rows] has returned, a second run over the same rows, from any
    source and by any user, on the same day or on any other day on which
    dateutil reads the dates of the rows as it did on the first, returns
    too, leaves the store as it is, reports the same errors, and counts as
    skipped duplicates every row the first run imported or skipped. *)
Theorem reimport_imports_nothing :
  forall rows source user_id today db t db',
    _import_rows Decimal parse_date rows source user_id today db
    = (Return t, db') ->
    forall source' user_id' today',
      (forall row, In row rows ->
         parse_date today' (field_or_empty row "invoice_date")
         = parse_date today (field_or_empty row "invoice_date")) ->
      _import_rows Decimal parse_date rows source' user_id' today' db'
      = (Return (mkImportSummary (total_rows t) 0
                   (imported t + skipped_duplicates t) (errors t)),
         db').
Proof.
  intros rows source user_id today db t db' Hrun source' user_id' today'
    Hsame.
  unfold _import_rows in *.
  apply import_loop_facts in Hrun
    as (Htot & Hcnt & Herr & _ & _ & _ & _ & Hin).
  cbn in Htot, Hcnt, Herr.
  rewrite import_loop_again.
  - cbn. rewrite <- (row_errors_today today today' rows Hsame),
      <- (accepted_count_today today today' rows Hsame), Herr, Htot.
    do 2 f_equal. f_equal. lia.
  - intros row Hr. specialize (Hin row Hr).
    pose proof (validate_today today today' row (Hsame row Hr)) as Hv.
    destruct (validate' today row), (validate' today' row);
      try destruct Hv; auto.
Qed.

End ImporterFacts.

(** ** Rows replaced in place *)

Lemma NoDup_map_injective {A B} (f : A -> B) (l : list A) a b :
  List.NoDup (map f l) -> In a l -> In b l -> f a = f b -> a = b.
Proof.
  induction l as [|x l IH]; cbn; intros Hnd Ha Hb Hf; [destruct Ha|].
  inversion Hnd as [|? ? Hx Hl]; subst.
  destruct Ha as [->|Ha], Hb as [->|Hb]; auto.
  - exfalso. apply Hx. rewrite Hf. now apply in_map.
  - exfalso. apply Hx. rewrite <- Hf. now apply in_map.
Qed.

Lemma find_invoice_list_some (l : list Invoice.t) k old :
  find (fun i => Invoice.id i =? k)%Z l = Some old ->
  In old l /\ Invoice.id old = k.
Proof.
  intros H. apply find_some in H as [Hin Hid]. split; [exact Hin | lia].
Qed.

(** Replacing the row of key [k], when keys are unique: the other rows
    stay, the old row goes, the new row comes. *)
Lemma replaced_rows (l : list Invoice.t) k row old :
  List.NoDup (map Invoice.id l) ->
  find (fun i => Invoice.id i =? k)%Z l = Some old ->
  Invoice.id row = k ->
  (forall x,
      In x (map (fun i => if (Invoice.id i =? k)%Z then row else i) l)
      <-> x = row \/ (In x l /\ x <> old))
  /\ (forall {B} (f : Invoice.t -> B), f row = f old ->
        map f (map (fun i => if (Invoice.id i =? k)%Z then row else i) l)
        = map f l).
Proof.
  intros Hnd Hfind Hrow.
  apply find_invoice_list_some in Hfind as [Hold Hk].
  assert (Huniq : forall y, In y l -> Invoice.id y = k -> y = old).
  { intros y Hy Hid. eapply (NoDup_map_injective Invoice.id); eauto.
    congruence. }
  split.
  - intros x. rewrite in_map_iff. split.
    + intros (y & Hy & Hin). destruct (Invoice.id y =? k)%Z eqn:E.
      * now left.
      * right. subst x. split; [exact Hin|].
        intros ->. apply Z.eqb_neq in E. contradiction.
    + intros [->|[Hin Hne]].
      * exists old. split; [|exact Hold].
        replace (Invoice.id old =? k)%Z with true
          by (symmetry; now apply Z.eqb_eq).
        reflexivity.
      * exists x. split; [|exact Hin].
        destruct (Invoice.id x =? k)%Z eqn:E; [|reflexivity].
        apply Z.eqb_eq in E. exfalso. apply Hne. now apply Huniq.
  - intros B f Hf. rewrite map_map. apply map_ext_in. intros y Hy.
    destruct (Invoice.id y =? k)%Z eqn:E; [|reflexivity].
    apply Z.eqb_eq in E. rewrite (Huniq y Hy E). exact Hf.
Qed.

(** ** The ledger invariant, write by write *)

Lemma ledger_ok_add_invoice db mk_row :
  ledger_ok db ->
  Invoice.id (mk_row (invoices_id_seq db + 1)%Z) = (invoices_id_seq db + 1)%Z ->
  Invoice.check_id (mk_row (invoices_id_seq db + 1)%Z) = None ->
  find_invoice_by_number
    (Invoice.invoice_number (mk_row (invoices_id_seq db + 1)%Z)) db = None ->
  ledger_ok (snd (add_invoice mk_row db)).
Proof.
  intros [Hkeys Hseq Hids Hnums Hchk Hone Hown Hmatch Hnumd] Hid Hnone Hnum.
  set (new := mk_row (invoices_id_seq db + 1)%Z) in *.
  destruct Hkeys as (Hs & Hpk & Hfk).
  constructor; cbn; fold new.
  - unfold keys_ok; cbn. split; [exact Hs|]. split; [exact Hpk|].
    intros inv c Hin Hc. apply in_app_or in Hin as [Hin|[<-|[]]];
      [eauto | congruence].
  - intros inv Hin. apply in_app_or in Hin as [Hin|[<-|[]]].
    + specialize (Hseq _ Hin). lia.
    + lia.
  - rewrite map_app. cbn. apply NoDup_snoc; [exact Hids|].
    intros Hin. apply in_map_iff in Hin as (y & Hy & Hin).
    specialize (Hseq _ Hin). lia.
  - rewrite map_app. cbn. apply NoDup_snoc; [exact Hnums|].
    now apply find_by_number_none.
  - exact Hchk.
  - intros a b c Ha Hb Hca Hcb.
    apply in_app_or in Ha as [Ha|[<-|[]]]; [|congruence].
    apply in_app_or in Hb as [Hb|[<-|[]]]; [|congruence].
    eauto.
  - intros chk Hin. destruct (Hown _ Hin) as (inv & Hi & Hc).
    exists inv. split; [apply in_or_app; now left | exact Hc].
  - intros inv chk Hin Hc Hid'.
    apply in_app_or in Hin as [Hin|[<-|[]]]; [eauto | congruence].
  - exact Hnumd.
Qed.

Lemma ledger_ok_flush_invoice db inv inv' :
  ledger_ok db ->
  find_invoice (Invoice.id inv') db = Some inv ->
  same_but_notes_status inv inv' ->
  ledger_ok (snd (flush_invoice inv' db)).
Proof.
  intros [Hkeys Hseq Hids Hnums Hchk Hone Hown Hmatch Hnumd] Hfind
    (E1 & E2 & E3 & E4 & E5 & E6 & E7 & E8 & E9 & E10).
  destruct (replaced_rows (invoices db) (Invoice.id inv') inv' inv Hids Hfind
              eq_refl) as [Hin Hmap].
  apply find_invoice_list_some in Hfind as [Hold _].
  destruct Hkeys as (Hs & Hpk & Hfk).
  (* every row of the new table has a row of the old one with the same keys *)
  assert (Hback : forall x,
    In x (map (fun i => if (Invoice.id i =? Invoice.id inv')%Z
                        then inv' else i) (invoices db)) ->
    exists y, In y (invoices db)
              /\ Invoice.id y = Invoice.id x
              /\ Invoice.check_id y = Invoice.check_id x
              /\ Invoice.amount y = Invoice.amount x
              /\ Invoice.vendor_id y = Invoice.vendor_id x
              /\ (y = inv <-> x = inv')).
  { intros x Hx. apply Hin in Hx as [->|[Hx Hne]].
    - exists inv. repeat split; auto.
    - exists x. repeat split; auto; intros ->; [contradiction|].
      exfalso. apply Hne.
      eapply (NoDup_map_injective Invoice.id); eauto. }
  constructor; cbn.
  - unfold keys_ok; cbn. split; [exact Hs|]. split; [exact Hpk|].
    intros x c Hx Hc.
    destruct (Hback x Hx) as (y & Hy & _ & Hcy & _). apply (Hfk y); congruence.
  - intros x Hx. destruct (Hback x Hx) as (y & Hy & Hid & _).
    rewrite <- Hid. now apply Hseq.
  - rewrite Hmap; [exact Hids | congruence].
  - rewrite Hmap; [exact Hnums | congruence].
  - exact Hchk.
  - intros a b c Ha Hb Hca Hcb.
    apply Hin in Ha as [->|[Ha Hna]]; apply Hin in Hb as [->|[Hb Hnb]].
    + reflexivity.
    + exfalso. apply Hnb. symmetry. apply (Hone inv b c); congruence.
    + exfalso. apply Hna. symmetry. apply (Hone inv a c); congruence.
    + apply (Hone a b c); auto.
  - intros chk Hc. destruct (Hown _ Hc) as (y & Hy & Hcy).
    destruct (Invoice.id y =? Invoice.id inv')%Z eqn:E.
    + apply Z.eqb_eq in E.
      assert (y = inv)
        by (eapply (NoDup_map_injective Invoice.id); eauto; congruence).
      subst y. exists inv'. split; [apply Hin; now left | congruence].
    + exists y. split; [|exact Hcy]. apply Hin. right. split; [exact Hy|].
      intros ->. apply Z.eqb_neq in E. congruence.
  - intros x chk Hx Hc Hid.
    destruct (Hback x Hx) as (y & Hy & _ & Hcy & Hay & Hvy & _).
    rewrite <- Hay, <- Hvy. apply Hmatch; auto. congruence.
  - exact Hnumd.
Qed.

Lemma ledger_ok_issued_store db body today invoice :
  ledger_ok db ->
  find_invoice (g_invoice_id body) db = Some invoice ->
  check_id_truthy (Invoice.check_id invoice) = false ->
  ledger_ok (issued_store body today invoice db).
Proof.
  intros Hok Hfind Htruthy.
  pose proof Hok as [Hkeys Hseq Hids Hnums Hchk Hone Hown Hmatch Hnumd].
  pose proof (find_invoice_id _ _ _ Hfind) as Hid.
  pose proof (find_invoice_In _ _ _ Hfind) as Hold.
  assert (Hnone : Invoice.check_id invoice = None).
  { destruct (Invoice.check_id invoice) as [c|] eqn:Hc; [|reflexivity].
    rewrite <- Hc in Htruthy.
    rewrite (keys_ok_check_id_truthy _ _ _ Hkeys Hold Hc) in Htruthy.
    discriminate. }
  unfold find_invoice in Hfind. rewrite <- Hid in Hfind.
  destruct (replaced_rows (invoices db) (Invoice.id invoice)
              (issued_invoice invoice db) invoice Hids Hfind eq_refl)
    as [Hin Hmap].
  pose proof (next_check_value_bounds db Hkeys) as [Hbound Hlater].
  destruct Hkeys as (Hs & Hpk & Hfk).
  assert (Hfresh : forall x c, In x (invoices db) ->
            Invoice.check_id x = Some c -> c <> (checks_id_seq db + 1)%Z).
  { intros x c Hx Hc. destruct (Hfk _ _ Hx Hc) as (chk & Hchk' & <-).
    specialize (Hpk _ Hchk'). lia. }
  constructor.
  - apply issued_store_keys_ok. exact (lo_keys _ Hok).
  - cbn. intros x Hx. apply Hin in Hx as [->|[Hx _]]; cbn; auto.
  - cbn. rewrite Hmap; [exact Hids | reflexivity].
  - cbn. rewrite Hmap; [exact Hnums | reflexivity].
  - cbn. rewrite map_app. cbn. apply NoDup_snoc; [exact Hchk|].
    intros Hc. apply in_map_iff in Hc as (chk & Hcid & Hc).
    specialize (Hpk _ Hc). lia.
  - cbn. intros a b c Ha Hb Hca Hcb.
    apply Hin in Ha as [->|[Ha Hna]]; apply Hin in Hb as [->|[Hb Hnb]].
    + reflexivity.
    + cbn in Hca. inversion Hca; subst c.
      exfalso. now apply (Hfresh b _ Hb Hcb).
    + cbn in Hcb. inversion Hcb; subst c.
      exfalso. now apply (Hfresh a _ Ha Hca).
    + apply (Hone a b c); auto.
  - cbn. intros chk Hc. apply in_app_or in Hc as [Hc|[<-|[]]].
    + destruct (Hown _ Hc) as (y & Hy & Hcy). exists y.
      split; [|exact Hcy]. apply Hin. right. split; [exact Hy|].
      intros ->. congruence.
    + exists (issued_invoice invoice db). split; [|reflexivity].
      apply Hin. now left.
  - cbn. intros x chk Hx Hc Hxc.
    apply Hin in Hx as [->|[Hx Hnx]]; apply in_app_or in Hc as [Hc|[<-|[]]].
    + cbn in Hxc. inversion Hxc as [Hseq']. specialize (Hpk _ Hc). lia.
    + cbn. auto.
    + now apply Hmatch.
    + cbn in Hxc. exfalso. now apply (Hfresh x _ Hx Hxc).
  - cbn. intros chk Hc. apply in_app_or in Hc as [Hc|[<-|[]]].
    + destruct (Hnumd _ Hc) as (n & Hn & Hb & Holder).
      exists n. repeat split; auto; try lia.
      intros older Ho Hlt. apply in_app_or in Ho as [Ho|[<-|[]]]; auto.
      cbn in Hlt. specialize (Hpk _ Hc). lia.
    + exists (next_check_value db). split; [reflexivity|]. cbn.
      split; [lia|].
      intros older Ho Hlt. apply in_app_or in Ho as [Ho|[<-|[]]].
      * now apply Hlater.
      * cbn in Hlt. lia.
Qed.

(** ** The ledger invariant, request by request *)

Section LedgerRuns.

Variable Decimal : string -> option PyDecimal.
Variable parse_date : PyDate -> string -> DateParse.
Variable decode_utf8_sig : string -> Outcome string.
Variable DictReader : string -> CsvReader.
Variable load_workbook : string -> Outcome Worksheet.
Variable splitext_ext : string -> string.
Variable set_iter : list string -> list string.

Local Abbreviation serve' :=
  (serve Decimal parse_date decode_utf8_sig DictReader load_workbook
         splitext_ext set_iter).
Local Abbreviation run' :=
  (run_requests Decimal parse_date decode_utf8_sig DictReader load_workbook
                splitext_ext set_iter).

Lemma ledger_ok_draw db : ledger_ok db -> ledger_ok (draw_check_id db).
Proof.
  intros [Hkeys Hseq Hids Hnums Hchk Hone Hown Hmatch Hnumd].
  constructor; auto. now apply keys_ok_draw.
Qed.

Lemma patch_notes_same body inv :
  same_but_notes_status inv (patch_notes body inv)
  /\ Invoice.status (patch_notes body inv) = Invoice.status inv.
Proof.
  unfold patch_notes, same_but_notes_status.
  destruct (u_notes body); cbn; repeat split.
Qed.

(** What serving one request does to the store: nothing, but for an
    id of the checks that a refused insert has drawn; or one PENDING
    invoice without a check appended under a number the ledger did not
    have; or the notes and status of one invoice rewritten; or a check
    issued. *)
Lemma serve_cases req today current_user db :
  (serve' req today current_user db = db
   \/ serve' req today current_user db = draw_check_id db)
  \/ (exists mk_row,
        (forall n, Invoice.id (mk_row n) = n
                   /\ Invoice.check_id (mk_row n) = None
                   /\ Invoice.status (mk_row n) = "PENDING")
        /\ find_invoice_by_number
             (Invoice.invoice_number (mk_row (invoices_id_seq db + 1)%Z)) db
           = None
        /\ serve' req today current_user db = snd (add_invoice mk_row db))
  \/ (exists inv inv',
        find_invoice (Invoice.id inv') db = Some inv
        /\ same_but_notes_status inv inv'
        /\ serve' req today current_user db = snd (flush_invoice inv' db)
        /\ (is_update req = true
            \/ Invoice.status inv = "PENDING"
               /\ inv' = Invoice.with_status "APPROVED" inv))
  \/ (exists body invoice,
        req = GenerateCheck body
        /\ find_invoice (g_invoice_id body) db = Some invoice
        /\ Invoice.status invoice = "APPROVED"
        /\ check_id_truthy (Invoice.check_id invoice) = false
        /\ serve' req today current_user db
           = issued_store body today invoice db).
Proof.
  destruct req; unfold serve, get_db, handler; run_session.
  - (* create *)
    unfold create_invoice_manual. run_session.
    destruct (Decimal amount) as [amt|]; [|left; left; apply rollback_same].
    destruct (parse_date today invoice_date) as [d| |e];
      try (left; left; apply rollback_same).
    destruct (find_invoice_by_number invoice_number db) eqn:Hnum;
      [left; left; apply rollback_same|]. cbn [bool_of].
    destruct (find_vendor vendor_id db) as [vendor|];
      [|left; left; apply rollback_same].
    destruct (save_attachment_pure splitext_ext set_iter file uuid_hex db)
      as [o ->].
    destruct o as [name|e]; [|left; left; apply rollback_same].
    right. left. eexists. split; [|split; [|reflexivity]].
    + intros n. cbn. auto.
    + cbn. exact Hnum.
  - (* import *)
    destruct (import_file_raises Decimal parse_date decode_utf8_sig
                DictReader load_workbook set_iter file today current_user db)
      as [e ->].
    left. left. apply rollback_same.
  - (* update *)
    unfold update_invoice. run_session.
    destruct (find_invoice invoice_id db) as [inv|] eqn:Hfind;
      [|left; left; apply rollback_same].
    pose proof (find_invoice_id _ _ _ Hfind) as Hid.
    destruct (patch_notes_same body inv) as [Hsame Hst].
    destruct (u_status body) as [[s|]|]; cbn.
    + right. right. left.
      exists inv, (Invoice.with_status s (patch_notes body inv)).
      repeat split; try apply Hsame; auto.
      cbn. replace (Invoice.id (patch_notes body inv)) with invoice_id;
        [exact Hfind|]. destruct Hsame as [<- _]. now symmetry.
    + left. left. apply rollback_same.
    + right. right. left. exists inv, (patch_notes body inv).
      repeat split; try apply Hsame; auto.
      replace (Invoice.id (patch_notes body inv)) with invoice_id;
        [exact Hfind|]. destruct Hsame as [<- _]. now symmetry.
  - (* approve *)
    unfold approve_invoice. run_session.
    destruct (find_invoice invoice_id db) as [inv|] eqn:Hfind;
      [|left; left; apply rollback_same].
    pose proof (find_invoice_id _ _ _ Hfind) as Hid.
    destruct (String.eqb (Invoice.status inv) "PENDING") eqn:Hst; cbn;
      [|left; left; apply rollback_same].
    apply String.eqb_eq in Hst.
    right. right. left. exists inv, (Invoice.with_status "APPROVED" inv).
    repeat split; auto. cbn. now rewrite Hid.
  - (* generate check *)
    destruct (generate_check body today current_user db) as [[resp|e] db']
      eqn:Hrun; cbn.
    + apply generate_check_returns in Hrun as (invoice & Hf & Hs & Ht & ->).
      right. right. right. exists body, invoice. auto.
    + apply generate_check_raises in Hrun as [-> | ->].
      * left. left. apply rollback_same.
      * left. right. apply rollback_draw.
Qed.

Lemma serve_ledger_ok req today current_user db :
  ledger_ok db -> ledger_ok (serve' req today current_user db).
Proof.
  intros Hok.
  destruct (serve_cases req today current_user db)
    as [[-> | ->] | [(mk_row & Hrow & Hnum & ->)
       | [(inv & inv' & Hfind & Hsame & -> & _)
       | (body & invoice & _ & Hfind & _ & Ht & ->)]]].
  - exact Hok.
  - now apply ledger_ok_draw.
  - apply ledger_ok_add_invoice; auto; apply Hrow.
  - eapply ledger_ok_flush_invoice; eauto.
  - now apply ledger_ok_issued_store.
Qed.

Lemma fresh_ledger_ok db : fresh_ledger db -> ledger_ok db.
Proof.
  intros (Hi & Hc & Hs). constructor.
  - unfold keys_ok. rewrite Hi, Hc. cbn.
    split; [exact Hs|]. split; intros; contradiction.
  - rewrite Hi. intros inv [].
  - rewrite Hi. constructor.
  - rewrite Hi. constructor.
  - rewrite Hc. constructor.
  - rewrite Hi. intros a b c [].
  - rewrite Hc. intros chk [].
  - rewrite Hi. intros inv chk [].
  - rewrite Hc. intros chk [].
Qed.

Lemma run_ledger_ok reqs :
  forall db, ledger_ok db -> ledger_ok (run' reqs db).
Proof.
  induction reqs as [|[[req today] u] reqs IH]; intros db Hok; [exact Hok|].
  cbn. apply IH. now apply serve_ledger_ok.
Qed.

End LedgerRuns.

(** ** Reading a check number back *)

Lemma uint_of_string_zeros k s d :
  NilEmpty.uint_of_string s = Some d ->
  exists d', NilEmpty.uint_of_string (Py.zeros k ++ s) = Some d'
             /\ N.of_uint d' = N.of_uint d.
Proof.
  intros Hs. induction k as [|k (d' & Hd' & Hv)].
  - exists d. auto.
  - exists (Decimal.D0 d').
    change (Py.zeros (S k) ++ s) with (String "0" (Py.zeros k ++ s)).
    cbn [NilEmpty.uint_of_string]. rewrite Hd'.
    split; [reflexivity | exact Hv].
Qed.

Lemma str_int_read v :
  (0 <= v)%Z ->
  exists d, NilEmpty.uint_of_string (Py.str_int v) = Some d
            /\ N.of_uint d = Z.to_N v.
Proof.
  intros Hv. unfold Py.str_int. destruct v as [|p|p]; [| |lia].
  - exists (Decimal.D0 Decimal.Nil). split; reflexivity.
  - exists (Pos.to_uint p). cbn. split.
    + pose proof (DecimalPos.Unsigned.to_uint_nonnil p) as Hnil.
      unfold NilZero.string_of_uint.
      destruct (Pos.to_uint p) eqn:E; try congruence;
        rewrite <- E; apply NilEmpty.usu.
    + apply DecimalPos.Unsigned.of_to.
Qed.

(** The digits of a formatted number give the number back, so the
    format is one-to-one on the non-negative integers. *)
Lemma format_06d_injective a b :
  (0 <= a)%Z -> (0 <= b)%Z -> Py.format_06d a = Py.format_06d b -> a = b.
Proof.
  intros Ha Hb Heq.
  rewrite (format_06d_nonneg a Ha), (format_06d_nonneg b Hb) in Heq.
  destruct (str_int_read a Ha) as (da & Hda & Hva).
  destruct (str_int_read b Hb) as (db & Hdb & Hvb).
  destruct (uint_of_string_zeros
              (6 - String.length (Py.str_int a)) _ _ Hda) as (da' & Ha' & Hea).
  destruct (uint_of_string_zeros
              (6 - String.length (Py.str_int b)) _ _ Hdb) as (db' & Hb' & Heb).
  rewrite Heq in Ha'. rewrite Ha' in Hb'. inversion Hb'; subst db'.
  assert (Z.to_N a = Z.to_N b) by congruence. lia.
Qed.

(** ** What every run of requests keeps *)

Lemma NoDup_map_by {A B C} (f : A -> B) (g : A -> C) (l : list A) :
  List.NoDup (map g l) ->
  (forall a b, In a l -> In b l -> f a = f b -> g a = g b) ->
  List.NoDup (map f l).
Proof.
  induction l as [|x l IH]; cbn; intros Hnd Hfg; [constructor|].
  inversion Hnd as [|? ? Hx Hl]; subst. constructor.
  - intros Hin. apply in_map_iff in Hin as (y & Hy & Hin).
    apply Hx. rewrite (Hfg x y); auto. now apply in_map.
  - apply IH; auto.
Qed.

Lemma ledger_ok_check_numbers db :
  ledger_ok db -> List.NoDup (map Check.check_number (checks db)).
Proof.
  intros Hok. apply (NoDup_map_by _ Check.id); [exact (lo_check_ids _ Hok)|].
  intros a b Ha Hb Hnum.
  destruct (lo_numbered _ Hok a Ha) as (na & Hna & Hba & Holda).
  destruct (lo_numbered _ Hok b Hb) as (nb & Hnb & Hbb & Holdb).
  assert (na = nb).
  { apply format_06d_injective; try lia.
    rewrite Hna, Hnb in Hnum. now inversion Hnum. }
  subst nb.
  destruct (Z.lt_trichotomy (Check.id a) (Check.id b)) as [Hlt|[Heq|Hgt]];
    [|exact Heq|].
  - specialize (Holdb a Ha Hlt). lia.
  - specialize (Holda b Hb Hgt). lia.
Qed.

(** In a ledger kept in order the number of the next check is free: the
    unique index on check_number does not refuse it. *)
Lemma ledger_ok_number_free db :
  ledger_ok db -> number_taken (next_check_number db) db = false.
Proof.
  intros Hok. unfold number_taken.
  destruct (existsb _ (checks db)) eqn:Hex; [|reflexivity].
  apply existsb_exists in Hex as (chk & Hin & Hnum).
  apply String.eqb_eq in Hnum.
  destruct (next_check_value_bounds db (lo_keys _ Hok)) as [Hbound Hlt].
  specialize (Hlt _ Hin).
  destruct (lo_numbered _ Hok chk Hin) as (n & Hn & Hb & _).
  assert (n = next_check_value db).
  { apply format_06d_injective; try lia.
    rewrite Hn in Hnum. unfold next_check_number in Hnum.
    now inversion Hnum. }
  lia.
Qed.

Section Runs.

Variable Decimal : string -> option PyDecimal.
Variable parse_date : PyDate -> string -> DateParse.
Variable decode_utf8_sig : string -> Outcome string.
Variable DictReader : string -> CsvReader.
Variable load_workbook : string -> Outcome Worksheet.
Variable splitext_ext : string -> string.
Variable set_iter : list string -> list string.

Local Abbreviation serve' :=
  (serve Decimal parse_date decode_utf8_sig DictReader load_workbook
         splitext_ext set_iter).
Local Abbreviation run' :=
  (run_requests Decimal parse_date decode_utf8_sig DictReader load_workbook
                splitext_ext set_iter).

(** X5. Whatever create, import, update, approve and generate-check
    requests are served, by whomever, starting from a ledger without
    invoices and checks: no two invoices share an id or an invoice number,
    and every invoice id has been handed out by the sequence. *)
Theorem invoice_keys_stay_unique :
  forall db0 reqs,
    fresh_ledger db0 ->
    List.NoDup (map Invoice.id (invoices (run' reqs db0)))
    /\ List.NoDup (map Invoice.invoice_number (invoices (run' reqs db0)))
    /\ forall inv, In inv (invoices (run' reqs db0)) ->
         (Invoice.id inv <= invoices_id_seq (run' reqs db0))%Z.
Proof.
  intros db0 reqs Hfresh.
  pose proof (run_ledger_ok Decimal parse_date decode_utf8_sig DictReader
                load_workbook splitext_ext set_iter reqs db0
                (fresh_ledger_ok db0 Hfresh)) as Hok.
  split; [exact (lo_invoice_ids _ Hok)|].
  split; [exact (lo_numbers _ Hok) | exact (lo_invoice_seq _ Hok)].
Qed.

(** X6. After any such run, every check belongs to exactly one invoice:
    there is an invoice whose check_id is the check's id, no other invoice
    names that check, and the check carries that invoice's amount and
    vendor, whatever updates the invoice has seen since.  Conversely the
    check_id of an invoice always names a check that exists. *)
Theorem check_belongs_to_one_invoice :
  forall db0 reqs,
    fresh_ledger db0 ->
    (forall chk, In chk (checks (run' reqs db0)) ->
       exists inv,
         In inv (invoices (run' reqs db0))
         /\ Invoice.check_id inv = Some (Check.id chk)
         /\ Check.amount chk = Invoice.amount inv
         /\ Check.vendor_id chk = Invoice.vendor_id inv
         /\ forall other, In other (invoices (run' reqs db0)) ->
              Invoice.check_id other = Some (Check.id chk) -> other = inv)
    /\ (forall inv c, In inv (invoices (run' reqs db0)) ->
          Invoice.check_id inv = Some c ->
          exists chk, In chk (checks (run' reqs db0)) /\ Check.id chk = c).
Proof.
  intros db0 reqs Hfresh.
  pose proof (run_ledger_ok Decimal parse_date decode_utf8_sig DictReader
                load_workbook splitext_ext set_iter reqs db0
                (fresh_ledger_ok db0 Hfresh)) as Hok.
  split.
  - intros chk Hc. destruct (lo_owned _ Hok chk Hc) as (inv & Hin & Hid).
    destruct (lo_match _ Hok inv chk Hin Hc Hid) as [Ha Hv].
    exists inv. repeat split; auto.
    intros other Ho Hoc. apply (lo_one_invoice _ Hok other inv _ Ho Hin Hoc Hid).
  - destruct (lo_keys _ Hok) as (_ & _ & Hfk). exact Hfk.
Qed.

(** X7. After any such run no two checks share an id or a check number,
    and the number the next check would be given is not yet on a check: so
    the unique constraint on check_number is never put to the test by
    sequential issuance. *)
Theorem check_numbers_stay_unique :
  forall db0 reqs,
    fresh_ledger db0 ->
    List.NoDup (map Check.id (checks (run' reqs db0)))
    /\ List.NoDup (map Check.check_number (checks (run' reqs db0)))
    /\ number_taken (next_check_number (run' reqs db0)) (run' reqs db0)
       = false.
Proof.
  intros db0 reqs Hfresh.
  pose proof (run_ledger_ok Decimal parse_date decode_utf8_sig DictReader
                load_workbook splitext_ext set_iter reqs db0
                (fresh_ledger_ok db0 Hfresh)) as Hok.
  split; [exact (lo_check_ids _ Hok)|].
  split; [now apply ledger_ok_check_numbers | now apply ledger_ok_number_free].
Qed.

Lemma serve_forward req today current_user db :
  is_update req = false ->
  (forall inv, In inv (invoices db) -> on_forward_path inv) ->
  forall inv, In inv (invoices (serve' req today current_user db)) ->
    on_forward_path inv.
Proof.
  intros Hreq Hall inv.
  destruct (serve_cases Decimal parse_date decode_utf8_sig DictReader
              load_workbook splitext_ext set_iter req today current_user db)
    as [[-> | ->] | [(mk_row & Hrow & _ & ->)
       | [(old & inv' & Hfind & _ & -> & Hkind)
       | (body & invoice & _ & _ & _ & _ & ->)]]].
  - apply Hall.
  - apply Hall.
  - cbn. intros Hin. apply in_app_or in Hin as [Hin|[<-|[]]]; [auto|].
    left. split; apply Hrow.
  - cbn. intros Hin. apply In_replace in Hin as [->|Hin]; [|auto].
    destruct Hkind as [Hup|[Hpending ->]]; [congruence|].
    apply find_invoice_In in Hfind.
    destruct (Hall _ Hfind) as [[_ Hn]|[[Hs _]|[Hs _]]]; try congruence.
    right. left. split; [reflexivity | exact Hn].
  - cbn. intros Hin. apply In_replace in Hin as [->|Hin]; [|auto].
    right. right. split; [reflexivity | discriminate].
Qed.

(** X8. Without update requests the workflow only moves forward: after
    any run of create, import, approve and generate-check requests from a
    ledger without invoices, every invoice is PENDING or APPROVED without
    a check, or CHECK_GENERATED with one; so check_id is set exactly when
    the status is CHECK_GENERATED. *)
Theorem forward_only_without_update :
  forall db0 reqs,
    invoices db0 = [] ->
    Forall (fun r => is_update (fst (fst r)) = false) reqs ->
    forall inv, In inv (invoices (run' reqs db0)) ->
      on_forward_path inv
      /\ (Invoice.check_id inv <> None
          <-> Invoice.status inv = "CHECK_GENERATED").
Proof.
  intros db0 reqs Hnil Hreqs.
  assert (Hall : forall inv, In inv (invoices (run' reqs db0)) ->
                   on_forward_path inv).
  { assert (H0 : forall inv, In inv (invoices db0) -> on_forward_path inv)
      by (rewrite Hnil; intros inv []).
    clear Hnil. revert db0 H0.
    induction Hreqs as [|[[req today] u] reqs Hreq _ IH]; intros db0 H0;
      [exact H0|].
    cbn. apply IH. now apply serve_forward. }
  intros inv Hin. specialize (Hall inv Hin). split; [exact Hall|].
  destruct Hall as [[Hs Hn]|[[Hs Hn]|[Hs Hn]]]; rewrite Hs; split;
    intros H; try congruence; try discriminate.
Qed.

End Runs.

(** ** Updates, manual entry and the workflow end to end *)

(** X9. A successful update rewrites the notes and the status of the one
    invoice it names, each only when the request sets it, and nothing else:
    every other column of that invoice, every other invoice, and the
    vendors, checks and users are as before.  A request that sets status to
    null raises and, inside the session, leaves the store as it was. *)
Theorem update_touches_notes_and_status_only :
  forall invoice_id body current_user db,
    (forall resp db',
        update_invoice invoice_id body current_user db = (Return resp, db') ->
        exists inv inv',
          find_invoice invoice_id db = Some inv
          /\ find_invoice invoice_id db' = Some inv'
          /\ same_but_notes_status inv inv'
          /\ Invoice.notes inv' = patched (u_notes body) (Invoice.notes inv)
          /\ Invoice.status inv'
             = match u_status body with
               | Some (Some s) => s
               | _ => Invoice.status inv
               end
          /\ (forall k, k <> invoice_id ->
                find_invoice k db' = find_invoice k db)
          /\ length (invoices db') = length (invoices db)
          /\ vendors db' = vendors db /\ checks db' = checks db
          /\ users db' = users db)
    /\ (u_status body = Some None ->
        exists e,
          get_db (update_invoice invoice_id body current_user) db
          = (Raise e, db)).
Proof.
  intros invoice_id body current_user db. split.
  - intros resp db'. unfold update_invoice. run_session.
    destruct (find_invoice invoice_id db) as [inv|] eqn:Hfind;
      [|discriminate].
    pose proof (find_invoice_id _ _ _ Hfind) as Hid. subst invoice_id.
    destruct (patch_notes_same body inv) as [Hsame Hst].
    assert (Hnotes : Invoice.notes (patch_notes body inv)
                     = patched (u_notes body) (Invoice.notes inv))
      by (unfold patch_notes, patched; now destruct (u_notes body)).
    assert (Hpid : Invoice.id (patch_notes body inv) = Invoice.id inv)
      by (destruct Hsame as [H _]; now symmetry).
    unfold find_invoice in *.
    destruct (u_status body) as [[s|]|]; cbn; [|discriminate|];
      intros H; inversion H; subst; clear H; cbn; rewrite Hpid.
    + exists inv, (Invoice.with_status s (patch_notes body inv)).
      split; [reflexivity|].
      split; [eapply find_replace_same; [exact Hpid | exact Hfind]|].
      split; [exact Hsame|]. split; [exact Hnotes|]. split; [reflexivity|].
      split; [intros k Hk; now apply find_replace_other|].
      rewrite length_map. auto.
    + exists inv, (patch_notes body inv).
      split; [reflexivity|].
      split; [eapply find_replace_same; [exact Hpid | exact Hfind]|].
      split; [exact Hsame|]. split; [exact Hnotes|]. split; [exact Hst|].
      split; [intros k Hk; now apply find_replace_other|].
      rewrite length_map. auto.
  - intros Hnull. unfold get_db, update_invoice. run_session.
    destruct (find_invoice invoice_id db); rewrite ?Hnull;
      rewrite rollback_same; eexists; reflexivity.
Qed.

Section ManualEntry.

Variable Decimal : string -> option PyDecimal.
Variable parse_date : PyDate -> string -> DateParse.
Variable splitext_ext : string -> string.
Variable set_iter : list string -> list string.

Local Abbreviation create' :=
  (create_invoice_manual Decimal parse_date splitext_ext set_iter).

Lemma find_vendor_id vendor_id db v :
  find_vendor vendor_id db = Some v -> Vendor.id v = vendor_id.
Proof.
  unfold find_vendor. intros H. apply find_some in H as [_ H]. lia.
Qed.

Lemma find_none_bounded (l : list Invoice.t) bound k :
  (forall inv, In inv l -> (Invoice.id inv <= bound)%Z) ->
  (bound < k)%Z ->
  find (fun i => Invoice.id i =? k)%Z l = None.
Proof.
  intros Hb Hk. induction l as [|x l IH]; cbn; [reflexivity|].
  replace (Invoice.id x =? k)%Z with false.
  - apply IH. intros inv Hin. apply Hb. now right.
  - symmetry. apply Z.eqb_neq. specialize (Hb x (or_introl eq_refl)). lia.
Qed.

(** X10. A manual entry that returns has appended exactly one invoice:
    PENDING, without a check, under the requested number, for the vendor
    named by id, entered by the caller, with the next id of the sequence.
    That number was not in the ledger before and is found afterwards; the
    response is what reading the invoice back by its id returns.  Entering
    the same number again raises "already exists" and changes nothing
    whenever the amount and the date of the new entry pass their
    validation, which comes before the duplicate test: so when the same
    entry is repeated on the same day, and on any day on which dateutil
    still reads its date. *)
Theorem create_then_found :
  forall invoice_number store_number vendor_id amount invoice_date notes
         file uuid_hex today current_user db resp db',
    (forall inv, In inv (invoices db) ->
       (Invoice.id inv <= invoices_id_seq db)%Z) ->
    create' invoice_number store_number vendor_id amount invoice_date notes
            file uuid_hex today current_user db = (Return resp, db') ->
    exists inv,
      invoices db' = (invoices db ++ [inv])%list
      /\ Invoice.id inv = (invoices_id_seq db + 1)%Z
      /\ r_id resp = Invoice.id inv
      /\ Invoice.invoice_number inv = invoice_number
      /\ Invoice.status inv = "PENDING"
      /\ Invoice.check_id inv = None
      /\ Invoice.vendor_id inv = vendor_id
      /\ Invoice.imported_by_id inv = Some (User.id current_user)
      /\ find_invoice_by_number invoice_number db = None
      /\ find_invoice_by_number invoice_number db' = Some inv
      /\ (forall reader, get_invoice (r_id resp) reader db' = (Return resp, db'))
      /\ (forall store_number' vendor_id' notes' file' uuid_hex' user',
            create' invoice_number store_number' vendor_id' amount
                    invoice_date notes' file' uuid_hex' today user' db'
            = (Raise (HTTPException 400
                        ("Invoice " ++ invoice_number ++ " already exists")),
               db'))
      /\ (forall store_number' vendor_id' amount' invoice_date' notes' file'
                 uuid_hex' today' user' amt d,
            Decimal amount' = Some amt ->
            parse_date today' invoice_date' = ParsedDate d ->
            create' invoice_number store_number' vendor_id' amount'
                    invoice_date' notes' file' uuid_hex' today' user' db'
            = (Raise (HTTPException 400
                        ("Invoice " ++ invoice_number ++ " already exists")),
               db')).
Proof.
  intros invoice_number store_number vendor_id amount invoice_date notes
    file uuid_hex today current_user db resp db' Hseq.
  unfold create_invoice_manual. run_session.
  destruct (Decimal amount) as [amt|] eqn:Hamt; [|discriminate].
  destruct (parse_date today invoice_date) as [d| |e] eqn:Hdate;
    try discriminate.
  destruct (find_invoice_by_number invoice_number db) eqn:Hnum;
    [discriminate|]. cbn [bool_of].
  destruct (find_vendor vendor_id db) as [vendor|] eqn:Hv; [|discriminate].
  destruct (save_attachment_pure splitext_ext set_iter file uuid_hex db)
    as [o ->].
  destruct o as [name|e]; [|discriminate].
  cbn. intros H. inversion H; subst; clear H.
  eexists. split; [reflexivity|]. cbn.
  assert (Hnew : forall row : Invoice.t,
            Invoice.invoice_number row = invoice_number ->
            find (fun i => String.eqb (Invoice.invoice_number i) invoice_number)
                 (invoices db ++ [row]) = Some row).
  { intros row Hrow. rewrite find_app_last.
    unfold find_invoice_by_number in Hnum. rewrite Hnum, Hrow.
    now rewrite String.eqb_refl. }
  do 5 (split; [reflexivity|]).
  split; [exact (find_vendor_id _ _ _ Hv)|].
  split; [reflexivity|]. split; [reflexivity|]. split; [|split; [|split]].
  - unfold find_invoice_by_number. cbn. now apply Hnew.
  - intros reader. unfold get_invoice, find_invoice. run_session. cbn.
    rewrite find_app_last.
    rewrite (find_none_bounded _ (invoices_id_seq db)) by (auto; lia).
    cbn. rewrite Z.eqb_refl. reflexivity.
  - intros store_number' vendor_id' notes' file' uuid_hex' user'.
    unfold find_invoice_by_number. cbn.
    rewrite Hnew by reflexivity. reflexivity.
  - intros store_number' vendor_id' amount' invoice_date' notes' file'
      uuid_hex' today' user' amt' d' Hamt' Hdate'.
    rewrite Hamt', Hdate'. unfold find_invoice_by_number. cbn.
    rewrite Hnew by reflexivity. reflexivity.
Qed.

End ManualEntry.

Lemma keys_ok_flush_invoice db inv inv' :
  keys_ok db ->
  In inv (invoices db) ->
  Invoice.check_id inv' = Invoice.check_id inv ->
  keys_ok (snd (flush_invoice inv' db)).
Proof.
  intros (Hs & Hpk & Hfk) Hin Hc. unfold keys_ok. cbn.
  split; [exact Hs|]. split; [exact Hpk|].
  intros x c Hx Hxc. apply In_replace in Hx as [->|Hx]; [|eauto].
  apply (Hfk inv); [exact Hin | congruence].
Qed.

(** The invoice a new check is joined to is the one it was issued for. *)
Lemma find_invoice_of_check_issued db body today invoice :
  keys_ok db ->
  find_invoice (g_invoice_id body) db = Some invoice ->
  find_invoice_of_check (checks_id_seq db + 1)
    (issued_store body today invoice db)
  = Some (issued_invoice invoice db).
Proof.
  intros (Hs & Hpk & Hfk) Hfind.
  pose proof (find_invoice_id _ _ _ Hfind) as Hid.
  assert (Hold : forall x c, In x (invoices db) ->
            Invoice.check_id x = Some c -> (c <= checks_id_seq db)%Z).
  { intros x c Hx Hc. destruct (Hfk _ _ Hx Hc) as (chk & Hchk & <-).
    specialize (Hpk _ Hchk). lia. }
  unfold find_invoice_of_check, find_invoice in *. cbn.
  rewrite <- Hid in Hfind. clear Hfk Hpk Hid.
  induction (invoices db) as [|x l IH]; [discriminate|].
  cbn in *. destruct (Invoice.id x =? Invoice.id invoice)%Z eqn:E.
  - cbn. now rewrite Z.eqb_refl.
  - assert (Hl : forall y c, In y l -> Invoice.check_id y = Some c ->
                   (c <= checks_id_seq db)%Z)
      by (intros y c Hy; apply Hold; now right).
    destruct (Invoice.check_id x) as [c|] eqn:Hc.
    + replace (c =? checks_id_seq db + 1)%Z with false.
      * now apply IH.
      * symmetry. apply Z.eqb_neq.
        specialize (Hold x c (or_introl eq_refl) Hc). lia.
    + now apply IH.
Qed.

(** X11. The workflow end to end, in a ledger that the requests have
    kept in order: an existing PENDING invoice without a check can be
    approved and then given its check, whenever the memo of the check fits
    its column.  Both calls return; afterwards the invoice is
    CHECK_GENERATED and holds the id of the new check, its other columns
    are as they were, exactly one check row was added, and the check
    response carries the invoice's amount, vendor and number and the next
    check number of the store. *)
Theorem approve_then_generate :
  forall invoice_id memo today approver issuer db inv,
    ledger_ok db ->
    find_invoice invoice_id db = Some inv ->
    Invoice.status inv = "PENDING" ->
    Invoice.check_id inv = None ->
    fits_varchar 500 (memo_or_default memo inv) = true ->
    exists r1 db1 r2 db2 inv2,
      approve_invoice invoice_id approver db = (Return r1, db1)
      /\ r_status r1 = "APPROVED"
      /\ generate_check (mkGenerateCheckRequest invoice_id memo) today issuer
           db1 = (Return r2, db2)
      /\ find_invoice invoice_id db2 = Some inv2
      /\ Invoice.status inv2 = "CHECK_GENERATED"
      /\ Invoice.check_id inv2 = Some (c_id r2)
      /\ same_but_check_status inv inv2
      /\ c_amount r2 = Invoice.amount inv
      /\ c_vendor_id r2 = Invoice.vendor_id inv
      /\ c_invoice_number r2 = Some (Invoice.invoice_number inv)
      /\ c_check_number r2 = next_check_number db
      /\ c_id r2 = (checks_id_seq db + 1)%Z
      /\ length (checks db2) = S (length (checks db)).
Proof.
  intros invoice_id memo today approver issuer db inv Hok Hfind Hst Hnone
    Hfits.
  pose proof (lo_keys _ Hok) as Hkeys.
  pose proof (find_invoice_id _ _ _ Hfind) as Hid. subst invoice_id.
  pose proof (find_invoice_In _ _ _ Hfind) as Hin.
  set (inv1 := Invoice.with_status "APPROVED" inv).
  set (db1 := snd (flush_invoice inv1 db)).
  assert (Happ : approve_invoice (Invoice.id inv) approver db
                 = (Return (_to_response inv1 db1), db1)).
  { unfold approve_invoice. run_session. rewrite Hfind, Hst. reflexivity. }
  assert (Hfind1 : find_invoice (Invoice.id inv) db1 = Some inv1).
  { unfold find_invoice, db1. cbn.
    eapply find_replace_same; [reflexivity|].
    unfold find_invoice in Hfind. exact Hfind. }
  assert (Hok1 : ledger_ok db1).
  { apply (ledger_ok_flush_invoice db inv inv1 Hok); [exact Hfind|].
    unfold same_but_notes_status. cbn. repeat split. }
  pose proof (lo_keys _ Hok1) as Hkeys1.
  set (body := mkGenerateCheckRequest (Invoice.id inv) memo).
  assert (Hgen : generate_check body today issuer db1
                 = (Return (_check_to_response
                              (issued_check body today inv1 db1)
                              (issued_store body today inv1 db1)),
                    issued_store body today inv1 db1)).
  { apply generate_check_success; [exact Hfind1 | reflexivity | | |].
    - cbn. now rewrite Hnone.
    - exact Hfits.
    - now apply ledger_ok_number_free. }
  exists (_to_response inv1 db1), db1,
    (_check_to_response (issued_check body today inv1 db1)
       (issued_store body today inv1 db1)),
    (issued_store body today inv1 db1), (issued_invoice inv1 db1).
  split; [exact Happ|]. split; [reflexivity|].
  split; [exact Hgen|].
  split.
  { unfold find_invoice. cbn.
    eapply find_replace_same; [reflexivity|].
    unfold find_invoice in Hfind1. exact Hfind1. }
  split; [reflexivity|]. split; [reflexivity|].
  split; [unfold same_but_check_status; cbn; repeat split|].
  split; [reflexivity|]. split; [reflexivity|].
  split.
  { cbn [c_invoice_number _check_to_response issued_check Check.id].
    rewrite (find_invoice_of_check_issued db1 body today inv1 Hkeys1 Hfind1).
    reflexivity. }
  split; [reflexivity|]. split; [reflexivity|].
  cbn. rewrite length_app. cbn. lia.
Qed.

(** ** Accounts *)

Lemma replaced_by_key {A} (key : A -> Z) (l : list A) k row old :
  List.NoDup (map key l) ->
  find (fun i => key i =? k)%Z l = Some old ->
  key row = k ->
  (forall x,
      In x (map (fun i => if (key i =? k)%Z then row else i) l)
      <-> x = row \/ (In x l /\ x <> old))
  /\ (forall {B} (f : A -> B), f row = f old ->
        map f (map (fun i => if (key i =? k)%Z then row else i) l)
        = map f l).
Proof.
  intros Hnd Hfind Hrow.
  apply find_some in Hfind as [Hold Hk]. apply Z.eqb_eq in Hk.
  assert (Huniq : forall y, In y l -> key y = k -> y = old).
  { intros y Hy Hid. eapply (NoDup_map_injective key); eauto. congruence. }
  split.
  - intros x. rewrite in_map_iff. split.
    + intros (y & Hy & Hin). destruct (key y =? k)%Z eqn:E.
      * now left.
      * right. subst x. split; [exact Hin|].
        intros ->. apply Z.eqb_neq in E. contradiction.
    + intros [->|[Hin Hne]].
      * exists old. split; [|exact Hold].
        replace (key old =? k)%Z with true by (symmetry; now apply Z.eqb_eq).
        reflexivity.
      * exists x. split; [|exact Hin].
        destruct (key x =? k)%Z eqn:E; [|reflexivity].
        apply Z.eqb_eq in E. exfalso. apply Hne. now apply Huniq.
  - intros B f Hf. rewrite map_map. apply map_ext_in. intros y Hy.
    destruct (key y =? k)%Z eqn:E; [|reflexivity].
    apply Z.eqb_eq in E. rewrite (Huniq y Hy E). exact Hf.
Qed.

Lemma find_user_by_email_none email db :
  find_user_by_email email db = None ->
  ~ In email (map User.email (users db)).
Proof.
  unfold find_user_by_email. intros Hnone Hin.
  apply in_map_iff in Hin as (u & Hu & Hin).
  eapply find_none in Hnone; [|exact Hin]. cbn in Hnone.
  rewrite Hu, String.eqb_refl in Hnone. discriminate.
Qed.

Lemma users_ok_add db mk_row :
  users_ok db ->
  User.id (mk_row (users_id_seq db + 1)%Z) = (users_id_seq db + 1)%Z ->
  find_user_by_email (User.email (mk_row (users_id_seq db + 1)%Z)) db = None ->
  users_ok (snd (add_user mk_row db)).
Proof.
  intros (Hids & Hemails & Hseq) Hid Hnone. unfold users_ok. cbn.
  rewrite !map_app. cbn. repeat split.
  - apply NoDup_snoc; [exact Hids|]. intros Hin.
    apply in_map_iff in Hin as (u & Hu & Hin). specialize (Hseq _ Hin). lia.
  - apply NoDup_snoc; [exact Hemails|]. now apply find_user_by_email_none.
  - intros u Hin. apply in_app_or in Hin as [Hin|[<-|[]]].
    + specialize (Hseq _ Hin). lia.
    + lia.
Qed.

Lemma users_ok_flush db user user' :
  users_ok db ->
  find_user (User.id user') db = Some user ->
  User.email user' = User.email user ->
  users_ok (snd (flush_user user' db)).
Proof.
  intros (Hids & Hemails & Hseq) Hfind Hemail. unfold users_ok. cbn.
  unfold find_user in Hfind.
  destruct (replaced_by_key User.id (users db) (User.id user') user' user
              Hids Hfind eq_refl) as [Hin Hmap].
  apply find_some in Hfind as [Hold Hk]. apply Z.eqb_eq in Hk.
  repeat split.
  - rewrite Hmap; [exact Hids | congruence].
  - rewrite Hmap; [exact Hemails | congruence].
  - intros u Hu. apply Hin in Hu as [->|[Hu _]]; [|auto].
    rewrite <- Hk. auto.
Qed.

Section AccountFacts.

Variable hash_password : string -> string.
Variable verify_password : string -> string -> bool.
Variable create_access_token : string -> string -> string.

(** X12. The account routes keep the users table in order: after a
    signup, an admin-created user, a role change or an active toggle,
    whether it returned or raised, no two users share an id or an email. *)
Theorem accounts_stay_unique :
  forall db,
    users_ok db ->
    (forall body, users_ok (snd (get_db (signup hash_password body) db)))
    /\ (forall body admin,
          users_ok (snd (get_db (create_user hash_password body admin) db)))
    /\ (forall user_id role admin,
          users_ok (snd (get_db (update_user_role user_id role admin) db)))
    /\ (forall user_id admin,
          users_ok (snd (get_db (toggle_user_active user_id admin) db))).
Proof.
  intros db Hok.
  assert (Hsame : users_ok (rollback db db)) by now rewrite rollback_same.
  repeat apply conj.
  - intros body. unfold get_db, signup. run_session.
    destruct (String.length (s_password body) <? 6)%nat; [exact Hsame|].
    destruct (negb (Py.nonempty (Py.strip (s_full_name body))));
      [exact Hsame|].
    destruct (find_user_by_email (s_email body) db) eqn:Hf; [exact Hsame|].
    cbn.
    now apply (users_ok_add db (fun new_id =>
      User.mk new_id (s_email body) (hash_password (s_password body))
        (Py.strip (s_full_name body)) "VIEWER" false)).
  - intros body admin. unfold get_db, create_user. run_session.
    destruct (find_user_by_email (uc_email body) db) eqn:Hf; [exact Hsame|].
    cbn.
    now apply (users_ok_add db (fun new_id =>
      User.mk new_id (uc_email body) (hash_password (uc_password body))
        (uc_full_name body) (uc_role body) true)).
  - intros user_id role admin. unfold get_db, update_user_role. run_session.
    destruct (negb (existsb (String.eqb role) ["ADMIN"; "CLERK"; "VIEWER"]));
      [exact Hsame|].
    destruct (user_id =? User.id admin)%Z; [exact Hsame|].
    destruct (find_user user_id db) as [user|] eqn:Hf; [|exact Hsame].
    cbn. apply (users_ok_flush db user (User.with_role role user)); auto.
    cbn. unfold find_user in *.
    pose proof Hf as Hf'. apply find_some in Hf' as [_ Hk].
    apply Z.eqb_eq in Hk. now rewrite Hk.
  - intros user_id admin. unfold get_db, toggle_user_active. run_session.
    destruct (user_id =? User.id admin)%Z; [exact Hsame|].
    destruct (find_user user_id db) as [user|] eqn:Hf; [|exact Hsame].
    cbn.
    apply (users_ok_flush db user
             (User.with_is_active (negb (User.is_active user)) user)); auto.
    cbn. unfold find_user in *.
    pose proof Hf as Hf'. apply find_some in Hf' as [_ Hk].
    apply Z.eqb_eq in Hk. now rewrite Hk.
Qed.

Lemma find_user_none_bounded (l : list User.t) bound k :
  (forall u, In u l -> (User.id u <= bound)%Z) ->
  (bound < k)%Z ->
  find (fun u => User.id u =? k)%Z l = None.
Proof.
  intros Hb Hk. induction l as [|x l IH]; cbn; [reflexivity|].
  replace (User.id x =? k)%Z with false.
  - apply IH. intros u Hin. apply Hb. now right.
  - symmetry. apply Z.eqb_neq. specialize (Hb x (or_introl eq_refl)). lia.
Qed.

Lemma map_replace_bounded (l : list User.t) bound k row :
  (forall u, In u l -> (User.id u <= bound)%Z) ->
  (bound < k)%Z ->
  map (fun u => if (User.id u =? k)%Z then row else u) l = l.
Proof.
  intros Hb Hk. rewrite <- (map_id l) at 2. apply map_ext_in.
  intros u Hin. replace (User.id u =? k)%Z with false; [reflexivity|].
  symmetry. apply Z.eqb_neq. specialize (Hb u Hin). lia.
Qed.

(** X13. From signup to the first login.  A signup that returns has
    added exactly one user: a VIEWER, inactive, under the given email, with
    the trimmed name and the hashed password; the count of pending users
    has gone up by one.  Until the account is activated no password logs
    that email in: the login raises 401 or 403, and with the right password
    it raises the 403 "pending admin approval".  Once another user toggles
    the account active, the same login returns a token for that user. *)
Theorem signup_then_login :
  forall body db msg db',
    (forall u, In u (users db) -> (User.id u <= users_id_seq db)%Z) ->
    signup hash_password body db = (Return msg, db') ->
    exists user,
      users db' = (users db ++ [user])%list
      /\ user = User.mk (users_id_seq db + 1) (s_email body)
                  (hash_password (s_password body))
                  (Py.strip (s_full_name body)) "VIEWER" false
      /\ count_pending db' = (count_pending db + 1)%Z
      /\ (forall password,
            exists code detail,
              login verify_password create_access_token
                (mkLoginRequest (s_email body) password) db'
              = (Raise (HTTPException code detail), db')
              /\ (code = 401 \/ code = 403)%Z)
      /\ (verify_password (s_password body)
             (hash_password (s_password body)) = true ->
          login verify_password create_access_token
            (mkLoginRequest (s_email body) (s_password body)) db'
          = (Raise (HTTPException 403
                      "Your account is pending admin approval."), db')
          /\ forall admin,
               User.id admin <> User.id user ->
               exists user' db'',
                 toggle_user_active (User.id user) admin db'
                 = (Return user', db'')
                 /\ User.is_active user' = true
                 /\ count_pending db'' = count_pending db
                 /\ login verify_password create_access_token
                      (mkLoginRequest (s_email body) (s_password body)) db''
                    = (Return (create_access_token
                                 (Py.str_int (User.id user)) "VIEWER"),
                       db'')).
Proof.
  intros body db msg db' Hseq. unfold signup. run_session.
  destruct (String.length (s_password body) <? 6)%nat; [discriminate|].
  destruct (negb (Py.nonempty (Py.strip (s_full_name body))));
    [discriminate|].
  destruct (find_user_by_email (s_email body) db) eqn:Hf; [discriminate|].
  cbn. intros H. inversion H; subst; clear H.
  set (user := User.mk (users_id_seq db + 1) (s_email body)
                 (hash_password (s_password body))
                 (Py.strip (s_full_name body)) "VIEWER" false).
  assert (Hcount : forall (l : list User.t) (u : User.t),
            Z.of_nat (length (List.filter
                                (fun x => negb (User.is_active x))
                                (l ++ [u])))
            = (Z.of_nat (length (List.filter
                                   (fun x => negb (User.is_active x)) l))
               + if User.is_active u then 0 else 1)%Z).
  { intros l u. rewrite List.filter_app, length_app. cbn.
    destruct (User.is_active u); cbn; lia. }
  assert (Hmail : forall (u : User.t), User.email u = s_email body ->
            find (fun x => String.eqb (User.email x) (s_email body))
                 (users db ++ [u]) = Some u).
  { intros u Hu. rewrite find_app_last.
    unfold find_user_by_email in Hf. rewrite Hf, Hu.
    now rewrite String.eqb_refl. }
  exists user. split; [reflexivity|]. split; [reflexivity|].
  split; [unfold count_pending; cbn; apply Hcount|].
  split.
  - intros password. unfold login, find_user_by_email. run_session. cbn.
    rewrite (Hmail user eq_refl). cbn.
    destruct (verify_password password (hash_password (s_password body)));
      cbn; eexists _, _; (split; [reflexivity | auto]).
  - intros Hverify. split.
    + unfold login, find_user_by_email. run_session. cbn.
      rewrite (Hmail user eq_refl). cbn. now rewrite Hverify.
    + intros admin Hadmin.
      unfold toggle_user_active, find_user. run_session. cbn.
      replace (users_id_seq db + 1 =? User.id admin)%Z with false
        by (symmetry; apply Z.eqb_neq; cbn in Hadmin; lia).
      cbn [users]. rewrite find_app_last.
      rewrite (find_user_none_bounded _ (users_id_seq db)) by (auto; lia).
      cbn. rewrite Z.eqb_refl. cbn.
      eexists _, _. split; [reflexivity|]. split; [reflexivity|].
      rewrite map_app. cbn. rewrite Z.eqb_refl.
      rewrite (map_replace_bounded _ (users_id_seq db)) by (auto; lia).
      split.
      * unfold count_pending. cbn. rewrite Hcount. cbn. lia.
      * unfold login, find_user_by_email. run_session. cbn.
        rewrite Hmail by reflexivity. cbn. now rewrite Hverify.
Qed.

End AccountFacts.

(** X16. Role changes and toggles on another user, in a users table with
    one user per id.  A role change that returns was asked for one of
    ADMIN, CLERK and VIEWER; the user it returns, which is the user then
    found under the id, has that role and the id, email, password hash,
    name and is_active of before; the other users and the other tables are
    untouched.  A toggle returns and stores the user with is_active
    negated and every other column as before, leaves the other users
    alone, and toggling twice gives back the users table as it was. *)
Theorem role_and_toggle_on_others :
  forall db user_id admin,
    List.NoDup (map User.id (users db)) ->
    (forall role user' db',
        update_user_role user_id role admin db = (Return user', db') ->
        exists user,
          find_user user_id db = Some user
          /\ In role ["ADMIN"; "CLERK"; "VIEWER"]
          /\ User.role user' = role
          /\ User.id user' = User.id user
          /\ User.email user' = User.email user
          /\ User.hashed_password user' = User.hashed_password user
          /\ User.full_name user' = User.full_name user
          /\ User.is_active user' = User.is_active user
          /\ find_user user_id db' = Some user'
          /\ (forall k, k <> user_id -> find_user k db' = find_user k db)
          /\ invoices db' = invoices db /\ checks db' = checks db
          /\ vendors db' = vendors db)
    /\ (forall user1 db1,
          toggle_user_active user_id admin db = (Return user1, db1) ->
          exists user,
            find_user user_id db = Some user
            /\ User.is_active user1 = negb (User.is_active user)
            /\ User.id user1 = User.id user
            /\ User.email user1 = User.email user
            /\ User.hashed_password user1 = User.hashed_password user
            /\ User.full_name user1 = User.full_name user
            /\ User.role user1 = User.role user
            /\ find_user user_id db1 = Some user1
            /\ (forall k, k <> user_id -> find_user k db1 = find_user k db)
            /\ exists user2 db2,
                 toggle_user_active user_id admin db1 = (Return user2, db2)
                 /\ user2 = user /\ users db2 = users db).
Proof.
  intros db user_id admin Hids.
  assert (Hsame : forall (row user : User.t),
    find_user user_id db = Some user -> User.id row = User.id user ->
    find_user user_id (snd (flush_user row db)) = Some row
    /\ forall k, k <> user_id ->
         find_user k (snd (flush_user row db)) = find_user k db).
  { intros row user Hf Hrow. unfold find_user in *. cbn.
    pose proof Hf as Hf'. apply find_some in Hf' as [Hin Hk].
    apply Z.eqb_eq in Hk. rewrite Hrow, Hk. split.
    - clear Hin. induction (users db) as [|x l IH]; cbn in *; [discriminate|].
      destruct (User.id x =? user_id)%Z eqn:E.
      + cbn. rewrite Hrow, Hk. now rewrite Z.eqb_refl.
      + rewrite E. apply IH; [|exact Hf]. now inversion Hids.
    - intros k Hne. clear Hf Hin.
      induction (users db) as [|x l IH]; cbn; [reflexivity|].
      destruct (User.id x =? user_id)%Z eqn:E.
      + apply Z.eqb_eq in E.
        replace (User.id row =? k)%Z with false
          by (symmetry; apply Z.eqb_neq; lia).
        replace (User.id x =? k)%Z with false
          by (symmetry; apply Z.eqb_neq; lia).
        apply IH. now inversion Hids.
      + destruct (User.id x =? k)%Z; [reflexivity|].
        apply IH. now inversion Hids. }
  split.
  - intros role user' db'. unfold update_user_role. run_session.
    destruct (existsb (String.eqb role) ["ADMIN"; "CLERK"; "VIEWER"])
      eqn:Hrole; cbn [negb]; [|discriminate].
    destruct (user_id =? User.id admin)%Z; [discriminate|].
    destruct (find_user user_id db) as [user|] eqn:Hf; [|discriminate].
    cbn. intros H. inversion H; subst; clear H.
    destruct (Hsame (User.with_role role user) user eq_refl eq_refl)
      as [Hnew Hother].
    exists user. split; [reflexivity|]. split.
    { apply existsb_exists in Hrole as (r & Hr & Heq).
      apply String.eqb_eq in Heq. now subst r. }
    do 6 (split; [reflexivity|]).
    repeat split; auto.
  - intros user1 db1. unfold toggle_user_active. run_session.
    destruct (user_id =? User.id admin)%Z eqn:Hadmin; [discriminate|].
    destruct (find_user user_id db) as [user|] eqn:Hf; [|discriminate].
    cbn. intros H. inversion H; subst; clear H.
    destruct (Hsame (User.with_is_active (negb (User.is_active user)) user)
                user eq_refl eq_refl) as [Hnew Hother].
    exists user. split; [reflexivity|]. do 6 (split; [reflexivity|]).
    split; [exact Hnew|]. split; [exact Hother|].
    cbn in Hnew. unfold find_user in Hnew. cbn in Hnew.
    unfold find_user. cbn. rewrite Hnew. cbn.
    eexists _, _. split; [reflexivity|].
    assert (Hback : forall u : User.t,
              User.with_is_active
                (negb (User.is_active
                         (User.with_is_active (negb (User.is_active u)) u)))
                (User.with_is_active (negb (User.is_active u)) u) = u).
    { intros [i e h f r a]. unfold User.with_is_active. cbn.
      now rewrite negb_involutive. }
    split; [apply Hback|].
    cbn. rewrite map_map. rewrite <- (map_id (users db)) at 2.
    apply map_ext_in. intros x Hx.
    unfold find_user in Hf. pose proof Hf as Hf'.
    apply find_some in Hf' as [Hin Hk]. apply Z.eqb_eq in Hk.
    destruct (User.id x =? User.id user)%Z eqn:E.
    + cbn. rewrite Z.eqb_refl. apply Z.eqb_eq in E.
      assert (x = user)
        by (eapply (NoDup_map_injective User.id); eauto).
      subst x. apply Hback.
    + now rewrite E.
Qed.

(** ** Vendors *)

Lemma find_vendor_by_name_none name db :
  find_vendor_by_name name db = None ->
  ~ In name (map Vendor.name (vendors db)).
Proof.
  unfold find_vendor_by_name. intros Hnone Hin.
  apply in_map_iff in Hin as (v & Hv & Hin).
  eapply find_none in Hnone; [|exact Hin]. cbn in Hnone.
  rewrite Hv, String.eqb_refl in Hnone. discriminate.
Qed.

Lemma vendors_ok_add db mk_row :
  vendors_ok db ->
  Vendor.id (mk_row (vendors_id_seq db + 1)%Z) = (vendors_id_seq db + 1)%Z ->
  find_vendor_by_name (Vendor.name (mk_row (vendors_id_seq db + 1)%Z)) db
  = None ->
  vendors_ok (snd (add_vendor mk_row db)).
Proof.
  intros (Hids & Hnames & Hseq) Hid Hnone. unfold vendors_ok. cbn.
  rewrite !map_app. cbn. repeat split.
  - apply NoDup_snoc; [exact Hids|]. intros Hin.
    apply in_map_iff in Hin as (v & Hv & Hin). specialize (Hseq _ Hin). lia.
  - apply NoDup_snoc; [exact Hnames|]. now apply find_vendor_by_name_none.
  - intros v Hin. apply in_app_or in Hin as [Hin|[<-|[]]].
    + specialize (Hseq _ Hin). lia.
    + lia.
Qed.

(** Replacing one row keeps the names distinct when no other row has the
    new name. *)
Lemma NoDup_names_replaced (l : list Vendor.t) row old :
  List.NoDup (map Vendor.id l) ->
  List.NoDup (map Vendor.name l) ->
  find (fun v => Vendor.id v =? Vendor.id row)%Z l = Some old ->
  existsb (fun v => negb (Vendor.id v =? Vendor.id row)%Z
                    && String.eqb (Vendor.name v) (Vendor.name row)) l
  = false ->
  List.NoDup (map Vendor.name
                (map (fun v => if (Vendor.id v =? Vendor.id row)%Z
                               then row else v) l)).
Proof.
  intros Hids Hnames Hfind Hfree.
  destruct (replaced_by_key Vendor.id l (Vendor.id row) row old Hids Hfind
              eq_refl) as [Hin _].
  apply (NoDup_map_by _ Vendor.id).
  - rewrite map_map.
    replace (map (fun x => Vendor.id (if (Vendor.id x =? Vendor.id row)%Z
                                      then row else x)) l)
      with (map Vendor.id l); [exact Hids|].
    apply map_ext_in. intros v _.
    destruct (Vendor.id v =? Vendor.id row)%Z eqn:E; [|reflexivity].
    now apply Z.eqb_eq in E.
  - assert (Hother : forall v, In v l -> v <> old ->
              Vendor.name v <> Vendor.name row).
    { intros v Hv Hne Hname.
      assert (Hid : Vendor.id v <> Vendor.id row).
      { intros Hid. apply Hne. apply find_some in Hfind as [Hold Hk].
        apply Z.eqb_eq in Hk.
        eapply (NoDup_map_injective Vendor.id); eauto. congruence. }
      assert (Hex : existsb (fun v => negb (Vendor.id v =? Vendor.id row)%Z
                       && String.eqb (Vendor.name v) (Vendor.name row)) l
                    = true); [|congruence].
      apply existsb_exists. exists v. split; [exact Hv|].
      rewrite Hname, String.eqb_refl, andb_true_r.
      apply negb_true_iff, Z.eqb_neq. exact Hid. }
    intros a b Ha Hb Hname.
    apply Hin in Ha as [->|[Ha Hna]]; apply Hin in Hb as [->|[Hb Hnb]].
    + reflexivity.
    + exfalso. apply (Hother b Hb Hnb). now symmetry.
    + exfalso. now apply (Hother a Ha Hna).
    + f_equal. eapply (NoDup_map_injective Vendor.name); eauto.
Qed.

(** X14. The vendor routes and the importer keep the vendor directory in
    order: after [create_vendor], [update_vendor] or
    [_find_or_create_vendor], whether it returned or raised, no two vendors
    share an id or a name.  Creating a vendor under a name that exists
    raises the 400 error; renaming a vendor to the name of another one
    raises at the flush; in both cases the store is as before. *)
Theorem vendor_names_stay_unique :
  forall db,
    vendors_ok db ->
    (forall body admin, vendors_ok (snd (get_db (create_vendor body admin) db)))
    /\ (forall vendor_id body admin,
          vendors_ok (snd (get_db (update_vendor vendor_id body admin) db)))
    /\ (forall name, vendors_ok (snd (_find_or_create_vendor name db)))
    /\ (forall body admin existing,
          In existing (vendors db) ->
          Vendor.name existing = vc_name body ->
          get_db (create_vendor body admin) db
          = (Raise (HTTPException 400 "Vendor with this name already exists"),
             db))
    /\ (forall vendor_id body admin vendor other name,
          find_vendor vendor_id db = Some vendor ->
          In other (vendors db) ->
          Vendor.id other <> Vendor.id vendor ->
          vu_name body = Some (Some name) ->
          Vendor.name other = name ->
          exists e,
            get_db (update_vendor vendor_id body admin) db = (Raise e, db)).
Proof.
  intros db Hok.
  assert (Hsame : vendors_ok (rollback db db)) by now rewrite rollback_same.
  refine (conj _ (conj _ (conj _ (conj _ _)))).
  - intros body admin. unfold get_db, create_vendor. run_session.
    destruct (find_vendor_by_name (vc_name body) db) eqn:Hf; [exact Hsame|].
    cbn.
    now apply (vendors_ok_add db (fun new_id =>
      Vendor.mk new_id (vc_name body) (vc_address body) (vc_city body)
        (vc_state body) (vc_zip_code body) (vc_phone body) (vc_email body))).
  - intros vendor_id body admin. unfold get_db, update_vendor. run_session.
    destruct (find_vendor vendor_id db) as [vendor|] eqn:Hf; [|exact Hsame].
    pose proof (find_vendor_id _ _ _ Hf) as Hid.
    destruct Hok as (Hids & Hnames & Hseq).
    assert (Hrow : forall row : Vendor.t,
      Vendor.id row = Vendor.id vendor ->
      vendors_ok (snd (get_db (flush_vendor row;; mret row) db))).
    { intros row Hrow. unfold get_db, flush_vendor. run_session.
      destruct (existsb _ (vendors db)) eqn:Hfree; [exact Hsame|].
      unfold vendors_ok. cbn.
      unfold find_vendor in Hf. rewrite <- Hid, <- Hrow in Hf.
      destruct (replaced_by_key Vendor.id (vendors db) (Vendor.id row) row
                  vendor Hids Hf eq_refl) as [Hin Hmap].
      repeat split.
      - rewrite Hmap; [exact Hids | exact Hrow].
      - eapply NoDup_names_replaced; eauto.
      - intros v Hv. apply Hin in Hv as [->|[Hv _]]; [|auto].
        rewrite Hrow. apply Hseq. apply find_some in Hf as [Hf _]. exact Hf. }
    destruct (vu_name body) as [[name|]|]; [|exact Hsame|].
    + specialize (Hrow (Vendor.mk (Vendor.id vendor) name
        (patched (vu_address body) (Vendor.address vendor))
        (patched (vu_city body) (Vendor.city vendor))
        (patched (vu_state body) (Vendor.state vendor))
        (patched (vu_zip_code body) (Vendor.zip_code vendor))
        (patched (vu_phone body) (Vendor.phone vendor))
        (patched (vu_email body) (Vendor.email vendor))) eq_refl).
      exact Hrow.
    + specialize (Hrow (Vendor.mk (Vendor.id vendor) (Vendor.name vendor)
        (patched (vu_address body) (Vendor.address vendor))
        (patched (vu_city body) (Vendor.city vendor))
        (patched (vu_state body) (Vendor.state vendor))
        (patched (vu_zip_code body) (Vendor.zip_code vendor))
        (patched (vu_phone body) (Vendor.phone vendor))
        (patched (vu_email body) (Vendor.email vendor))) eq_refl).
      exact Hrow.
  - intros name. unfold _find_or_create_vendor. run_session.
    destruct (find_vendor_by_name name db) eqn:Hf; [exact Hok|].
    now apply (vendors_ok_add db (fun new_id =>
      Vendor.mk new_id name None None None None None None)).
  - intros body admin existing Hin Hname.
    unfold get_db, create_vendor. run_session.
    destruct (find_vendor_by_name (vc_name body) db) eqn:Hf.
    + cbn. now rewrite rollback_same.
    + exfalso. apply (find_vendor_by_name_none _ _ Hf).
      apply in_map_iff. eauto.
  - intros vendor_id body admin vendor other name Hf Hin Hne Hset Hname.
    unfold get_db, update_vendor. run_session. rewrite Hf, Hset.
    unfold flush_vendor. cbn.
    replace (existsb _ (vendors db)) with true.
    + rewrite rollback_same. eexists; reflexivity.
    + symmetry. apply existsb_exists. exists other. split; [exact Hin|].
      rewrite Hname, String.eqb_refl, andb_true_r.
      apply negb_true_iff, Z.eqb_neq. exact Hne.
Qed.

(** ** The database URL *)

Lemma prefix_split (p s : string) :
  String.prefix p s = true -> exists rest, s = p ++ rest.
Proof.
  revert s. induction p as [|c p IH]; intros s H.
  - now exists s.
  - destruct s as [|d s]; cbn in H; [discriminate|].
    destruct (ascii_dec c d) as [->|]; [|discriminate].
    destruct (IH s H) as [rest ->]. now exists rest.
Qed.

Lemma substring_all (s : string) : substring 0 (String.length s) s = s.
Proof. induction s as [|c s IH]; cbn; [reflexivity | now rewrite IH]. Qed.

Lemma prefix_app (old rest : string) : String.prefix old (old ++ rest) = true.
Proof.
  induction old as [|c old IH].
  - now destruct rest.
  - change (match ascii_dec c c with
            | left _ => String.prefix old (old ++ rest)
            | right _ => false
            end = true).
    destruct (ascii_dec c c); [exact IH | congruence].
Qed.

Lemma substring_after (old rest : string) :
  substring (String.length old)
            (String.length (old ++ rest) - String.length old) (old ++ rest)
  = rest.
Proof.
  induction old as [|c old IH]; cbn.
  - now rewrite Nat.sub_0_r, substring_all.
  - exact IH.
Qed.

(** The leftmost occurrence is the one at the front, when there is one. *)
Lemma replace_first_front (old new rest : string) :
  replace_first old new (old ++ rest) = new ++ rest.
Proof.
  assert (Hstep : forall s,
    replace_first old new s
    = if String.prefix old s
      then new ++ substring (String.length old)
                    (String.length s - String.length old) s
      else match s with
           | String c s' => String c (replace_first old new s')
           | EmptyString => EmptyString
           end) by (intros s; destruct s; reflexivity).
  rewrite Hstep, prefix_app, substring_after. reflexivity.
Qed.

(** X15. The engine URL: a URL with the scheme postgresql:// gets the
    scheme postgresql+asyncpg:// and keeps everything after it; any other
    URL is passed through untouched; the result never has the bare scheme,
    so rewriting a rewritten URL changes nothing. *)
Theorem engine_url_scheme :
  (forall rest,
      engine_url ("postgresql://" ++ rest) = "postgresql+asyncpg://" ++ rest)
  /\ (forall url, startswith url "postgresql://" = false ->
        engine_url url = url)
  /\ (forall url, startswith (engine_url url) "postgresql://" = false)
  /\ (forall url, engine_url (engine_url url) = engine_url url).
Proof.
  assert (H1 : forall rest,
    engine_url ("postgresql://" ++ rest) = "postgresql+asyncpg://" ++ rest).
  { intros rest. unfold engine_url, startswith.
    now rewrite prefix_app, replace_first_front. }
  assert (H2 : forall url, startswith url "postgresql://" = false ->
                 engine_url url = url).
  { intros url H. unfold engine_url. now rewrite H. }
  assert (H3 : forall url, startswith (engine_url url) "postgresql://" = false).
  { intros url. destruct (startswith url "postgresql://") eqn:E.
    - apply prefix_split in E as [rest ->]. rewrite H1. reflexivity.
    - now rewrite H2. }
  repeat split; auto.
Qed.

(** ** Spreadsheet rows *)

Lemma row_dict_absent headers :
  forall (row : list PyVal) (acc : Row) (h : string),
    h ∉ headers -> row_dict headers row acc !! h = acc !! h.
Proof.
  induction headers as [|h0 hs IH]; intros row acc h Hh; [reflexivity|].
  cbn. apply not_elem_of_cons in Hh as [Hne Hh].
  rewrite IH by exact Hh. now rewrite lookup_insert_ne.
Qed.

Lemma row_dict_present headers :
  forall (row : list PyVal) (acc : Row) (i : nat) (h : string),
    NoDup headers ->
    headers !! i = Some h ->
    row_dict headers row acc !! h = Some (default VNone (row !! i)).
Proof.
  induction headers as [|h0 hs IH]; intros row acc i h Hnd Hi;
    [discriminate|].
  apply NoDup_cons in Hnd as [Hh0 Hnd]. cbn.
  destruct i as [|j]; cbn in Hi.
  - inversion Hi; subst h0. rewrite row_dict_absent by exact Hh0.
    rewrite lookup_insert_eq. now destruct row.
  - rewrite (IH _ _ j h Hnd Hi). now destruct row.
Qed.

(** X17. The dictionary built for a spreadsheet row, when the header
    names are distinct: the column named by the i-th header holds the i-th
    cell of the row, and None when the row is shorter than that; names
    that are no header are absent.  A column beyond the end of a short row
    therefore reads as the text None where the importer reads it with
    [str(row.get(...))], as it does invoice_number, vendor_name and amount,
    and as the empty text where it reads it with [or ""], as it does
    store_number, invoice_date and notes. *)
Theorem row_dict_columns :
  forall (headers : list string) (row : list PyVal),
    NoDup headers ->
    (forall i h, headers !! i = Some h ->
       row_dict headers row ∅ !! h = Some (default VNone (row !! i)))
    /\ (forall h, h ∉ headers -> row_dict headers row ∅ !! h = None)
    /\ (forall i h, headers !! i = Some h -> (length row <= i)%nat ->
          row_get (row_dict headers row ∅) h = VNone
          /\ field (row_dict headers row ∅) h = "None"
          /\ field_or_empty (row_dict headers row ∅) h = "").
Proof.
  intros headers row Hnd.
  assert (H1 : forall i h, headers !! i = Some h ->
            row_dict headers row ∅ !! h = Some (default VNone (row !! i)))
    by (intros i h Hi; now apply row_dict_present).
  split; [exact H1|]. split.
  - intros h Hh. now rewrite row_dict_absent.
  - intros i h Hi Hlen. unfold field, field_or_empty, row_get.
    rewrite (H1 i h Hi).
    rewrite (lookup_ge_None_2 row i) by lia. repeat split; reflexivity.
Qed.

(** ** Entries are kept *)

Lemma same_entry_refl a : same_entry a a.
Proof. unfold same_entry. repeat split. Qed.

Lemma same_entry_trans a b c :
  same_entry a b -> same_entry b c -> same_entry a c.
Proof.
  unfold same_entry.
  intros (A1 & A2 & A3 & A4 & A5 & A6 & A7 & A8 & A9 & A10)
         (B1 & B2 & B3 & B4 & B5 & B6 & B7 & B8 & B9 & B10).
  repeat split; try congruence.
  intros Ha. rewrite <- (A10 Ha). apply B10. rewrite (A10 Ha). exact Ha.
Qed.

Section Entries.

Variable Decimal : string -> option PyDecimal.
Variable parse_date : PyDate -> string -> DateParse.
Variable decode_utf8_sig : string -> Outcome string.
Variable DictReader : string -> CsvReader.
Variable load_workbook : string -> Outcome Worksheet.
Variable splitext_ext : string -> string.
Variable set_iter : list string -> list string.

Local Abbreviation serve' :=
  (serve Decimal parse_date decode_utf8_sig DictReader load_workbook
         splitext_ext set_iter).
Local Abbreviation run' :=
  (run_requests Decimal parse_date decode_utf8_sig DictReader load_workbook
                splitext_ext set_iter).

Lemma serve_keeps_entries req today current_user db inv :
  ledger_ok db ->
  In inv (invoices db) ->
  exists inv', In inv' (invoices (serve' req today current_user db))
               /\ same_entry inv inv'.
Proof.
  intros Hok Hin.
  pose proof (lo_invoice_ids _ Hok) as Hids.
  destruct (serve_cases Decimal parse_date decode_utf8_sig DictReader
              load_workbook splitext_ext set_iter req today current_user db)
    as [[-> | ->] | [(mk_row & _ & _ & ->)
       | [(old & row & Hfind & Hsame & -> & _)
       | (body & invoice & _ & Hfind & _ & Ht & ->)]]].
  - exists inv. split; [exact Hin | apply same_entry_refl].
  - exists inv. split; [exact Hin | apply same_entry_refl].
  - exists inv. split; [|apply same_entry_refl].
    cbn. apply in_or_app. now left.
  - unfold find_invoice in Hfind.
    destruct (replaced_rows (invoices db) (Invoice.id row) row old Hids Hfind
                eq_refl) as [Hrows _].
    apply find_invoice_list_some in Hfind as [Hold Hk].
    destruct (Z.eq_dec (Invoice.id inv) (Invoice.id row)) as [E|E].
    + assert (inv = old)
        by (eapply (NoDup_map_injective Invoice.id); eauto; congruence).
      subst inv. exists row. split; [cbn; apply Hrows; now left|].
      destruct Hsame as (S1 & S2 & S3 & S4 & S5 & S6 & S7 & S8 & S9 & S10).
      unfold same_entry. repeat split; auto.
    + exists inv. split; [|apply same_entry_refl].
      cbn. apply Hrows. right. split; [exact Hin | congruence].
  - pose proof (find_invoice_id _ _ _ Hfind) as Hid.
    pose proof (find_invoice_In _ _ _ Hfind) as Hold.
    unfold find_invoice in Hfind. rewrite <- Hid in Hfind.
    destruct (replaced_rows (invoices db) (Invoice.id invoice)
                (issued_invoice invoice db) invoice Hids Hfind eq_refl)
      as [Hrows _].
    destruct (Z.eq_dec (Invoice.id inv) (Invoice.id invoice)) as [E|E].
    + assert (inv = invoice)
        by (eapply (NoDup_map_injective Invoice.id); eauto).
      subst inv. exists (issued_invoice invoice db).
      split; [cbn; apply Hrows; now left|].
      unfold same_entry. cbn. repeat split.
      intros Hset. exfalso.
      destruct (Invoice.check_id invoice) as [c|] eqn:Hc; [|congruence].
      rewrite <- Hc in Ht.
      rewrite (keys_ok_check_id_truthy _ _ _ (lo_keys _ Hok) Hold Hc) in Ht.
      discriminate.
    + exists inv. split; [|apply same_entry_refl].
      cbn. apply Hrows. right. split; [exact Hin | congruence].
Qed.

(** X18. Nothing the invoice and check routes do removes an invoice or
    rewrites its identity: across any run of create, import, update,
    approve and generate-check requests, every invoice of a well-kept
    ledger is still there afterwards with the same id, number, store,
    vendor, amount, date, attachment, source and importer, and with the
    same check if it had one.  Only notes and status can have changed. *)
Theorem entries_are_kept :
  forall reqs db inv,
    ledger_ok db ->
    In inv (invoices db) ->
    exists inv', In inv' (invoices (run' reqs db)) /\ same_entry inv inv'.
Proof.
  induction reqs as [|[[req today] u] reqs IH]; intros db inv Hok Hin.
  - exists inv. split; [exact Hin | apply same_entry_refl].
  - cbn.
    destruct (serve_keeps_entries req today u db inv Hok Hin)
      as (inv1 & Hin1 & Hs1).
    destruct (IH _ inv1
                (serve_ledger_ok Decimal parse_date decode_utf8_sig
                   DictReader load_workbook splitext_ext set_iter req today
                   u db Hok) Hin1) as (inv' & Hin' & Hs').
    exists inv'. split; [exact Hin' | eapply same_entry_trans; eauto].
Qed.

End Entries.

(** ** The further properties on the sample data *)

Lemma import_three_run :
  Demo.import_three Sample.db0 = (Return Demo.summary_three, Demo.db_imported).
Proof. vm_compute. reflexivity. Qed.

Lemma fresh_db0 : fresh_ledger Sample.db0.
Proof. repeat split. cbn. lia. Qed.

Lemma import_summary_adds_up_witness :
  Demo.import_three Sample.db0 = (Return Demo.summary_three, Demo.db_imported)
  /\ total_rows Demo.summary_three = Z.of_nat (length Sample.three_rows)
  /\ (imported Demo.summary_three + skipped_duplicates Demo.summary_three
      + Z.of_nat (length (errors Demo.summary_three))
      = total_rows Demo.summary_three)%Z.
Proof.
  split; [exact import_three_run|].
  destruct (import_summary_adds_up DecimalSyntax.parse Sample.parse_date
              Sample.three_rows "csv" 2%Z Sample.today Sample.db0
              Demo.summary_three Demo.db_imported import_three_run)
    as (H1 & H2 & _).
  split; [exact H1 | exact H2].
Defined.

Lemma import_keeps_numbers_unique_witness :
  List.NoDup (map Invoice.invoice_number (invoices Sample.db0))
  /\ List.NoDup (map Invoice.invoice_number (invoices Demo.db_imported)).
Proof.
  assert (H0 : List.NoDup (map Invoice.invoice_number (invoices Sample.db0)))
    by constructor.
  split; [exact H0|].
  exact (import_keeps_numbers_unique DecimalSyntax.parse Sample.parse_date
           Sample.three_rows "csv" 2%Z Sample.today Sample.db0
           Demo.summary_three Demo.db_imported H0 import_three_run).
Defined.

Lemma reimport_imports_nothing_witness :
  (forall row, In row Sample.three_rows ->
     Sample.parse_date (mkdate 2024 4 2) (field_or_empty row "invoice_date")
     = Sample.parse_date Sample.today (field_or_empty row "invoice_date"))
  /\ _import_rows DecimalSyntax.parse Sample.parse_date Sample.three_rows
       "excel" 1 (mkdate 2024 4 2) Demo.db_imported
     = (Return (mkImportSummary 3 0 2 ["Row 3: invalid amount 'abc'"]),
        Demo.db_imported).
Proof.
  assert (Hsame : forall row, In row Sample.three_rows ->
            Sample.parse_date (mkdate 2024 4 2)
              (field_or_empty row "invoice_date")
            = Sample.parse_date Sample.today
                (field_or_empty row "invoice_date"))
    by (intros row _; reflexivity).
  split; [exact Hsame|].
  exact (reimport_imports_nothing DecimalSyntax.parse Sample.parse_date
           Sample.three_rows "csv" 2%Z Sample.today Sample.db0
           Demo.summary_three Demo.db_imported import_three_run
           "excel" 1%Z (mkdate 2024 4 2) Hsame).
Defined.

Lemma invoice_keys_stay_unique_witness :
  fresh_ledger Sample.db0
  /\ List.NoDup (map Invoice.invoice_number
                   (invoices (Demo.run Demo.workflow_with_note Sample.db0))).
Proof.
  split; [exact fresh_db0|].
  exact (proj1 (proj2
    (invoice_keys_stay_unique DecimalSyntax.parse Sample.parse_date
       Sample.decode_utf8_sig Sample.DictReader Sample.load_workbook
       Sample.splitext_ext Sample.set_iter Sample.db0
       Demo.workflow_with_note fresh_db0))).
Defined.

Lemma check_belongs_to_one_invoice_witness :
  fresh_ledger Sample.db0
  /\ exists inv,
       In inv (invoices (Demo.run Demo.workflow_with_note Sample.db0))
       /\ Invoice.check_id inv = Some (Check.id Sample.chk1)
       /\ Check.amount Sample.chk1 = Invoice.amount inv.
Proof.
  split; [exact fresh_db0|].
  destruct (check_belongs_to_one_invoice DecimalSyntax.parse
              Sample.parse_date Sample.decode_utf8_sig Sample.DictReader
              Sample.load_workbook Sample.splitext_ext Sample.set_iter
              Sample.db0 Demo.workflow_with_note fresh_db0) as [Hown _].
  destruct (Hown Sample.chk1 (or_introl eq_refl))
    as (inv & Hin & Hc & Ha & _).
  exists inv. auto.
Defined.

Lemma check_numbers_stay_unique_witness :
  fresh_ledger Sample.db0
  /\ List.NoDup (map Check.check_number
                   (checks (Demo.run Demo.workflow Sample.db0))).
Proof.
  split; [exact fresh_db0|].
  exact (proj1 (proj2
    (check_numbers_stay_unique DecimalSyntax.parse Sample.parse_date
       Sample.decode_utf8_sig Sample.DictReader Sample.load_workbook
       Sample.splitext_ext Sample.set_iter Sample.db0 Demo.workflow
       fresh_db0))).
Defined.

Lemma forward_only_without_update_witness :
  In Sample.inv1_issued (invoices (Demo.run Demo.workflow Sample.db0))
  /\ on_forward_path Sample.inv1_issued.
Proof.
  assert (Hin : In Sample.inv1_issued
                  (invoices (Demo.run Demo.workflow Sample.db0)))
    by (left; reflexivity).
  split; [exact Hin|].
  refine (proj1
    (forward_only_without_update DecimalSyntax.parse Sample.parse_date
       Sample.decode_utf8_sig Sample.DictReader Sample.load_workbook
       Sample.splitext_ext Sample.set_iter Sample.db0 Demo.workflow
       eq_refl _ Sample.inv1_issued Hin)).
  repeat constructor.
Defined.

Lemma update_touches_notes_and_status_only_witness :
  exists inv inv',
    find_invoice 1 Sample.db_issued = Some inv
    /\ find_invoice 1
         (Demo.run Demo.workflow_with_note Sample.db0) = Some inv'
    /\ same_but_notes_status inv inv'
    /\ Invoice.notes inv' = Some "paid by check"
    /\ Invoice.status inv' = Invoice.status inv.
Proof.
  destruct (update_invoice 1
              (mkInvoiceUpdate (Some (Some "paid by check")) None)
              Sample.viewer Sample.db_issued) as [[resp|e] db'] eqn:Hrun;
    [|exfalso; vm_compute in Hrun; discriminate].
  assert (Hdb : db' = Demo.run Demo.workflow_with_note Sample.db0).
  { assert (H : snd (update_invoice 1
                       (mkInvoiceUpdate (Some (Some "paid by check")) None)
                       Sample.viewer Sample.db_issued) = db')
      by now rewrite Hrun.
    rewrite <- H. vm_compute. reflexivity. }
  destruct (update_touches_notes_and_status_only 1
              (mkInvoiceUpdate (Some (Some "paid by check")) None)
              Sample.viewer Sample.db_issued) as [Hret _].
  destruct (Hret resp db' Hrun)
    as (inv & inv' & H1 & H2 & H3 & H4 & H5 & _).
  exists inv, inv'. rewrite <- Hdb. auto.
Defined.

Lemma create_then_found_witness :
  (forall inv, In inv (invoices Sample.db0) ->
     (Invoice.id inv <= invoices_id_seq Sample.db0)%Z)
  /\ exists inv,
       invoices Sample.db_pending = (invoices Sample.db0 ++ [inv])%list
       /\ Invoice.invoice_number inv = "INV-1"
       /\ find_invoice_by_number "INV-1" Sample.db_pending = Some inv
       /\ create_invoice_manual DecimalSyntax.parse Sample.parse_date
            Sample.splitext_ext Sample.set_iter "INV-1" "S2" 1 "99.00"
            "2024-03-01" "again" None "" (mkdate 2024 4 2) Sample.viewer
            Sample.db_pending
          = (Raise (HTTPException 400 "Invoice INV-1 already exists"),
             Sample.db_pending).
Proof.
  assert (Hseq : forall inv, In inv (invoices Sample.db0) ->
                   (Invoice.id inv <= invoices_id_seq Sample.db0)%Z)
    by (intros inv []).
  split; [exact Hseq|].
  destruct (create_invoice_manual DecimalSyntax.parse Sample.parse_date
              Sample.splitext_ext Sample.set_iter "INV-1" "S1" 1 "125.50"
              "2024-03-01" "" None "" Sample.today Sample.clerk Sample.db0)
    as [[resp|e] db'] eqn:Hrun; [|exfalso; vm_compute in Hrun; discriminate].
  assert (Hdb : db' = Sample.db_pending).
  { assert (H : snd (create_invoice_manual DecimalSyntax.parse
                       Sample.parse_date Sample.splitext_ext Sample.set_iter
                       "INV-1" "S1" 1 "125.50" "2024-03-01" "" None ""
                       Sample.today Sample.clerk Sample.db0) = db')
      by now rewrite Hrun.
    rewrite <- H. vm_compute. reflexivity. }
  destruct (create_then_found DecimalSyntax.parse Sample.parse_date
              Sample.splitext_ext Sample.set_iter "INV-1" "S1" 1 "125.50"
              "2024-03-01" "" None "" Sample.today Sample.clerk Sample.db0
              resp db' Hseq Hrun)
    as (inv & H1 & _ & _ & H4 & _ & _ & _ & _ & _ & H10 & _ & _ & Hagain).
  exists inv. rewrite <- Hdb. repeat split; auto.
  exact (Hagain "S2" 1%Z "99.00" "2024-03-01" "again" None "" (mkdate 2024 4 2)
           Sample.viewer (Finite false 9900 (-2)) (mkdate 2024 3 1)
           eq_refl eq_refl).
Defined.

Lemma ledger_ok_db_pending : ledger_ok Sample.db_pending.
Proof.
  exact (run_ledger_ok DecimalSyntax.parse Sample.parse_date
           Sample.decode_utf8_sig Sample.DictReader Sample.load_workbook
           Sample.splitext_ext Sample.set_iter
           [(Sample.create_inv1, Sample.today, Sample.clerk)] Sample.db0
           (fresh_ledger_ok Sample.db0 fresh_db0)).
Qed.

Lemma approve_then_generate_witness :
  ledger_ok Sample.db_pending
  /\ find_invoice 1 Sample.db_pending = Some Sample.inv1_pending
  /\ fits_varchar 500 (memo_or_default None Sample.inv1_pending) = true
  /\ exists r1 db1 r2 db2 inv2,
       approve_invoice 1 Sample.admin Sample.db_pending = (Return r1, db1)
       /\ generate_check (mkGenerateCheckRequest 1 None) Sample.today
            Sample.admin db1 = (Return r2, db2)
       /\ find_invoice 1 db2 = Some inv2
       /\ Invoice.status inv2 = "CHECK_GENERATED"
       /\ Invoice.check_id inv2 = Some (c_id r2)
       /\ c_amount r2 = Invoice.amount Sample.inv1_pending
       /\ c_invoice_number r2 = Some "INV-1".
Proof.
  split; [exact ledger_ok_db_pending|].
  split; [reflexivity|]. split; [reflexivity|].
  destruct (approve_then_generate 1 None Sample.today Sample.admin
              Sample.admin Sample.db_pending Sample.inv1_pending
              ledger_ok_db_pending eq_refl eq_refl eq_refl eq_refl)
    as (r1 & db1 & r2 & db2 & inv2 & H1 & _ & H3 & H4 & H5 & H6 & _ & H8 & _
        & H10 & _).
  exists r1, db1, r2, db2, inv2. auto 10.
Defined.

Ltac distinct_keys :=
  cbn; repeat (constructor;
               [cbn; intuition (try discriminate; try lia)|]);
  try constructor.

Lemma users_ok_db0 : users_ok Sample.db0.
Proof.
  unfold users_ok. split; [distinct_keys|]. split; [distinct_keys|].
  cbn. intros u [<-|[<-|[<-|[]]]]; cbn; lia.
Qed.

Lemma vendors_ok_db0 : vendors_ok Sample.db0.
Proof.
  unfold vendors_ok. split; [distinct_keys|]. split; [distinct_keys|].
  cbn. intros v [<-|[]]; cbn; lia.
Qed.

Lemma accounts_stay_unique_witness :
  users_ok Sample.db0 /\ users_ok Demo.db_signed_up.
Proof.
  split; [exact users_ok_db0|].
  destruct (accounts_stay_unique Demo.hash_password Sample.db0 users_ok_db0)
    as (Hsignup & _).
  exact (Hsignup Demo.signup_dana).
Defined.

Lemma signup_then_login_witness :
  exists user,
    users Demo.db_signed_up = (users Sample.db0 ++ [user])%list
    /\ count_pending Demo.db_signed_up = (count_pending Sample.db0 + 1)%Z
    /\ login Demo.verify_password Demo.create_access_token
         (mkLoginRequest "dana@example.com" "s3cret!") Demo.db_signed_up
       = (Raise (HTTPException 403
                   "Your account is pending admin approval."),
          Demo.db_signed_up).
Proof.
  assert (Hseq : forall u, In u (users Sample.db0) ->
                   (User.id u <= users_id_seq Sample.db0)%Z)
    by (apply users_ok_db0).
  assert (Hrun : signup Demo.hash_password Demo.signup_dana Sample.db0
                 = (Return signup_message, Demo.db_signed_up))
    by (vm_compute; reflexivity).
  destruct (signup_then_login Demo.hash_password Demo.verify_password
              Demo.create_access_token Demo.signup_dana Sample.db0 _ _
              Hseq Hrun) as (user & H1 & _ & H3 & _ & H5).
  exists user. split; [exact H1|]. split; [exact H3|].
  exact (proj1 (H5 eq_refl)).
Defined.

Lemma vendor_names_stay_unique_witness :
  vendors_ok Sample.db0
  /\ vendors_ok (snd (get_db (create_vendor Demo.bolt Sample.admin)
                        Sample.db0)).
Proof.
  split; [exact vendors_ok_db0|].
  destruct (vendor_names_stay_unique Sample.db0 vendors_ok_db0)
    as (Hcreate & _).
  exact (Hcreate Demo.bolt Sample.admin).
Defined.

Lemma role_and_toggle_on_others_witness :
  List.NoDup (map User.id (users Sample.db0))
  /\ exists user' db',
       update_user_role 2 "ADMIN" Sample.admin Sample.db0
       = (Return user', db')
       /\ User.role user' = "ADMIN"
       /\ User.email user' = User.email Sample.clerk
       /\ find_user 2 db' = Some user'.
Proof.
  assert (Hids : List.NoDup (map User.id (users Sample.db0)))
    by (apply users_ok_db0).
  split; [exact Hids|].
  destruct (update_user_role 2 "ADMIN" Sample.admin Sample.db0)
    as [[user'|e] db'] eqn:Hrun; [|exfalso; vm_compute in Hrun; discriminate].
  destruct (role_and_toggle_on_others Sample.db0 2 Sample.admin Hids)
    as [Hrole _].
  destruct (Hrole "ADMIN" user' db' Hrun)
    as (user & Hf & _ & Hu & _ & He & _ & _ & _ & Hnew & _).
  exists user', db'. split; [reflexivity|]. split; [exact Hu|].
  split; [|exact Hnew].
  rewrite He. vm_compute in Hf. now inversion Hf.
Defined.

Lemma row_dict_columns_witness :
  NoDup required_columns
  /\ row_dict required_columns [VStr "INV-7"] ∅ !! "amount" = Some VNone
  /\ field (row_dict required_columns [VStr "INV-7"] ∅) "amount" = "None"
  /\ field_or_empty (row_dict required_columns [VStr "INV-7"] ∅)
       "store_number" = "".
Proof.
  assert (Hnd : NoDup required_columns).
  { apply NoDup_ListNoDup. unfold required_columns. distinct_keys. }
  split; [exact Hnd|].
  destruct (row_dict_columns required_columns [VStr "INV-7"] Hnd)
    as (H1 & _ & H3).
  split; [exact (H1 3%nat "amount" eq_refl)|]. split.
  - apply (H3 3%nat "amount" eq_refl). cbn. lia.
  - apply (H3 1%nat "store_number" eq_refl). cbn. lia.
Defined.

Lemma entries_are_kept_witness :
  ledger_ok Sample.db_pending
  /\ In Sample.inv1_pending (invoices Sample.db_pending)
  /\ exists inv',
       In inv' (invoices (Demo.run Demo.workflow_with_note Sample.db0))
       /\ same_entry Sample.inv1_pending inv'.
Proof.
  assert (Hin : In Sample.inv1_pending (invoices Sample.db_pending))
    by (left; reflexivity).
  split; [exact ledger_ok_db_pending|]. split; [exact Hin|].
  exact (entries_are_kept DecimalSyntax.parse Sample.parse_date
           Sample.decode_utf8_sig Sample.DictReader Sample.load_workbook
           Sample.splitext_ext Sample.set_iter
           (tl Demo.workflow_with_note) Sample.db_pending
           Sample.inv1_pending ledger_ok_db_pending Hin).
Defined.

Lemma find_or_create_vendor_idempotent_witness :
  "Acme Tools" <> "Bolt Supply"
  /\ exists vendor db1,
       _find_or_create_vendor "Bolt Supply" Sample.db0 = (Return vendor, db1)
       /\ Vendor.name vendor = "Bolt Supply"
       /\ _find_or_create_vendor "Bolt Supply" db1 = (Return vendor, db1)
       /\ find_vendor_by_name "Acme Tools" db1
          = find_vendor_by_name "Acme Tools" Sample.db0.
Proof.
  split; [discriminate|].
  destruct (find_or_create_vendor_idempotent "Bolt Supply" Sample.db0)
    as (vendor & db1 & Hrun & Hname & _ & Hagain & Hother & _).
  exists vendor, db1. repeat split; try assumption.
  apply Hother. discriminate.
Defined.

Lemma engine_url_scheme_witness :
  startswith "sqlite:///checkprint.db" "postgresql://" = false
  /\ engine_url "sqlite:///checkprint.db" = "sqlite:///checkprint.db"
  /\ engine_url "postgresql://cps_user@localhost:5432/checkprint"
     = "postgresql+asyncpg://cps_user@localhost:5432/checkprint".
Proof.
  destruct engine_url_scheme as (Hrewrite & Hkeep & _ & _).
  split; [reflexivity|].
  split; [now apply Hkeep | exact (Hrewrite "cps_user@localhost:5432/checkprint")].
Defined.
